(** * jina_commons.indexers.dump: sharded streaming dump and import

    A shallow embedding of [jina_commons/indexers/dump.py] and the
    properties of its writer ([export_dump_streaming]) and of its readers
    ([import_vectors], [import_metas], [import_metas_and_vectors]).

    Modelling conventions.
    - Python [int] is [Z]; [//] and [%] are [Z.div] and [Z.modulo] (both
      round towards minus infinity, as Python does), with the division by
      zero made explicit.
    - [bytes] is [list byte].  A [str] is a [string] whose characters are
      the code points 0..255; a text file holds one byte per character and
      the platform's line separator is a single line feed.
    - A [float64] array element is the eight bytes it occupies in memory
      (native order), which is what [ndarray.tobytes] copies out and what
      [np.frombuffer] views.  Arrays are one-dimensional.
    - The file system is the tree found at the dump [path]; a shard name
      ([str(shard_id)] or [pea_id]) is one entry name of that directory.
    - Exceptions do not roll the file system back: a computation returns
      its outcome together with the state it leaves behind.
    - A generator is the function from the file system it is first pulled
      in to everything it yields and the way it ends.
    - Logging and the progress bar are left out; [dump_docs] and the two
      helpers that take jina documents apart only feed
      [export_dump_streaming] and are not modelled. *)

From Stdlib Require Import ZArith Lia List Ascii String.
From Stdlib.Strings Require Import Byte.
From stdpp Require Import base option list gmap strings pretty.
Import ListNotations.

Set Warnings "-register-all".
Local Open Scope Z_scope.

(** ** Exceptions and outcomes *)

Inductive exn :=
| ZeroDivisionError
| StopIteration
| OverflowError
| ValueError
| FileNotFoundError
| FileExistsError
| NotADirectoryError
| IsADirectoryError
| Exception (msg : string).

Inductive result (A : Type) :=
| Ok (a : A)
| Raise (e : exn).
Arguments Ok {A} a.
Arguments Raise {A} e.

(** ** Integers as bytes: [int.to_bytes] and [int.from_bytes] *)

(** [sys.byteorder] *)
Inductive endianness := little | big.

Definition byte_to_Z (b : byte) : Z := Z.of_N (Byte.to_N b).

Definition byte_of_Z (z : Z) : byte :=
  default "000"%byte (Byte.of_N (Z.to_N (z mod 256))).

(** the [length] base-256 digits of [n], least significant first *)
Fixpoint le_digits (length : nat) (n : Z) : list byte :=
  match length with
  | O => []
  | S k => byte_of_Z n :: le_digits k (n / 256)
  end.

Definition digits (length : nat) (byteorder : endianness) (n : Z) : list byte :=
  match byteorder with
  | little => le_digits length n
  | big => rev (le_digits length n)
  end.

(** [n.to_bytes(length, byteorder)], unsigned *)
Definition int_to_bytes (n : Z) (length : nat) (byteorder : endianness)
  : result (list byte) :=
  if n <? 0 then Raise OverflowError
  else if 256 ^ Z.of_nat length <=? n then Raise OverflowError
  else Ok (digits length byteorder n).

Fixpoint le_value (bs : list byte) : Z :=
  match bs with
  | [] => 0
  | b :: rest => byte_to_Z b + 256 * le_value rest
  end.

(** [int.from_bytes(bs, byteorder=byteorder)], unsigned, any length *)
Definition int_from_bytes (bs : list byte) (byteorder : endianness) : Z :=
  match byteorder with
  | little => le_value bs
  | big => le_value (rev bs)
  end.

(** ** numpy arrays *)

Record float64 := F64 {
  f64_0 : byte; f64_1 : byte; f64_2 : byte; f64_3 : byte;
  f64_4 : byte; f64_5 : byte; f64_6 : byte; f64_7 : byte }.

(** an [np.ndarray]: of dtype [DUMP_DTYPE], or of another dtype (named) with
    its raw buffer *)
Inductive ndarray :=
| Float64Array (items : list float64)
| OtherArray (dtype : string) (buffer : list byte).

Definition item_bytes (x : float64) : list byte :=
  [f64_0 x; f64_1 x; f64_2 x; f64_3 x; f64_4 x; f64_5 x; f64_6 x; f64_7 x].

(** [a.tobytes()] of a float64 array *)
Definition tobytes (items : list float64) : list byte :=
  flat_map item_bytes items.

(** [np.frombuffer(buf, dtype=DUMP_DTYPE)]: fails when the buffer size is not
    a multiple of the element size *)
Fixpoint frombuffer (buf : list byte) : result (list float64) :=
  match buf with
  | [] => Ok []
  | b0 :: b1 :: b2 :: b3 :: b4 :: b5 :: b6 :: b7 :: rest =>
      match frombuffer rest with
      | Ok items => Ok (F64 b0 b1 b2 b3 b4 b5 b6 b7 :: items)
      | Raise e => Raise e
      end
  | _ => Raise ValueError
  end.

(** ** Records and producers *)

(** the vector field of a produced triple: [None], an array, or [bytes] *)
Inductive vec_field :=
| VecNone
| VecArray (a : ndarray)
| VecBytes (b : list byte).

(** one [(id, vector, metadata)] triple *)
Definition record : Type := string * vec_field * option (list byte).

(** A producer ([GENERATOR_TYPE]): the outcome of the [n]-th successful-so-far
    call of [next], [None] when the generator is exhausted. *)
Definition producer : Type := nat → option record.

(** the generator that yields [records], one after the other *)
Definition producer_of (records : list record) : producer :=
  fun n => records !! n.

(** ** Text: [str.strip] and line iteration of a text file *)

Definition is_space (c : ascii) : bool :=
  let n := nat_of_ascii c in
  ((9 <=? n) && (n <=? 13) || (28 <=? n) && (n <=? 32)
   || (n =? 133) || (n =? 160))%nat.

Fixpoint lstrip (s : string) : string :=
  match s with
  | EmptyString => EmptyString
  | String c rest => if is_space c then lstrip rest else s
  end.

Fixpoint rstrip (s : string) : string :=
  match s with
  | EmptyString => EmptyString
  | String c rest =>
      match rstrip rest with
      | EmptyString => if is_space c then EmptyString else String c EmptyString
      | kept => String c kept
      end
  end.

(** [s.strip()] *)
Definition strip (s : string) : string := rstrip (lstrip s).

(** reading in text mode with [newline=None]: ["\r\n"] and ["\r"] become
    ["\n"] *)
Fixpoint universal_newlines (s : string) : string :=
  match s with
  | EmptyString => EmptyString
  | String "013" (String "010" rest) => String "010" (universal_newlines rest)
  | String "013" rest => String "010" (universal_newlines rest)
  | String c rest => String c (universal_newlines rest)
  end.

(** the lines a text file iterates over, each with its terminator; [cur] is
    the line being read, reversed *)
Fixpoint lines_from (cur : list ascii) (s : string) : list string :=
  match s with
  | EmptyString =>
      match cur with
      | [] => []
      | _ => [string_of_list_ascii (rev cur)]
      end
  | String c rest =>
      if Ascii.eqb c "010" then
        string_of_list_ascii (rev (c :: cur)) :: lines_from [] rest
      else lines_from (c :: cur) rest
  end.

Definition text_lines (content : list byte) : list string :=
  lines_from [] (universal_newlines (string_of_list_byte content)).

(** no carriage return and no line feed in [s] *)
Fixpoint no_line_break (s : string) : bool :=
  match s with
  | EmptyString => true
  | String c rest =>
      negb (Ascii.eqb c "010") && negb (Ascii.eqb c "013")
      && no_line_break rest
  end.

(** an id that one line of the ids file holds as it is: no line break in
    it, no white space at either end *)
Definition clean_id (id_ : string) : Prop :=
  no_line_break id_ = true ∧ strip id_ = id_.

(** ** The file system under the dump path *)

Inductive node :=
| File (content : list byte)
| Dir (entries : gmap string node).

Record state := State {
  fs : option node;     (* what is at [path]; [None] when nothing is *)
  pulled : nat          (* how many records the producer has handed out *)
}.

Definition M (A : Type) : Type := state → result A * state.

Definition ret {A} (a : A) : M A := fun s => (Ok a, s).

Definition raise {A} (e : exn) : M A := fun s => (Raise e, s).

Definition bind {A B} (m : M A) (k : A → M B) : M B :=
  fun s =>
    match m s with
    | (Ok a, s') => k a s'
    | (Raise e, s') => (Raise e, s')
    end.

Definition lift {A} (r : result A) : M A := fun s => (r, s).

Notation "'do' x <- m ; k" := (bind m (fun x => k))
  (at level 10, x pattern, m at level 100, k at level 200).
Notation "m ;;; k" := (bind m (fun _ => k))
  (at level 100, k at level 200, right associativity).

(** [for x in xs: body(x)] *)
Fixpoint for_ {A} (xs : list A) (body : A → M unit) : M unit :=
  match xs with
  | [] => ret tt
  | x :: rest => body x ;;; for_ rest body
  end.

(** [body] run [n] times in a row *)
Fixpoint times (n : nat) (body : M unit) : M unit :=
  match n with
  | O => ret tt
  | S k => body ;;; times k body
  end.

(** [next(data)] *)
Definition next (data : producer) : M record :=
  fun s =>
    match data (pulled s) with
    | Some r => (Ok r, State (fs s) (S (pulled s)))
    | None => (Raise StopIteration, s)
    end.

(** [os.path.exists(path)] *)
Definition os_path_exists : M bool :=
  fun s => (Ok (match fs s with Some _ => true | None => false end), s).

(** [os.makedirs(path)] *)
Definition os_makedirs_path : M unit :=
  fun s =>
    match fs s with
    | None => (Ok tt, State (Some (Dir ∅)) (pulled s))
    | Some _ => (Raise FileExistsError, s)
    end.

(** [os.listdir(path)] *)
Definition os_listdir : M (list string) :=
  fun s =>
    match fs s with
    | Some (Dir entries) => (Ok (map fst (map_to_list entries)), s)
    | Some (File _) => (Raise NotADirectoryError, s)
    | None => (Raise FileNotFoundError, s)
    end.

(** [os.makedirs(os.path.join(path, name))] *)
Definition os_makedirs (name : string) : M unit :=
  fun s =>
    match fs s with
    | None => (Ok tt, State (Some (Dir {[ name := Dir ∅ ]})) (pulled s))
    | Some (File _) => (Raise NotADirectoryError, s)
    | Some (Dir entries) =>
        match entries !! name with
        | Some _ => (Raise FileExistsError, s)
        | None => (Ok tt, State (Some (Dir (<[name := Dir ∅]> entries))) (pulled s))
        end
    end.

(** a file inside a shard directory: (shard name, file name) *)
Definition file_path : Type := string * string.

(** the file found at [fp], or the [OSError] that opening it raises *)
Definition lookup_file (root : option node) (fp : file_path)
  : result (list byte) :=
  match root with
  | None => Raise FileNotFoundError
  | Some (File _) => Raise NotADirectoryError
  | Some (Dir entries) =>
      match entries !! fp.1 with
      | None => Raise FileNotFoundError
      | Some (File _) => Raise NotADirectoryError
      | Some (Dir files) =>
          match files !! fp.2 with
          | None => Raise FileNotFoundError
          | Some (Dir _) => Raise IsADirectoryError
          | Some (File content) => Ok content
          end
      end
  end.

(** the tree with the file at [fp] set to [content]; the shard directory
    must be there *)
Definition store_file (root : option node) (fp : file_path)
    (content : list byte) : option node :=
  match root with
  | Some (Dir entries) =>
      match entries !! fp.1 with
      | Some (Dir files) =>
          Some (Dir (<[fp.1 := Dir (<[fp.2 := File content]> files)]> entries))
      | _ => root
      end
  | _ => root
  end.

(** [open(fp, 'wb')] and [open(fp, 'w')]: the file is created or truncated;
    the handle is the path it was opened at *)
Definition open_w (fp : file_path) : M file_path :=
  fun s =>
    match fs s with
    | None => (Raise FileNotFoundError, s)
    | Some (File _) => (Raise NotADirectoryError, s)
    | Some (Dir entries) =>
        match entries !! fp.1 with
        | None => (Raise FileNotFoundError, s)
        | Some (File _) => (Raise NotADirectoryError, s)
        | Some (Dir files) =>
            match files !! fp.2 with
            | Some (Dir _) => (Raise IsADirectoryError, s)
            | _ => (Ok fp, State (store_file (fs s) fp []) (pulled s))
            end
        end
    end.

(** [fh.write(data)] on a handle opened for writing: appends *)
Definition fh_write (fh : file_path) (data : list byte) : M unit :=
  fun s =>
    match lookup_file (fs s) fh with
    | Ok content => (Ok tt, State (store_file (fs s) fh (content ++ data)) (pulled s))
    | Raise e => (Raise e, s)
    end.

(** [fh.write(text)] on a handle opened in text mode *)
Definition fh_write_text (fh : file_path) (text : string) : M unit :=
  fh_write fh (list_byte_of_string text).

(** [fh.read(size)] on the bytes left in a file opened for reading: what is
    read and what is left; fewer than [size] bytes at the end of the file *)
Fixpoint fh_read (left : list byte) (size : Z) : list byte * list byte :=
  match left with
  | [] => ([], [])
  | b :: rest =>
      if size <=? 0 then ([], left)
      else let '(got, left') := fh_read rest (size - 1) in (b :: got, left')
  end.

(** a computation that leaves a directory at [path] if it finds one there *)
Definition keeps_dir {A} (m : M A) : Prop :=
  ∀ s E, fs s = Some (Dir E) → ∃ E', fs (m s).2 = Some (Dir E').

(** a computation that pulls at most [n] records from the producer *)
Definition pulls_at_most {A} (n : nat) (m : M A) : Prop :=
  ∀ s, (pulled s ≤ pulled (m s).2 ≤ pulled s + n)%nat.

(** ** The module *)

Definition BYTE_PADDING : nat := 4.
Definition EMPTY_BYTES : list byte := [].

(** [list(range(n))] *)
Definition range (n : Z) : list Z := map Z.of_nat (seq 0 (Z.to_nat n)).

(** [a // b] *)
Definition floordiv (a b : Z) : result Z :=
  if b =? 0 then Raise ZeroDivisionError else Ok (a / b).

(** [a % b] *)
Definition pymod (a b : Z) : result Z :=
  if b =? 0 then Raise ZeroDivisionError else Ok (a mod b).

(** [str(n)] of an [int] *)
Definition str (n : Z) : string := pretty n.

Definition not_empty_message (path : string) : string :=
  "path for dump " +:+ path +:+ " contains data. Please empty. Not dumping...".

Section Dump.

(** [sys.byteorder] of the platform *)
Variable byteorder : endianness.

(** [vec.astype(DUMP_DTYPE)] of an array of another dtype, given by its
    dtype and buffer: numpy's conversion *)
Variable astype_float64 : string → list byte → list float64.

(** [vec] after [if vec.dtype != DUMP_DTYPE: vec = vec.astype(DUMP_DTYPE)] *)
Definition as_float64 (vec : ndarray) : list float64 :=
  match vec with
  | Float64Array items => items
  | OtherArray dtype buffer => astype_float64 dtype buffer
  end.

(** the bytes of a vector field that go into the vectors file: the first
    three statements of [_write_shard_files] after the pull *)
Definition vec_bytes (vec : vec_field) : list byte :=
  match vec with
  | VecNone => EMPTY_BYTES
  | VecArray a => tobytes (as_float64 a)
  | VecBytes b => b
  end.

Definition meta_bytes (meta : option (list byte)) : list byte :=
  match meta with
  | None => EMPTY_BYTES
  | Some b => b
  end.

Definition _get_file_paths (shard_path : string)
  : file_path * file_path * file_path :=
  let vectors_fp := (shard_path, "vectors") in
  let metas_fp := (shard_path, "metas") in
  let ids_fp := (shard_path, "ids") in
  (vectors_fp, metas_fp, ids_fp).

Definition _write_shard_files (data : producer)
    (ids_fh metas_fh vectors_fh : file_path) : M unit :=
  do triple <- next data;
  let '(id_, vec, meta) := triple in
  let vec := vec_bytes vec in
  do size <- lift (int_to_bytes (Z.of_nat (length vec)) BYTE_PADDING byteorder);
  fh_write vectors_fh (size ++ vec) ;;;
  let meta := meta_bytes meta in
  do size <- lift (int_to_bytes (Z.of_nat (length meta)) BYTE_PADDING byteorder);
  fh_write metas_fh (size ++ meta) ;;;
  fh_write_text ids_fh (id_ +:+ String "010" EmptyString).

(** The loop [while shard_docs_written < size_this_shard] starts at 0 and
    adds 1 per turn: it runs its body [max(0, size_this_shard)] times. *)
Definition _write_shard_data (data : producer) (path : string)
    (shard_id : Z) (size_this_shard : Z) : M unit :=
  let shard_path := str shard_id in
  os_makedirs shard_path ;;;
  let '(vectors_fp, metas_fp, ids_fp) := _get_file_paths shard_path in
  do vectors_fh <- open_w vectors_fp;
  do metas_fh <- open_w metas_fp;
  do ids_fh <- open_w ids_fp;
  times (Z.to_nat size_this_shard)
        (_write_shard_files data ids_fh metas_fh vectors_fh).

(** the quota handed to shard [shard_id]: the [if] inside the loop of
    [_handle_dump] *)
Definition size_this_shard (size_per_shard extra : Z) (shard_range : list Z)
    (shard_id : Z) : Z :=
  if shard_id =? List.last shard_range 0 then size_per_shard + extra
  else size_per_shard.

Definition _handle_dump (data : producer) (path : string)
    (shards size : Z) : M unit :=
  do present <- os_path_exists;
  (if negb present then os_makedirs_path else ret tt) ;;;
  do listing <- os_listdir;
  match listing with
  | [] =>
      do size_per_shard <- lift (floordiv size shards);
      do extra <- lift (pymod size shards);
      let shard_range := range shards in
      for_ shard_range (fun shard_id =>
        _write_shard_data data path shard_id
          (size_this_shard size_per_shard extra shard_range shard_id))
  | _ => raise (Exception (not_empty_message path))
  end.

Definition export_dump_streaming (path : string) (shards size : Z)
    (data : producer) : M unit :=
  _handle_dump data path shards size.

(** the quotas of shards [0 .. shards-1], in the order [_handle_dump] hands
    them to [_write_shard_data] *)
Definition quotas (size shards : Z) : list Z :=
  map (size_this_shard (size / shards) (size mod shards) (range shards))
      (range shards).

(** ** Readers *)

(** how a generator ends: it returns, it raises, or (of the model only) the
    iteration budget ran out *)
Inductive gen_end :=
| Finished
| Raised (e : exn)
| OutOfFuel.

(** all a generator yields, and how it ends *)
Definition generated (A : Type) : Type := list A * gen_end.

(** a generator object: nothing runs until it is pulled *)
Definition generator (A : Type) : Type := option node → generated A.

Definition yield {A} (x : A) (more : generated A) : generated A :=
  (x :: more.1, more.2).

(** the [while True] loop of [_vecs_gen] on the bytes left in the file *)
Fixpoint vecs_loop (fuel : nat) (vectors_fh : list byte)
  : generated (option (list float64)) :=
  match fuel with
  | O => ([], OutOfFuel)
  | S fuel =>
      let '(next_size, vectors_fh) := fh_read vectors_fh (Z.of_nat BYTE_PADDING) in
      let next_size := int_from_bytes next_size byteorder in
      if next_size =? 0 then ([], Finished)
      else
        let '(vec_bytes, vectors_fh) := fh_read vectors_fh next_size in
        match vec_bytes with
        | [] => yield None (vecs_loop fuel vectors_fh)
        | _ =>
            match frombuffer vec_bytes with
            | Ok vec => yield (Some vec) (vecs_loop fuel vectors_fh)
            | Raise e => ([], Raised e)
            end
        end
  end.

(** the [while True] loop of [_metas_gen] on the bytes left in the file *)
Fixpoint metas_loop (fuel : nat) (metas_fh : list byte)
  : generated (option (list byte)) :=
  match fuel with
  | O => ([], OutOfFuel)
  | S fuel =>
      let '(next_size, metas_fh) := fh_read metas_fh (Z.of_nat BYTE_PADDING) in
      let next_size := int_from_bytes next_size byteorder in
      if next_size =? 0 then ([], Finished)
      else
        let '(meta, metas_fh) := fh_read metas_fh next_size in
        match meta with
        | [] => yield None (metas_loop fuel metas_fh)
        | _ => yield (Some meta) (metas_loop fuel metas_fh)
        end
  end.

(** Every turn that does not leave the loop consumes at least one byte, so
    one turn more than the file has bytes is budget enough. *)
Definition vecs_of (content : list byte) : generated (option (list float64)) :=
  vecs_loop (S (length content)) content.

Definition metas_of (content : list byte) : generated (option (list byte)) :=
  metas_loop (S (length content)) content.

Definition ids_of (content : list byte) : generated string :=
  (map strip (text_lines content), Finished).

Definition with_open {A} (fp : file_path) (body : list byte → generated A)
  : generator A :=
  fun root =>
    match lookup_file root fp with
    | Ok content => body content
    | Raise e => ([], Raised e)
    end.

Definition _ids_gen (path : string) : generator string :=
  with_open (path, "ids") ids_of.

Definition _vecs_gen (path : string) : generator (option (list float64)) :=
  with_open (path, "vectors") vecs_of.

Definition _metas_gen (path : string) : generator (option (list byte)) :=
  with_open (path, "metas") metas_of.

(** The three import functions only build generator objects: calling them
    opens no file. *)
Definition import_vectors (pea_id : string)
  : result (generator string * generator (option (list float64))) :=
  let path := pea_id in
  let ids_gen := _ids_gen path in
  let vecs_gen := _vecs_gen path in
  Ok (ids_gen, vecs_gen).

Definition import_metas (pea_id : string)
  : result (generator string * generator (option (list byte))) :=
  let path := pea_id in
  let ids_gen := _ids_gen path in
  let metas_gen := _metas_gen path in
  Ok (ids_gen, metas_gen).

Definition import_metas_and_vectors (pea_id : string)
  : result (generator string * generator (option (list byte))
            * generator (option (list float64))) :=
  let path := pea_id in
  let ids_gen := _ids_gen path in
  let metas_gen := _metas_gen path in
  let vecs_gen := _vecs_gen path in
  Ok (ids_gen, metas_gen, vecs_gen).

(** ** The contents of a written shard *)

(** a payload behind its length prefix *)
Definition framed (payload : list byte) : list byte :=
  digits BYTE_PADDING byteorder (Z.of_nat (length payload)) ++ payload.

(** what [_write_shard_files] appends for a list of records, file by file *)
Definition vectors_content (records : list record) : list byte :=
  flat_map (fun r : record => framed (vec_bytes r.1.2)) records.

Definition metas_content (records : list record) : list byte :=
  flat_map (fun r : record => framed (meta_bytes r.2)) records.

Definition ids_content (records : list record) : list byte :=
  flat_map (fun r : record =>
    list_byte_of_string (r.1.1 +:+ String "010" EmptyString)) records.

Definition shard_files (vectors metas ids : list byte) : node :=
  Dir {[ "vectors" := File vectors; "metas" := File metas; "ids" := File ids ]}.

(** the directory of a shard that was handed exactly [records] *)
Definition shard_dir (records : list record) : node :=
  shard_files (vectors_content records) (metas_content records)
              (ids_content records).

(** both payloads of a record have a length that four bytes can hold *)
Definition fits (r : record) : Prop :=
  Z.of_nat (length (vec_bytes r.1.2)) < 256 ^ Z.of_nat BYTE_PADDING ∧
  Z.of_nat (length (meta_bytes r.2)) < 256 ^ Z.of_nat BYTE_PADDING.

(** the records that at most [n] calls of [next] obtain from position [p] *)
Fixpoint pull_list (data : producer) (p n : nat) : list record :=
  match n with
  | O => []
  | S k =>
      match data p with
      | Some r => r :: pull_list data (S p) k
      | None => []
      end
  end.

(** the directory after shards [j, j+1, ..] were handed [quotas] out of
    [records], one after the other *)
Fixpoint layout (j : nat) (quotas : list Z) (records : list record)
    (entries : gmap string node) : gmap string node :=
  match quotas with
  | [] => entries
  | q :: rest =>
      layout (S j) rest (drop (Z.to_nat q) records)
        (<[str (Z.of_nat j) := shard_dir (take (Z.to_nat q) records)]> entries)
  end.


(** [l] cut into consecutive pieces of the sizes [quotas] *)
Fixpoint chunks {A} (quotas : list Z) (l : list A) : list (list A) :=
  match quotas with
  | [] => []
  | q :: rest => take (Z.to_nat q) l :: chunks rest (drop (Z.to_nat q) l)
  end.

(** [import_metas_and_vectors(path, pea_id)] with its three generators run to
    their end on the tree [root] *)
Definition import_shard (root : option node) (pea_id : string)
  : result (generated string * generated (option (list byte))
            * generated (option (list float64))) :=
  match import_metas_and_vectors pea_id with
  | Ok (ids_gen, metas_gen, vecs_gen) =>
      Ok (ids_gen root, metas_gen root, vecs_gen root)
  | Raise e => Raise e
  end.

(** a record whose vector is an array and whose metadata is there *)
Definition present_record (x : string * ndarray * list byte) : record :=
  (x.1.1, VecArray x.1.2, Some x.2).

(** such a record with a clean id, a vector and metadata that are not empty,
    and payloads that fit their length prefix *)
Definition round_trips (x : string * ndarray * list byte) : Prop :=
  clean_id x.1.1 ∧ as_float64 x.1.2 ≠ [] ∧ x.2 ≠ [] ∧ fits (present_record x).

(** the state while shard [sh] is being written: its three files hold [V],
    [Mt] and [I], the other entries are [E] *)
Definition in_shard (sh : string) (V Mt I : list byte)
    (E : gmap string node) (p : nat) : state :=
  State (Some (Dir (<[sh := shard_files V Mt I]> E))) p.

(** ** Further readers and invariants *)

(** [import_vectors(path, pea_id)] with its two generators run to their end
    on the tree [root] *)
Definition import_vectors_shard (root : option node) (pea_id : string)
  : result (generated string * generated (option (list float64))) :=
  match import_vectors pea_id with
  | Ok (ids_gen, vecs_gen) => Ok (ids_gen root, vecs_gen root)
  | Raise e => Raise e
  end.

(** [import_metas(path, pea_id)] with its two generators run to their end on
    the tree [root] *)
Definition import_metas_shard (root : option node) (pea_id : string)
  : result (generated string * generated (option (list byte))) :=
  match import_metas pea_id with
  | Ok (ids_gen, metas_gen) => Ok (ids_gen root, metas_gen root)
  | Raise e => Raise e
  end.

(** there is a directory at [path] and it has an entry [name] *)
Definition has_entry (name : string) (s : state) : Prop :=
  ∃ E, fs s = Some (Dir E) ∧ is_Some (E !! name).

(** a computation that does not remove the entry [name] *)
Definition keeps_entry {A} (name : string) (m : M A) : Prop :=
  ∀ s, has_entry name s → has_entry name (m s).2.

(** a target that can be dumped into *)
Definition free_target (s : state) : Prop :=
  fs s = None ∨ fs s = Some (Dir ∅).

(** a record with an array for a vector, whatever its metadata is *)
Definition with_vector (x : string * ndarray * option (list byte)) : record :=
  (x.1.1, VecArray x.1.2, x.2).

(** a record with metadata, whatever its vector field is *)
Definition with_meta (x : string * vec_field * list byte) : record :=
  (x.1.1, x.1.2, Some x.2).


(** the text [first], then each of [more] behind a line feed *)
Fixpoint join_lines (first : string) (more : list string) : string :=
  match more with
  | [] => first
  | l :: rest => first +:+ String "010" (join_lines l rest)
  end.

(** a record whose id is several lines of text *)
Definition with_lines (x : string * list string * vec_field * option (list byte))
  : record :=
  (join_lines x.1.1.1 x.1.1.2, x.1.2, x.2).

(** ** Dumping documents *)

(** A jina [Document], of which this module reads the id and the embedding
    (an array or [None]); its class is not part of this repository. *)
Variable document : Type.
Variable doc_id : document → string.
Variable doc_embedding : document → option ndarray.

(** [_doc_without_embedding(d)]: the serialisation of a copy of [d] with the
    embedding cleared. It is made of calls into jina only ([Document],
    [ClearField], [update_content_hash], [SerializeToString]) and is taken as
    given. *)
Variable _doc_without_embedding : document → list byte.

(** the triple [_generator_from_docs] yields for [doc] *)
Definition doc_triple (doc : document) : record :=
  (doc_id doc,
   match doc_embedding doc with
   | Some embedding => VecArray embedding
   | None => VecNone
   end,
   Some (_doc_without_embedding doc)).

(** [for doc in docs: yield doc.id, doc.embedding, _doc_without_embedding(doc)] *)
Definition _generator_from_docs (docs : list document) : producer :=
  fun n =>
    match docs !! n with
    | Some doc => Some (doc_triple doc)
    | None => None
    end.

(** [dump_docs(docs, path, shards)]: the generator is a new one, nothing has
    been pulled from it; the outcome and the tree at [path] are what is left
    of the run *)
Definition dump_docs (docs : list document) (path : string) (shards : Z)
    (root : option node) : result unit * option node :=
  let run :=
    export_dump_streaming path shards (Z.of_nat (length docs))
      (_generator_from_docs docs) (State root 0) in
  (run.1, fs run.2).

(** the byte order of the other kind of machine *)
Definition other_order (byteorder : endianness) : endianness :=
  match byteorder with
  | little => big
  | big => little
  end.

(** ** Example data *)

(** a cast that is never looked at: the examples hold float64 arrays only *)
Definition no_astype : string → list byte → list float64 := fun _ _ => [].

(** 1.0 on a little-endian machine *)
Definition one : float64 :=
  F64 "000" "000" "000" "000" "000" "000" "240" "063".

Definition scenario_records : list record :=
  [("a", VecArray (Float64Array [one; one; one]), None);
   ("b", VecArray (Float64Array [one; one; one]), None);
   ("c", VecArray (Float64Array [one; one; one]), None);
   ("d", VecArray (Float64Array [one; one; one]), None);
   ("e", VecArray (Float64Array [one; one; one]), None)].

Definition present_items : list (string * ndarray * list byte) :=
  [("a", Float64Array [one], ["001"%byte]);
   ("b", Float64Array [one; one], ["002"%byte; "003"%byte]);
   ("c", Float64Array [one], ["004"%byte])].

(** a record as above, but for the blank in front of its id *)
Definition blank_id_records : list record :=
  [(" a", VecArray (Float64Array [one]), Some ["001"%byte])].

(** the first record has no vector and no metadata, the second has both *)
Definition absent_then_present : list record :=
  [("a", VecNone, None);
   ("b", VecArray (Float64Array [one]), Some ["001"%byte])].

(** a shard whose files start with a zero length prefix and go on with a
    whole record *)
Definition zero_first_root : option node :=
  Some (Dir {[ "0" := Dir {[
    "vectors" := File (["000"; "000"; "000"; "000";
                        "008"; "000"; "000"; "000";
                        "000"; "000"; "000"; "000";
                        "000"; "000"; "240"; "063"]%byte);
    "metas" := File (["000"; "000"; "000"; "000";
                      "008"; "000"; "000"; "000";
                      "000"; "000"; "000"; "000";
                      "000"; "000"; "240"; "063"]%byte) ]} ]}).

(** what is left of a record of 16 bytes after its last 8 bytes were cut
    off *)
Definition truncated_content : list byte :=
  ["016"; "000"; "000"; "000";
   "000"; "000"; "000"; "000"; "000"; "000"; "240"; "063"]%byte.

(** a shard whose vectors and metas files end inside their only record *)
Definition truncated_root : option node :=
  Some (Dir {[ "0" := Dir {[ "vectors" := File truncated_content;
                             "metas" := File truncated_content ]} ]}).

(** the files of a shard without a metas file *)
Definition no_metas_files : gmap string node :=
  {[ "ids" := File (list_byte_of_string (String "a" (String "010" EmptyString)));
     "vectors" := File (["008"; "000"; "000"; "000";
                         "000"; "000"; "000"; "000";
                         "000"; "000"; "240"; "063"]%byte) ]}.

Definition no_metas_root : option node :=
  Some (Dir {[ "0" := Dir no_metas_files ]}).

(** a producer that runs dry after three records *)
Definition three_records : list record := take 3 scenario_records.

(** a record whose vector is three raw bytes *)
Definition raw_bytes_record : record :=
  ("a", VecBytes ["001"; "002"; "003"]%byte, None).

(** a target that already holds a file *)
Definition occupied_root : gmap string node := {[ "old" := File [] ]}.

(** records with a vector each, the first without metadata *)
Definition vector_items : list (string * ndarray * option (list byte)) :=
  [("a", Float64Array [one], None);
   ("b", Float64Array [one; one], Some ["001"%byte]);
   ("c", Float64Array [one], None)].

(** records with metadata each: no vector, raw bytes, an array *)
Definition meta_items : list (string * vec_field * list byte) :=
  [("a", VecNone, ["001"%byte]);
   ("b", VecBytes ["001"; "002"; "003"]%byte, ["002"%byte; "003"%byte]);
   ("c", VecArray (Float64Array [one]), ["004"%byte])].

(** the id of the first record has two lines *)
Definition line_items
  : list (string * list string * vec_field * option (list byte)) :=
  [("a", ["b"], VecNone, None); ("c", [], VecNone, None)].

(** a shard whose files end in two stray bytes, after one metadata record
    and after no vector *)
Definition stray_root : option node :=
  Some (Dir {[ "0" := Dir {[
    "vectors" := File ["001"; "002"]%byte;
    "metas" := File ["001"; "000"; "000"; "000"; "007"; "001"; "002"]%byte ]} ]}).


(** two one-byte payloads as a little-endian machine frames them *)
Definition two_frames_root : option node :=
  Some (Dir {[ "0" := Dir {[
    "vectors" := File ["001"; "000"; "000"; "000"; "007";
                       "001"; "000"; "000"; "000"; "008"]%byte;
    "metas" := File ["001"; "000"; "000"; "000"; "007";
                     "001"; "000"; "000"; "000"; "008"]%byte ]} ]}).

(** documents as triples of id, embedding and serialisation *)
Definition example_document : Type := string * option ndarray * list byte.

Definition example_id (doc : example_document) : string := doc.1.1.

Definition example_embedding (doc : example_document) : option ndarray :=
  doc.1.2.

Definition example_without_embedding (doc : example_document) : list byte :=
  doc.2.

Definition example_docs : list example_document :=
  [("a", Some (Float64Array [one]), ["001"%byte]);
   ("b", None, ["002"%byte]);
   ("c", Some (Float64Array [one; one]), ["003"%byte])].

(** * Properties *)

(** ** Bytes and length prefixes *)

Lemma byte_to_Z_of_Z (z : Z) : byte_to_Z (byte_of_Z z) = z mod 256.
Proof.
  unfold byte_to_Z, byte_of_Z.
  pose proof (Z.mod_pos_bound z 256 ltac:(lia)) as Hm.
  pose proof (Byte.to_of_N_option_map (Z.to_N (z mod 256))) as Ho.
  destruct (Byte.of_N (Z.to_N (z mod 256))) as [b|] eqn:Hb; simpl in *.
  - destruct (N.leb_spec (Z.to_N (z mod 256)) 255); [|discriminate].
    injection Ho as ->. lia.
  - destruct (N.leb_spec (Z.to_N (z mod 256)) 255); [discriminate|lia].
Qed.

Lemma length_le_digits (k : nat) (n : Z) : length (le_digits k n) = k.
Proof. revert n; induction k; intros; simpl; auto. Qed.

Lemma length_digits (k : nat) (bo : endianness) (n : Z) :
  length (digits k bo n) = k.
Proof.
  destruct bo; simpl; [|rewrite length_rev]; apply length_le_digits.
Qed.

Lemma le_value_le_digits (k : nat) (n : Z) :
  le_value (le_digits k n) = n mod 256 ^ Z.of_nat k.
Proof.
  revert n; induction k as [|k IH]; intros n.
  - simpl. now rewrite Z.mod_1_r.
  - cbn [le_digits le_value]. rewrite IH, byte_to_Z_of_Z.
    rewrite Nat2Z.inj_succ, Z.pow_succ_r by lia.
    rewrite (Z.rem_mul_r n 256 (256 ^ Z.of_nat k)) by lia. reflexivity.
Qed.

Lemma int_from_bytes_digits (k : nat) (bo : endianness) (n : Z) :
  int_from_bytes (digits k bo n) bo = n mod 256 ^ Z.of_nat k.
Proof.
  destruct bo; simpl; [|rewrite rev_involutive]; apply le_value_le_digits.
Qed.

Lemma int_to_bytes_ok (n : Z) (k : nat) (bo : endianness) :
  0 ≤ n < 256 ^ Z.of_nat k → int_to_bytes n k bo = Ok (digits k bo n).
Proof.
  intros [H0 H1]. unfold int_to_bytes.
  destruct (Z.ltb_spec n 0); [lia|].
  destruct (Z.leb_spec (256 ^ Z.of_nat k) n); [lia|]. reflexivity.
Qed.

Lemma int_from_bytes_nil (bo : endianness) : int_from_bytes [] bo = 0.
Proof. now destruct bo. Qed.

(** ** Reading from a file *)

Lemma fh_read_app (got left : list byte) :
  fh_read (got ++ left) (Z.of_nat (length got)) = (got, left).
Proof.
  induction got as [|b got IH].
  - simpl. destruct left; reflexivity.
  - cbn [app fh_read length].
    destruct (Z.leb_spec (Z.of_nat (S (length got))) 0); [lia|].
    replace (Z.of_nat (S (length got)) - 1)
      with (Z.of_nat (length got)) by lia.
    now rewrite IH.
Qed.

Lemma fh_read_short (left : list byte) (size : Z) :
  Z.of_nat (length left) ≤ size → fh_read left size = (left, []).
Proof.
  revert size; induction left as [|b left IH]; intros size H.
  - reflexivity.
  - cbn [fh_read length] in *.
    destruct (Z.leb_spec size 0); [lia|]. rewrite IH by lia. reflexivity.
Qed.

Lemma fh_read_length (left : list byte) (size : Z) :
  (length (fh_read left size).1 + length (fh_read left size).2
   = length left)%nat.
Proof.
  revert size; induction left as [|b left IH]; intros size.
  - reflexivity.
  - cbn [fh_read].
    destruct (Z.leb_spec size 0); [reflexivity|].
    specialize (IH (size - 1)). destruct (fh_read left (size - 1)).
    simpl in *. lia.
Qed.

(** ** The quotas *)

Lemma range_succ (n : Z) : 0 ≤ n → range (n + 1) = range n ++ [n].
Proof.
  intros H. unfold range.
  replace (Z.to_nat (n + 1)) with (S (Z.to_nat n)) by lia.
  rewrite seq_S, map_app. simpl. now rewrite Z2Nat.id.
Qed.

Lemma range_nonpos (n : Z) : n ≤ 0 → range n = [].
Proof.
  intros H. unfold range. now replace (Z.to_nat n) with O by lia.
Qed.

Lemma length_range (n : Z) : length (range n) = Z.to_nat n.
Proof. unfold range. now rewrite length_map, length_seq. Qed.

Lemma range_lookup (n : Z) (i : nat) :
  (i < Z.to_nat n)%nat → range n !! i = Some (Z.of_nat i).
Proof.
  intros H. unfold range. rewrite list_lookup_fmap.
  rewrite lookup_seq_lt by lia. reflexivity.
Qed.

Lemma range_bounds (n x : Z) : x ∈ range n → 0 ≤ x < n.
Proof.
  unfold range. intros H. apply list_elem_of_fmap in H as (i & -> & Hi).
  apply elem_of_seq in Hi. lia.
Qed.

Lemma last_range (n : Z) : 1 ≤ n → List.last (range n) 0 = n - 1.
Proof.
  intros H. replace n with ((n - 1) + 1) at 1 by lia.
  rewrite range_succ by lia. apply last_last.
Qed.

Lemma map_constant {A B} (f : A → B) (c : B) (l : list A) :
  (∀ x, x ∈ l → f x = c) → map f l = replicate (length l) c.
Proof.
  induction l as [|a l IH]; intros H; simpl; [reflexivity|].
  rewrite H by left. rewrite IH; [reflexivity|].
  intros x Hx. apply H. now right.
Qed.

Lemma quotas_eq (size shards : Z) :
  1 ≤ shards →
  quotas size shards =
  replicate (Z.to_nat (shards - 1)) (size / shards)
    ++ [size / shards + size mod shards].
Proof.
  intros H. unfold quotas, size_this_shard. rewrite last_range by lia.
  assert (Hr : range shards = range (shards - 1) ++ [shards - 1]).
  { rewrite <- range_succ by lia. f_equal. lia. }
  rewrite Hr, map_app. f_equal.
  - rewrite <- length_range. apply map_constant.
    intros x Hx. apply range_bounds in Hx.
    destruct (Z.eqb_spec x (shards - 1)); [lia|reflexivity].
  - simpl. now rewrite Z.eqb_refl.
Qed.

(** On an empty target directory and with at least one shard, the writer
    hands shard [i] the [i]-th quota. *)
Lemma _handle_dump_quotas (data : producer) (path : string)
    (shards size : Z) (s : state) :
  fs s = Some (Dir ∅) → shards ≠ 0 →
  _handle_dump data path shards size s =
  for_ (range shards) (fun shard_id =>
    _write_shard_data data path shard_id
      (size_this_shard (size / shards) (size mod shards) (range shards)
         shard_id)) s.
Proof.
  intros Hfs Hne. destruct s as [root n]; simpl in Hfs; subst root.
  unfold _handle_dump, bind, os_path_exists, os_listdir, lift, floordiv, pymod.
  simpl. rewrite map_to_list_empty. simpl.
  destruct (Z.eqb_spec shards 0); [contradiction|]. reflexivity.
Qed.

(** C3 (quota conservation). For [size >= 0] and [shards >= 1], the quotas
    that [_handle_dump] hands out are [size // shards] for every shard but
    the last and [size // shards + size % shards] for the last; they are
    non-negative, sum to [size], and only the last may exceed
    [size // shards]. On an empty target the writer runs
    [_write_shard_data] on shard [i] with the [i]-th of these quotas. *)
Theorem C3_quota_conservation (size shards : Z) :
  0 ≤ size → 1 ≤ shards →
  length (quotas size shards) = Z.to_nat shards ∧
  (∀ i : nat, (i < Z.to_nat shards - 1)%nat →
     quotas size shards !! i = Some (size / shards)) ∧
  quotas size shards !! (Z.to_nat shards - 1)%nat
    = Some (size / shards + size mod shards) ∧
  Forall (fun q => 0 ≤ q) (quotas size shards) ∧
  foldr Z.add 0 (quotas size shards) = size ∧
  (∀ (i : nat) (q : Z), quotas size shards !! i = Some q →
     size / shards < q → i = (Z.to_nat shards - 1)%nat) ∧
  (∀ data path s, fs s = Some (Dir ∅) →
     _handle_dump data path shards size s =
     for_ (zip (range shards) (quotas size shards)) (fun '(shard_id, quota) =>
       _write_shard_data data path shard_id quota) s).
Proof.
  intros Hsize Hshards.
  pose proof (Z.div_pos size shards ltac:(lia) ltac:(lia)) as Hq.
  pose proof (Z.mod_pos_bound size shards ltac:(lia)) as Hr.
  pose proof (Z.div_mod size shards ltac:(lia)) as Hdm.
  rewrite quotas_eq by lia.
  set (n := Z.to_nat (shards - 1)).
  replace (Z.to_nat shards - 1)%nat with n by lia.
  repeat split.
  - rewrite length_app, length_replicate. simpl. lia.
  - intros i Hi. rewrite lookup_app_l by (rewrite length_replicate; lia).
    apply lookup_replicate_2. lia.
  - rewrite lookup_app_r by (rewrite length_replicate; lia).
    rewrite length_replicate, Nat.sub_diag. reflexivity.
  - apply Forall_app. split.
    + apply Forall_replicate. lia.
    + repeat constructor. lia.
  - rewrite foldr_app. simpl.
    assert (Hgen : ∀ (k : nat) (a c : Z),
      foldr Z.add a (replicate k c) = Z.of_nat k * c + a)
      by (induction k; intros; simpl; [lia|rewrite IHk; lia]).
    rewrite Hgen. nia.
  - intros i q Hi Hlt. destruct (decide (i < n)%nat) as [Hin|Hin].
    + rewrite lookup_app_l in Hi by (rewrite length_replicate; lia).
      apply lookup_replicate in Hi as [-> _]. lia.
    + apply lookup_lt_Some in Hi.
      rewrite length_app, length_replicate in Hi. simpl in Hi. lia.
  - intros data path s Hfs.
    rewrite _handle_dump_quotas by (auto; lia).
    subst n. rewrite <- quotas_eq by lia. unfold quotas.
    generalize (size_this_shard (size / shards) (size mod shards)
                  (range shards)) as f.
    intros f. generalize (range shards) as l. clear. intros l. revert s.
    induction l as [|x l IH]; intros s; simpl; [reflexivity|].
    unfold bind. destruct (_write_shard_data _ _ _ _ s) as [[[]|e] s'];
      [apply IH|reflexivity].
Qed.


(** ** Files of a shard that is being written *)

Lemma lookup_file_vectors sh V Mt I E :
  lookup_file (Some (Dir (<[sh := shard_files V Mt I]> E))) (sh, "vectors")
  = Ok V.
Proof. unfold lookup_file. simpl. now rewrite lookup_insert_eq. Qed.

Lemma lookup_file_metas sh V Mt I E :
  lookup_file (Some (Dir (<[sh := shard_files V Mt I]> E))) (sh, "metas")
  = Ok Mt.
Proof. unfold lookup_file. simpl. now rewrite lookup_insert_eq. Qed.

Lemma lookup_file_ids sh V Mt I E :
  lookup_file (Some (Dir (<[sh := shard_files V Mt I]> E))) (sh, "ids")
  = Ok I.
Proof. unfold lookup_file. simpl. now rewrite lookup_insert_eq. Qed.

Lemma store_file_vectors sh V Mt I E content :
  store_file (Some (Dir (<[sh := shard_files V Mt I]> E))) (sh, "vectors")
    content = Some (Dir (<[sh := shard_files content Mt I]> E)).
Proof.
  unfold store_file. simpl. rewrite lookup_insert_eq. simpl.
  now rewrite insert_insert_eq.
Qed.

Lemma store_file_metas sh V Mt I E content :
  store_file (Some (Dir (<[sh := shard_files V Mt I]> E))) (sh, "metas")
    content = Some (Dir (<[sh := shard_files V content I]> E)).
Proof.
  unfold store_file. simpl. rewrite lookup_insert_eq. simpl.
  now rewrite insert_insert_eq.
Qed.

Lemma store_file_ids sh V Mt I E content :
  store_file (Some (Dir (<[sh := shard_files V Mt I]> E))) (sh, "ids")
    content = Some (Dir (<[sh := shard_files V Mt content]> E)).
Proof.
  unfold store_file. simpl. rewrite lookup_insert_eq. simpl.
  now rewrite insert_insert_eq.
Qed.

Lemma fh_write_vectors sh V Mt I E p data :
  fh_write (sh, "vectors") data (in_shard sh V Mt I E p)
  = (Ok tt, in_shard sh (V ++ data) Mt I E p).
Proof.
  unfold fh_write, in_shard. cbn [fs pulled].
  now rewrite lookup_file_vectors, store_file_vectors.
Qed.

Lemma fh_write_metas sh V Mt I E p data :
  fh_write (sh, "metas") data (in_shard sh V Mt I E p)
  = (Ok tt, in_shard sh V (Mt ++ data) I E p).
Proof.
  unfold fh_write, in_shard. cbn [fs pulled].
  now rewrite lookup_file_metas, store_file_metas.
Qed.

Lemma fh_write_ids sh V Mt I E p data :
  fh_write (sh, "ids") data (in_shard sh V Mt I E p)
  = (Ok tt, in_shard sh V Mt (I ++ data) E p).
Proof.
  unfold fh_write, in_shard. cbn [fs pulled].
  now rewrite lookup_file_ids, store_file_ids.
Qed.

(** ** One shard *)

Lemma _write_shard_files_step data sh V Mt I E p (r : record) :
  data p = Some r → fits r →
  _write_shard_files data (sh, "ids") (sh, "metas") (sh, "vectors")
    (in_shard sh V Mt I E p)
  = (Ok tt,
     in_shard sh (V ++ framed (vec_bytes r.1.2)) (Mt ++ framed (meta_bytes r.2))
       (I ++ list_byte_of_string (r.1.1 +:+ String "010" EmptyString))
       E (S p)).
Proof.
  intros Hdata [Hv Hm]. destruct r as [[id_ vec] meta]. simpl in *.
  unfold _write_shard_files, bind, next, lift.
  change (pulled (in_shard sh V Mt I E p)) with p. rewrite Hdata.
  change (State (fs (in_shard sh V Mt I E p)) (S p))
    with (in_shard sh V Mt I E (S p)).
  rewrite int_to_bytes_ok by lia. rewrite fh_write_vectors.
  rewrite int_to_bytes_ok by lia.
  rewrite fh_write_metas. unfold fh_write_text. rewrite fh_write_ids.
  reflexivity.
Qed.

Lemma _write_shard_files_exhausted data ids_fh metas_fh vectors_fh s :
  data (pulled s) = None →
  _write_shard_files data ids_fh metas_fh vectors_fh s
  = (Raise StopIteration, s).
Proof.
  intros Hdata. unfold _write_shard_files, bind, next. now rewrite Hdata.
Qed.

Lemma times_write_shard_files data sh (n : nat) : ∀ V Mt I E p,
  Forall fits (pull_list data p n) →
  times n (_write_shard_files data (sh, "ids") (sh, "metas") (sh, "vectors"))
    (in_shard sh V Mt I E p)
  = (if decide (length (pull_list data p n) = n) then Ok tt
     else Raise StopIteration,
     in_shard sh (V ++ vectors_content (pull_list data p n))
       (Mt ++ metas_content (pull_list data p n))
       (I ++ ids_content (pull_list data p n))
       E (p + length (pull_list data p n))).
Proof.
  induction n as [|n IH]; intros V Mt I E p Hfits.
  - simpl. unfold ret. rewrite !app_nil_r, Nat.add_0_r. reflexivity.
  - cbn [times pull_list] in *. unfold bind.
    destruct (data p) as [r|] eqn:Hdata.
    + apply Forall_cons in Hfits as [Hr Hfits].
      rewrite (_write_shard_files_step _ _ _ _ _ _ _ r) by assumption.
      rewrite IH by assumption.
      unfold vectors_content, metas_content, ids_content.
      cbn [flat_map length]. rewrite <- !app_assoc.
      replace (S p + length (pull_list data (S p) n))%nat
        with (p + S (length (pull_list data (S p) n)))%nat by lia.
      f_equal. repeat case_decide; try reflexivity; lia.
    + rewrite _write_shard_files_exhausted by exact Hdata.
      simpl. rewrite !app_nil_r, Nat.add_0_r. reflexivity.
Qed.

Lemma os_makedirs_fresh name E p :
  E !! name = None →
  os_makedirs name (State (Some (Dir E)) p)
  = (Ok tt, State (Some (Dir (<[name := Dir ∅]> E))) p).
Proof. intros H. unfold os_makedirs. cbn [fs pulled]. now rewrite H. Qed.

Lemma open_w_new sh name files E p :
  files !! name = None →
  open_w (sh, name) (State (Some (Dir (<[sh := Dir files]> E))) p)
  = (Ok (sh, name),
     State (Some (Dir (<[sh := Dir (<[name := File []]> files)]> E))) p).
Proof.
  intros H. unfold open_w, store_file. cbn [fs pulled fst snd].
  rewrite lookup_insert_eq, H, insert_insert_eq. reflexivity.
Qed.

Lemma _write_shard_data_run data path (j q : Z) E p :
  E !! str j = None →
  Forall fits (pull_list data p (Z.to_nat q)) →
  _write_shard_data data path j q (State (Some (Dir E)) p)
  = (if decide (length (pull_list data p (Z.to_nat q)) = Z.to_nat q)
     then Ok tt else Raise StopIteration,
     State (Some (Dir (<[str j := shard_dir (pull_list data p (Z.to_nat q))]> E)))
       (p + length (pull_list data p (Z.to_nat q)))).
Proof.
  intros Hfresh Hfits.
  unfold _write_shard_data, _get_file_paths, bind.
  rewrite os_makedirs_fresh by assumption.
  rewrite open_w_new by apply lookup_empty.
  rewrite open_w_new by (now rewrite lookup_insert_ne, lookup_empty).
  rewrite open_w_new by (now rewrite !lookup_insert_ne, lookup_empty).
  change (State _ p) with (in_shard (str j) [] [] [] E p).
  rewrite times_write_shard_files by assumption. reflexivity.
Qed.

(** ** All shards *)

Lemma str_inj (i j : Z) : str i = str j → i = j.
Proof. unfold str. apply (inj pretty). Qed.

Lemma pull_list_add data (a b : nat) : ∀ p,
  pull_list data p (a + b) =
  pull_list data p a ++
  (if decide (length (pull_list data p a) = a) then pull_list data (p + a) b
   else []).
Proof.
  induction a as [|a IH]; intros p.
  - simpl. now rewrite Nat.add_0_r.
  - cbn [Nat.add pull_list]. destruct (data p) as [r|]; [|reflexivity].
    rewrite IH. cbn [app length]. replace (p + S a)%nat with (S p + a)%nat by lia.
    f_equal. repeat case_decide; try reflexivity; lia.
Qed.

Lemma pull_list_length data (n : nat) : ∀ p,
  (length (pull_list data p n) ≤ n)%nat.
Proof.
  induction n as [|n IH]; intros p; simpl; [lia|].
  destruct (data p); simpl; [specialize (IH (S p))|]; lia.
Qed.

(** a producer that yields [rs] from position [p] on *)
Lemma pull_list_yields data (rs : list record) : ∀ p,
  (∀ i r, rs !! i = Some r → data (p + i)%nat = Some r) →
  pull_list data p (length rs) = rs.
Proof.
  induction rs as [|r rs IH]; intros p H; [reflexivity|].
  cbn [length pull_list]. rewrite <- (Nat.add_0_r p) at 1.
  rewrite (H O r) by reflexivity. f_equal. apply IH.
  intros i r' Hi. rewrite <- (H (S i) r') by exact Hi. f_equal. lia.
Qed.

(** The loop over the shards [j .. j+m-1], each with the quota [f] gives it:
    it stops with [StopIteration] in the first shard the producer cannot
    fill. *)
Lemma for_shards data path (f : Z → Z) (m : nat) : ∀ (j : nat) E p,
  (∀ i : nat, (j ≤ i)%nat → E !! str (Z.of_nat i) = None) →
  let qs := map f (map Z.of_nat (seq j m)) in
  let total := foldr Nat.add O (map Z.to_nat qs) in
  let rs := pull_list data p total in
  Forall fits rs →
  ∃ E',
    for_ (map Z.of_nat (seq j m))
      (fun shard_id => _write_shard_data data path shard_id (f shard_id))
      (State (Some (Dir E)) p)
    = (if decide (length rs = total) then Ok tt else Raise StopIteration,
       State (Some (Dir E')) (p + length rs)) ∧
    (length rs = total → E' = layout j qs rs E).
Proof.
  induction m as [|m IH]; intros j E p Hfresh qs total rs Hfits.
  - exists E. subst qs total rs. simpl. unfold ret.
    rewrite Nat.add_0_r. split; reflexivity.
  - subst qs total rs. cbn [seq map foldr for_ layout] in *.
    set (n := Z.to_nat (f (Z.of_nat j))) in *.
    set (rest := foldr Nat.add O
      (map Z.to_nat (map f (map Z.of_nat (seq (S j) m))))) in *.
    rewrite pull_list_add in Hfits |- *.
    apply Forall_app in Hfits as [Hfits1 Hfits2].
    unfold bind. rewrite _write_shard_data_run by (auto; apply Hfresh; lia).
    fold n. pose proof (pull_list_length data n p) as Hle.
    destruct (Nat.eq_dec (length (pull_list data p n)) n) as [Hn|Hn].
    + rewrite decide_True in Hfits2 by exact Hn.
      rewrite !decide_True by exact Hn.
      replace (p + length (pull_list data p n))%nat with (p + n)%nat by lia.
      destruct (IH (S j) (<[str (Z.of_nat j) := shard_dir (pull_list data p n)]> E)
        (p + n)%nat) as (E' & Hrun & HE').
      * intros i Hi. rewrite lookup_insert_ne; [apply Hfresh; lia|].
        intros Heq. apply str_inj in Heq. lia.
      * exact Hfits2.
      * fold rest in Hrun, HE'. exists E'. rewrite Hrun, length_app. split.
        -- destruct (decide (length (pull_list data p n) = n));
             [|contradiction].
           f_equal; [|f_equal; lia].
           repeat case_decide; try reflexivity; lia.
        -- destruct (decide (length (pull_list data p n) = n));
             [|contradiction].
           intros Hlen. rewrite take_app_length' by (symmetry; exact Hn).
           rewrite drop_app_length' by (symmetry; exact Hn). apply HE'. lia.
    + destruct (decide (length (pull_list data p n) = n)); [contradiction|].
      exists (<[str (Z.of_nat j) := shard_dir (pull_list data p n)]> E).
      rewrite app_nil_r. split.
      * case_decide; [lia|reflexivity].
      * intros Hlen. lia.
Qed.

Lemma layout_other (qs : list Z) : ∀ (j : nat) rs E name,
  (∀ k : nat, (k < length qs)%nat → name ≠ str (Z.of_nat (j + k))) →
  layout j qs rs E !! name = E !! name.
Proof.
  induction qs as [|q qs IH]; intros j rs E name Hname; [reflexivity|].
  cbn [layout]. rewrite IH.
  - apply lookup_insert_ne. intros Heq.
    apply (Hname O); [simpl; lia|]. now rewrite Nat.add_0_r.
  - intros k Hk. replace (S j + k)%nat with (j + S k)%nat by lia.
    apply Hname. simpl. lia.
Qed.

Lemma layout_dom (qs : list Z) : ∀ (j : nat) rs E name,
  is_Some (layout j qs rs E !! name) →
  is_Some (E !! name) ∨
  ∃ k : nat, (k < length qs)%nat ∧ name = str (Z.of_nat (j + k)).
Proof.
  induction qs as [|q qs IH]; intros j rs E name H; [now left|].
  cbn [layout] in H. apply IH in H as [H|(k & Hk & ->)].
  - destruct (decide (str (Z.of_nat j) = name)) as [<-|Hne].
    + right. exists O. simpl. split; [lia|]. now rewrite Nat.add_0_r.
    + left. now rewrite lookup_insert_ne in H.
  - right. exists (S k). split; [simpl; lia|].
    now replace (j + S k)%nat with (S j + k)%nat by lia.
Qed.

Lemma quotas_total (size shards : Z) :
  0 ≤ size → 1 ≤ shards →
  foldr Nat.add O (map Z.to_nat (quotas size shards)) = Z.to_nat size.
Proof.
  intros Hsize Hshards.
  pose proof (Z.div_pos size shards ltac:(lia) ltac:(lia)) as Hq.
  pose proof (Z.mod_pos_bound size shards ltac:(lia)) as Hr.
  pose proof (Z.div_mod size shards ltac:(lia)) as Hdm.
  rewrite quotas_eq by lia. rewrite map_app, foldr_app. simpl.
  assert (Hgen : ∀ (k : nat) (a : nat) (c : Z),
    foldr Nat.add a (map Z.to_nat (replicate k c))
    = (k * Z.to_nat c + a)%nat)
    by (induction k; intros; simpl; [lia|rewrite IHk; lia]).
  rewrite Hgen. nia.
Qed.

Lemma quotas_offset (size shards : Z) (i : nat) :
  0 ≤ size → 1 ≤ shards → (i < Z.to_nat shards)%nat →
  foldr Nat.add O (map Z.to_nat (take i (quotas size shards)))
  = (i * Z.to_nat (size / shards))%nat.
Proof.
  intros Hsize Hshards Hi. rewrite quotas_eq by lia.
  rewrite take_app_le by (rewrite length_replicate; lia).
  rewrite take_replicate. replace (i `min` Z.to_nat (shards - 1))%nat with i by lia.
  induction i as [|i IH]; simpl; [reflexivity|]. rewrite IH by lia. lia.
Qed.

Lemma _handle_dump_absent (data : producer) (path : string)
    (shards size : Z) (p : nat) :
  _handle_dump data path shards size (State None p) =
  _handle_dump data path shards size (State (Some (Dir ∅)) p).
Proof.
  unfold _handle_dump, bind, os_path_exists, os_makedirs_path, ret.
  reflexivity.
Qed.

(** a target that can be dumped into: nothing there, or an empty directory *)
Lemma dump_run (data : producer) (path : string) (shards size : Z)
    (root : option node) (p : nat) :
  root = None ∨ root = Some (Dir ∅) →
  1 ≤ shards → 0 ≤ size →
  Forall fits (pull_list data p (Z.to_nat size)) →
  ∃ E',
    _handle_dump data path shards size (State root p)
    = (if decide (length (pull_list data p (Z.to_nat size)) = Z.to_nat size)
       then Ok tt else Raise StopIteration,
       State (Some (Dir E'))
         (p + length (pull_list data p (Z.to_nat size)))) ∧
    (length (pull_list data p (Z.to_nat size)) = Z.to_nat size →
     E' = layout O (quotas size shards) (pull_list data p (Z.to_nat size)) ∅).
Proof.
  intros Hroot Hshards Hsize Hfits.
  assert (Hrun : _handle_dump data path shards size (State root p)
    = _handle_dump data path shards size (State (Some (Dir ∅)) p))
    by (destruct Hroot as [-> | ->]; [apply _handle_dump_absent|reflexivity]).
  rewrite Hrun, _handle_dump_quotas by (simpl; auto; lia).
  pose proof (quotas_total size shards Hsize Hshards) as Htotal.
  unfold quotas, range in *.
  pose proof (for_shards data path
    (size_this_shard (size / shards) (size mod shards)
       (map Z.of_nat (seq 0 (Z.to_nat shards))))
    (Z.to_nat shards) O ∅ p (fun i _ => lookup_empty _)) as Hloop.
  cbv zeta in Hloop. rewrite Htotal in Hloop. apply Hloop, Hfits.
Qed.

(** ** Reading frames back *)

Lemma frombuffer_tobytes (items : list float64) :
  frombuffer (tobytes items) = Ok items.
Proof.
  induction items as [|x items IH]; [reflexivity|].
  destruct x. unfold tobytes in *. cbn [flat_map item_bytes app frombuffer].
  cbn [f64_0 f64_1 f64_2 f64_3 f64_4 f64_5 f64_6 f64_7].
  now rewrite IH.
Qed.

Lemma tobytes_nil (items : list float64) : tobytes items = [] → items = [].
Proof. destruct items as [|x items]; [reflexivity|discriminate]. Qed.

Lemma length_tobytes (items : list float64) :
  length (tobytes items) = (8 * length items)%nat.
Proof.
  induction items as [|x items IH]; [reflexivity|].
  unfold tobytes in *. cbn [flat_map]. rewrite length_app, IH. simpl. lia.
Qed.

Lemma read_prefix (n : Z) (rest : list byte) :
  0 ≤ n < 256 ^ Z.of_nat BYTE_PADDING →
  fh_read (digits BYTE_PADDING byteorder n ++ rest) (Z.of_nat BYTE_PADDING)
  = (digits BYTE_PADDING byteorder n, rest) ∧
  int_from_bytes (digits BYTE_PADDING byteorder n) byteorder = n.
Proof.
  intros Hn. split.
  - rewrite <- (length_digits BYTE_PADDING byteorder n) at 2.
    apply fh_read_app.
  - rewrite int_from_bytes_digits. now apply Z.mod_small.
Qed.

Lemma metas_loop_frame (fuel : nat) (payload rest : list byte) :
  payload ≠ [] →
  Z.of_nat (length payload) < 256 ^ Z.of_nat BYTE_PADDING →
  metas_loop (S fuel) (framed payload ++ rest)
  = yield (Some payload) (metas_loop fuel rest).
Proof.
  intros Hne Hlen. unfold framed. rewrite <- app_assoc. cbn [metas_loop].
  destruct (read_prefix (Z.of_nat (length payload)) (payload ++ rest))
    as [-> ->]; [lia|].
  destruct (Z.eqb_spec (Z.of_nat (length payload)) 0) as [H0|_].
  - destruct payload; [contradiction|discriminate].
  - rewrite fh_read_app. destruct payload; [contradiction|reflexivity].
Qed.

Lemma vecs_loop_frame (fuel : nat) (items : list float64) (rest : list byte) :
  items ≠ [] →
  Z.of_nat (length (tobytes items)) < 256 ^ Z.of_nat BYTE_PADDING →
  vecs_loop (S fuel) (framed (tobytes items) ++ rest)
  = yield (Some items) (vecs_loop fuel rest).
Proof.
  intros Hne Hlen. unfold framed. rewrite <- app_assoc. cbn [vecs_loop].
  destruct (read_prefix (Z.of_nat (length (tobytes items)))
              (tobytes items ++ rest)) as [-> ->]; [lia|].
  destruct (Z.eqb_spec (Z.of_nat (length (tobytes items))) 0) as [H0|_].
  - destruct items; [contradiction|discriminate].
  - rewrite fh_read_app, frombuffer_tobytes.
    destruct (tobytes items) eqn:Hb; [|reflexivity].
    apply tobytes_nil in Hb. contradiction.
Qed.

(** a zero length prefix, or no prefix at all, leaves the loop *)
Lemma metas_loop_zero (fuel : nat) (rest : list byte) :
  metas_loop (S fuel) (digits BYTE_PADDING byteorder 0 ++ rest)
  = ([], Finished).
Proof.
  cbn [metas_loop].
  destruct (read_prefix 0 rest) as [-> ->]; [simpl; lia|]. reflexivity.
Qed.

Lemma vecs_loop_zero (fuel : nat) (rest : list byte) :
  vecs_loop (S fuel) (digits BYTE_PADDING byteorder 0 ++ rest)
  = ([], Finished).
Proof.
  cbn [vecs_loop].
  destruct (read_prefix 0 rest) as [-> ->]; [simpl; lia|]. reflexivity.
Qed.

Lemma metas_loop_eof (fuel : nat) : metas_loop (S fuel) [] = ([], Finished).
Proof. cbn [metas_loop fh_read]. now rewrite int_from_bytes_nil. Qed.

Lemma vecs_loop_eof (fuel : nat) : vecs_loop (S fuel) [] = ([], Finished).
Proof. cbn [vecs_loop fh_read]. now rewrite int_from_bytes_nil. Qed.

(** *** The iteration budget is enough *)

Lemma read_prefix_shrinks (bs : list byte) :
  int_from_bytes (fh_read bs (Z.of_nat BYTE_PADDING)).1 byteorder ≠ 0 →
  (length (fh_read bs (Z.of_nat BYTE_PADDING)).2 < length bs)%nat.
Proof.
  intros Hne. pose proof (fh_read_length bs (Z.of_nat BYTE_PADDING)) as Hlen.
  destruct (fh_read bs (Z.of_nat BYTE_PADDING)) as [[|b got] left]; simpl in *.
  - now rewrite int_from_bytes_nil in Hne.
  - lia.
Qed.

Lemma metas_loop_fuel (f1 : nat) : ∀ (f2 : nat) (bs : list byte),
  (length bs < f1)%nat → (length bs < f2)%nat →
  metas_loop f1 bs = metas_loop f2 bs.
Proof.
  induction f1 as [|f1 IH]; intros f2 bs H1 H2; [lia|].
  destruct f2 as [|f2]; [lia|]. cbn [metas_loop].
  pose proof (read_prefix_shrinks bs) as Hshrink.
  destruct (fh_read bs (Z.of_nat BYTE_PADDING)) as [prefix left].
  cbn [fst snd] in Hshrink.
  destruct (Z.eqb_spec (int_from_bytes prefix byteorder) 0) as [|Hne];
    [reflexivity|].
  specialize (Hshrink Hne).
  pose proof (fh_read_length left (int_from_bytes prefix byteorder)) as Hlen.
  destruct (fh_read left (int_from_bytes prefix byteorder)) as [meta left'].
  cbn [fst snd] in Hlen.
  rewrite (IH f2 left') by lia. reflexivity.
Qed.

Lemma vecs_loop_fuel (f1 : nat) : ∀ (f2 : nat) (bs : list byte),
  (length bs < f1)%nat → (length bs < f2)%nat →
  vecs_loop f1 bs = vecs_loop f2 bs.
Proof.
  induction f1 as [|f1 IH]; intros f2 bs H1 H2; [lia|].
  destruct f2 as [|f2]; [lia|]. cbn [vecs_loop].
  pose proof (read_prefix_shrinks bs) as Hshrink.
  destruct (fh_read bs (Z.of_nat BYTE_PADDING)) as [prefix left].
  cbn [fst snd] in Hshrink.
  destruct (Z.eqb_spec (int_from_bytes prefix byteorder) 0) as [|Hne];
    [reflexivity|].
  specialize (Hshrink Hne).
  pose proof (fh_read_length left (int_from_bytes prefix byteorder)) as Hlen.
  destruct (fh_read left (int_from_bytes prefix byteorder)) as [vec left'].
  cbn [fst snd] in Hlen.
  rewrite (IH f2 left') by lia. reflexivity.
Qed.

Lemma metas_loop_terminates (fuel : nat) : ∀ bs : list byte,
  (length bs < fuel)%nat → (metas_loop fuel bs).2 ≠ OutOfFuel.
Proof.
  induction fuel as [|fuel IH]; intros bs H; [lia|]. cbn [metas_loop].
  pose proof (read_prefix_shrinks bs) as Hshrink.
  destruct (fh_read bs (Z.of_nat BYTE_PADDING)) as [prefix left].
  cbn [fst snd] in Hshrink.
  destruct (Z.eqb_spec (int_from_bytes prefix byteorder) 0) as [|Hne];
    [discriminate|].
  specialize (Hshrink Hne).
  pose proof (fh_read_length left (int_from_bytes prefix byteorder)) as Hlen.
  destruct (fh_read left (int_from_bytes prefix byteorder)) as [meta left'].
  cbn [fst snd] in Hlen.
  destruct meta; unfold yield; cbn [snd]; apply IH; lia.
Qed.

Lemma vecs_loop_terminates (fuel : nat) : ∀ bs : list byte,
  (length bs < fuel)%nat → (vecs_loop fuel bs).2 ≠ OutOfFuel.
Proof.
  induction fuel as [|fuel IH]; intros bs H; [lia|]. cbn [vecs_loop].
  pose proof (read_prefix_shrinks bs) as Hshrink.
  destruct (fh_read bs (Z.of_nat BYTE_PADDING)) as [prefix left].
  cbn [fst snd] in Hshrink.
  destruct (Z.eqb_spec (int_from_bytes prefix byteorder) 0) as [|Hne];
    [discriminate|].
  specialize (Hshrink Hne).
  pose proof (fh_read_length left (int_from_bytes prefix byteorder)) as Hlen.
  destruct (fh_read left (int_from_bytes prefix byteorder)) as [vec left'].
  cbn [fst snd] in Hlen.
  destruct vec; [unfold yield; cbn [snd]; apply IH; lia|].
  destruct (frombuffer _); [|discriminate].
  unfold yield; cbn [snd]; apply IH; lia.
Qed.

(** [_metas_gen] and [_vecs_gen] always come to an end. *)
Lemma metas_of_terminates (content : list byte) :
  (metas_of content).2 ≠ OutOfFuel.
Proof. apply metas_loop_terminates. lia. Qed.

Lemma vecs_of_terminates (content : list byte) :
  (vecs_of content).2 ≠ OutOfFuel.
Proof. apply vecs_loop_terminates. lia. Qed.

(** *** The readers, frame by frame *)

Lemma length_framed (payload : list byte) :
  length (framed payload) = (BYTE_PADDING + length payload)%nat.
Proof. unfold framed. now rewrite length_app, length_digits. Qed.

Lemma metas_of_nil : metas_of [] = ([], Finished).
Proof. apply metas_loop_eof. Qed.

Lemma vecs_of_nil : vecs_of [] = ([], Finished).
Proof. apply vecs_loop_eof. Qed.

Lemma metas_of_zero (rest : list byte) :
  metas_of (digits BYTE_PADDING byteorder 0 ++ rest) = ([], Finished).
Proof. apply metas_loop_zero. Qed.

Lemma vecs_of_zero (rest : list byte) :
  vecs_of (digits BYTE_PADDING byteorder 0 ++ rest) = ([], Finished).
Proof. apply vecs_loop_zero. Qed.

Lemma metas_of_frame (payload rest : list byte) :
  payload ≠ [] →
  Z.of_nat (length payload) < 256 ^ Z.of_nat BYTE_PADDING →
  metas_of (framed payload ++ rest) = yield (Some payload) (metas_of rest).
Proof.
  intros Hne Hlen. unfold metas_of at 1.
  rewrite metas_loop_frame by assumption. f_equal.
  apply metas_loop_fuel; rewrite ?length_app, ?length_framed; simpl; lia.
Qed.

Lemma vecs_of_frame (items : list float64) (rest : list byte) :
  items ≠ [] →
  Z.of_nat (length (tobytes items)) < 256 ^ Z.of_nat BYTE_PADDING →
  vecs_of (framed (tobytes items) ++ rest) = yield (Some items) (vecs_of rest).
Proof.
  intros Hne Hlen. unfold vecs_of at 1.
  rewrite vecs_loop_frame by assumption. f_equal.
  apply vecs_loop_fuel; rewrite ?length_app, ?length_framed; simpl; lia.
Qed.

Lemma metas_of_truncated (n : Z) (rest : list byte) :
  0 < n < 256 ^ Z.of_nat BYTE_PADDING → Z.of_nat (length rest) < n →
  metas_of (digits BYTE_PADDING byteorder n ++ rest)
  = ([match rest with [] => None | _ => Some rest end], Finished).
Proof.
  intros Hn Hrest. unfold metas_of. cbn [metas_loop].
  destruct (read_prefix n rest) as [-> ->]; [lia|].
  destruct (Z.eqb_spec n 0); [lia|].
  rewrite fh_read_short by lia.
  rewrite (metas_loop_fuel _ 1 [])
    by (rewrite ?length_app, ?length_digits; simpl; lia).
  rewrite metas_loop_eof. now destruct rest.
Qed.

Lemma vecs_of_truncated (n : Z) (rest : list byte) :
  0 < n < 256 ^ Z.of_nat BYTE_PADDING → Z.of_nat (length rest) < n →
  vecs_of (digits BYTE_PADDING byteorder n ++ rest)
  = match rest with
    | [] => ([None], Finished)
    | _ => match frombuffer rest with
           | Ok vec => ([Some vec], Finished)
           | Raise e => ([], Raised e)
           end
    end.
Proof.
  intros Hn Hrest. unfold vecs_of. cbn [vecs_loop].
  destruct (read_prefix n rest) as [-> ->]; [lia|].
  destruct (Z.eqb_spec n 0); [lia|].
  rewrite fh_read_short by lia.
  rewrite (vecs_loop_fuel _ 1 [])
    by (rewrite ?length_app, ?length_digits; simpl; lia).
  rewrite vecs_loop_eof. destruct rest; [reflexivity|].
  now destruct (frombuffer _).
Qed.

Lemma metas_of_frames (payloads : list (list byte)) (tail : list byte) :
  Forall (fun payload => payload ≠ [] ∧
            Z.of_nat (length payload) < 256 ^ Z.of_nat BYTE_PADDING) payloads →
  metas_of (flat_map framed payloads ++ tail)
  = (map Some payloads ++ (metas_of tail).1, (metas_of tail).2).
Proof.
  induction 1 as [|payload payloads [Hne Hlen] _ IH]; cbn [flat_map map app].
  - now destruct (metas_of tail).
  - rewrite <- app_assoc, metas_of_frame, IH by assumption. reflexivity.
Qed.

Lemma vecs_of_frames (vecs : list (list float64)) (tail : list byte) :
  Forall (fun items => items ≠ [] ∧
            Z.of_nat (length (tobytes items)) < 256 ^ Z.of_nat BYTE_PADDING)
         vecs →
  vecs_of (flat_map (fun items => framed (tobytes items)) vecs ++ tail)
  = (map Some vecs ++ (vecs_of tail).1, (vecs_of tail).2).
Proof.
  induction 1 as [|items vecs [Hne Hlen] _ IH]; cbn [flat_map map app].
  - now destruct (vecs_of tail).
  - rewrite <- app_assoc, vecs_of_frame, IH by assumption. reflexivity.
Qed.

(** ** Reading ids back *)

Lemma append_cons (c : ascii) (s t : string) :
  String c s +:+ t = String c (s +:+ t).
Proof. reflexivity. Qed.

Lemma append_empty (t : string) : EmptyString +:+ t = t.
Proof. reflexivity. Qed.

Lemma append_assoc (s t u : string) : (s +:+ t) +:+ u = s +:+ (t +:+ u).
Proof.
  induction s as [|c s IH]; [reflexivity|]. now rewrite !append_cons, IH.
Qed.

Lemma string_of_list_byte_app (s : string) (bs : list byte) :
  string_of_list_byte (list_byte_of_string s ++ bs)
  = s +:+ string_of_list_byte bs.
Proof.
  induction s as [|c s IH]; [reflexivity|].
  unfold string_of_list_byte, list_byte_of_string in *.
  cbn [list_ascii_of_string map app string_of_list_ascii].
  now rewrite ascii_of_byte_of_ascii, IH, append_cons.
Qed.

Lemma universal_newlines_cons (c : ascii) (rest : string) :
  Ascii.eqb c "013" = false →
  universal_newlines (String c rest) = String c (universal_newlines rest).
Proof.
  destruct c as [[] [] [] [] [] [] [] []]; intros H;
    try discriminate H; reflexivity.
Qed.

Lemma universal_newlines_line (s rest : string) :
  no_line_break s = true →
  universal_newlines (s +:+ String "010" rest)
  = s +:+ String "010" (universal_newlines rest).
Proof.
  induction s as [|c s IH]; intros H; [reflexivity|].
  cbn [no_line_break] in H. apply andb_prop in H as [H Hs].
  apply andb_prop in H as [_ Hc]. apply negb_true_iff in Hc.
  rewrite !append_cons, universal_newlines_cons by exact Hc.
  now rewrite IH.
Qed.

Lemma string_of_list_ascii_snoc (cur : list ascii) (s : string) :
  string_of_list_ascii (cur ++ list_ascii_of_string s) =
  string_of_list_ascii cur +:+ s.
Proof.
  induction cur as [|c cur IH]; cbn [app string_of_list_ascii].
  - apply string_of_list_ascii_of_string.
  - now rewrite IH, append_cons.
Qed.

Lemma lines_from_line (s rest : string) : ∀ cur : list ascii,
  no_line_break s = true →
  lines_from cur (s +:+ String "010" rest)
  = (string_of_list_ascii (rev cur) +:+ s +:+ String "010" EmptyString)
      :: lines_from [] rest.
Proof.
  induction s as [|c s IH]; intros cur H.
  - rewrite append_empty. cbn [lines_from]. rewrite Ascii.eqb_refl. f_equal.
    cbn [rev].
    change ["010"%char] with (list_ascii_of_string (String "010" EmptyString)).
    apply string_of_list_ascii_snoc.
  - cbn [no_line_break] in H. apply andb_prop in H as [H Hs].
    apply andb_prop in H as [Hc _]. apply negb_true_iff in Hc.
    rewrite append_cons. cbn [lines_from]. rewrite Hc, IH by exact Hs. f_equal.
    cbn [rev]. change [c] with (list_ascii_of_string (String c EmptyString)).
    rewrite string_of_list_ascii_snoc. rewrite !append_assoc.
    reflexivity.
Qed.

Lemma rstrip_line (s : string) :
  rstrip (s +:+ String "010" EmptyString) = rstrip s.
Proof.
  induction s as [|c s IH]; [reflexivity|].
  rewrite append_cons. cbn [rstrip]. now rewrite IH.
Qed.

Lemma length_lstrip (s : string) :
  (String.length (lstrip s) ≤ String.length s)%nat.
Proof.
  induction s as [|c s IH]; cbn [lstrip]; [lia|].
  destruct (is_space c); cbn [String.length] in *; lia.
Qed.

Lemma length_rstrip (s : string) :
  (String.length (rstrip s) ≤ String.length s)%nat.
Proof.
  induction s as [|c s IH]; cbn [rstrip]; [lia|].
  destruct (rstrip s); [destruct (is_space c)|]; cbn [String.length] in *; lia.
Qed.

Lemma strip_line (s : string) :
  strip s = s → strip (s +:+ String "010" EmptyString) = s.
Proof.
  intros H. destruct s as [|c s]; [reflexivity|].
  unfold strip in *. rewrite append_cons. cbn [lstrip] in *.
  destruct (is_space c).
  - pose proof (length_rstrip (lstrip s)) as H1.
    pose proof (length_lstrip s) as H2.
    rewrite H in H1. cbn [String.length] in H1. lia.
  - change (String c (s +:+ String "010" EmptyString))
      with (String c s +:+ String "010" EmptyString).
    now rewrite rstrip_line.
Qed.

Lemma text_lines_ids (records : list record) :
  Forall (fun r : record => clean_id r.1.1) records →
  map strip (text_lines (ids_content records)) = map (fun r : record => r.1.1) records.
Proof.
  unfold text_lines.
  induction 1 as [|r records [Hbreak Hstrip] _ IH]; [reflexivity|].
  unfold ids_content in *. cbn [flat_map map].
  rewrite string_of_list_byte_app.
  rewrite append_assoc, append_cons, append_empty.
  rewrite universal_newlines_line, lines_from_line by exact Hbreak.
  cbn [map rev string_of_list_ascii]. rewrite append_empty, IH. f_equal.
  now apply strip_line.
Qed.

(** ** What a dump leaves on disk *)

Lemma layout_chunks (qs : list Z) : ∀ (j : nat) rs E (k : nat) part,
  chunks qs rs !! k = Some part →
  layout j qs rs E !! str (Z.of_nat (j + k)) = Some (shard_dir part).
Proof.
  induction qs as [|q0 qs IH]; intros j rs E k part Hk; [discriminate|].
  destruct k as [|k]; cbn [layout chunks] in *.
  - injection Hk as <-. rewrite layout_other.
    + rewrite Nat.add_0_r, lookup_insert_eq. reflexivity.
    + intros k _ Heq. apply str_inj in Heq. lia.
  - replace (j + S k)%nat with (S j + k)%nat by lia. now apply IH.
Qed.

Lemma chunks_lookup {A} (qs : list Z) : ∀ (l : list A) (k : nat) (q : Z),
  qs !! k = Some q →
  chunks qs l !! k =
  Some (take (Z.to_nat q) (drop (foldr Nat.add O (map Z.to_nat (take k qs))) l)).
Proof.
  induction qs as [|q0 qs IH]; intros l k q Hk; [discriminate|].
  destruct k as [|k]; cbn [chunks].
  - injection Hk as ->. reflexivity.
  - cbn [lookup list_lookup]. rewrite (IH _ _ q) by exact Hk.
    cbn [take map foldr]. now rewrite drop_drop.
Qed.

Lemma length_chunks {A} (qs : list Z) : ∀ l : list A,
  length (chunks qs l) = length qs.
Proof. induction qs; intros; simpl; auto. Qed.

Lemma concat_chunks {A} (qs : list Z) : ∀ l : list A,
  concat (chunks qs l) = take (foldr Nat.add O (map Z.to_nat qs)) l.
Proof.
  induction qs as [|q qs IH]; intros l; cbn [chunks concat map foldr].
  - now rewrite take_0.
  - rewrite IH. apply take_take_drop.
Qed.

Lemma chunks_map {A B} (f : A → B) (qs : list Z) : ∀ l : list A,
  chunks qs (map f l) = map (map f) (chunks qs l).
Proof.
  induction qs as [|q qs IH]; intros l; cbn [chunks map]; [reflexivity|].
  change (map f) with (fmap (M := list) f) in *.
  now rewrite <- fmap_take, <- fmap_drop, IH.
Qed.

(** A dump into a free target of records that fit: every shard directory
    holds its piece of the records. *)
Lemma dump_layout (data : producer) (path : string) (shards size : Z)
    (s : state) (rs : list record) :
  fs s = None ∨ fs s = Some (Dir ∅) →
  1 ≤ shards → size = Z.of_nat (length rs) →
  (∀ (i : nat) r, rs !! i = Some r → data (pulled s + i)%nat = Some r) →
  Forall fits rs →
  export_dump_streaming path shards size data s
  = (Ok tt, State (Some (Dir (layout O (quotas size shards) rs ∅)))
              (pulled s + length rs)).
Proof.
  intros Hroot Hshards -> Hdata Hfits. destruct s as [root p]. simpl in *.
  unfold export_dump_streaming.
  destruct (dump_run data path shards (Z.of_nat (length rs)) root p)
    as (E' & Hrun & HE'); try assumption; try lia.
  - rewrite Nat2Z.id, pull_list_yields by assumption. exact Hfits.
  - rewrite Nat2Z.id, pull_list_yields in Hrun, HE' by assumption.
    rewrite decide_True in Hrun by reflexivity.
    rewrite Hrun, HE' by reflexivity. reflexivity.
Qed.

Lemma lookup_file_in E sh V Mt I :
  E !! sh = Some (shard_files V Mt I) →
  lookup_file (Some (Dir E)) (sh, "vectors") = Ok V ∧
  lookup_file (Some (Dir E)) (sh, "metas") = Ok Mt ∧
  lookup_file (Some (Dir E)) (sh, "ids") = Ok I.
Proof.
  intros H. unfold lookup_file. cbn [fst snd]. rewrite H.
  repeat split; reflexivity.
Qed.

Lemma length_quotas (size shards : Z) :
  length (quotas size shards) = Z.to_nat shards.
Proof. unfold quotas. now rewrite length_map, length_range. Qed.

(** C4 (sequential partition and the 5/2 scenario). A dump of [size]
    records into a free target with [shards >= 1] succeeds, pulls exactly
    these records, and leaves exactly the directories [0 .. shards-1]; the
    directory of shard [i] holds, in pull order, the records from position
    [i * (size // shards)] on, as many as its quota. In particular, for five
    records with ids a..e, vectors of three float64 each and no metadata
    dumped into two shards, the quotas are [2, 3], the ids file of shard 0
    is the two lines a, b, that of shard 1 is the three lines c, d, e (each
    line ended by a line feed), and the vectors file of shard 1 is three
    length-prefixed payloads of 24 bytes. *)
Theorem C4_sequential_partition :
  (∀ (data : producer) (path : string) (shards size : Z) (s : state)
     (rs : list record),
     fs s = None ∨ fs s = Some (Dir ∅) →
     1 ≤ shards → size = Z.of_nat (length rs) →
     (∀ (i : nat) r, rs !! i = Some r → data (pulled s + i)%nat = Some r) →
     Forall fits rs →
     ∃ E,
       export_dump_streaming path shards size data s
       = (Ok tt, State (Some (Dir E)) (pulled s + length rs)) ∧
       (∀ (i : nat) (q : Z), quotas size shards !! i = Some q →
          E !! str (Z.of_nat i) =
          Some (shard_dir (take (Z.to_nat q)
                  (drop (i * Z.to_nat (size / shards)) rs)))) ∧
       (∀ name, is_Some (E !! name) →
          ∃ i : nat, (i < Z.to_nat shards)%nat ∧ name = str (Z.of_nat i))) ∧
  (∀ (path : string) (v0 v1 v2 v3 v4 : list float64),
     length v0 = 3%nat → length v1 = 3%nat → length v2 = 3%nat →
     length v3 = 3%nat → length v4 = 3%nat →
     let records : list record :=
       [("a", VecArray (Float64Array v0), None);
        ("b", VecArray (Float64Array v1), None);
        ("c", VecArray (Float64Array v2), None);
        ("d", VecArray (Float64Array v3), None);
        ("e", VecArray (Float64Array v4), None)] in
     let run :=
       export_dump_streaming path 2 5 (producer_of records) (State None 0) in
     quotas 5 2 = [2; 3] ∧
     run.1 = Ok tt ∧
     lookup_file (fs run.2) ("0", "ids")
       = Ok (list_byte_of_string "a
b
") ∧
     lookup_file (fs run.2) ("1", "ids")
       = Ok (list_byte_of_string "c
d
e
") ∧
     lookup_file (fs run.2) ("1", "vectors")
       = Ok (framed (tobytes v2) ++ framed (tobytes v3) ++ framed (tobytes v4)) ∧
     length (tobytes v2) = 24%nat ∧ length (tobytes v3) = 24%nat ∧
     length (tobytes v4) = 24%nat).
Proof.
  split.
  - intros data path shards size s rs Hroot Hshards Hsize Hdata Hfits.
    exists (layout O (quotas size shards) rs ∅). split; [|split].
    + now apply dump_layout.
    + intros i q Hq.
      assert (Hi : (i < Z.to_nat shards)%nat)
        by (rewrite <- (length_quotas size); eapply lookup_lt_Some, Hq).
      rewrite <- (quotas_offset size shards i) by lia.
      change (Z.of_nat i) with (Z.of_nat (0 + i)).
      apply layout_chunks. now apply chunks_lookup.
    + intros name Hname. apply layout_dom in Hname as [Hname|(k & Hk & ->)].
      * rewrite lookup_empty in Hname. now destruct Hname.
      * exists k. rewrite length_quotas in Hk. split; [exact Hk|reflexivity].
  - intros path v0 v1 v2 v3 v4 H0 H1 H2 H3 H4 records run.
    assert (Hrun : run = (Ok tt,
      State (Some (Dir (layout O (quotas 5 2) records ∅))) 5)).
    { apply (dump_layout (producer_of records) path 2 5 (State None 0) records);
        [now left|lia|reflexivity|intros i r Hi; exact Hi|].
      assert (Hfit : ∀ id_ v, length v = 3%nat →
        fits (id_, VecArray (Float64Array v), None)).
      { intros id_ v Hv. split; cbn [fst snd vec_bytes as_float64 meta_bytes].
        - rewrite length_tobytes, Hv.
          change (256 ^ Z.of_nat BYTE_PADDING) with 4294967296. simpl. lia.
        - change (256 ^ Z.of_nat BYTE_PADDING) with 4294967296. simpl. lia. }
      subst records.
      repeat first [apply Forall_nil_2
                   |apply Forall_cons_2; [apply Hfit; assumption|]]. }
    rewrite Hrun. cbn [fst snd fs].
    assert (L0 : layout O (quotas 5 2) records ∅ !! "0"
                 = Some (shard_dir (take 2 records)))
      by exact (layout_chunks (quotas 5 2) O records ∅ O _ eq_refl).
    assert (L1 : layout O (quotas 5 2) records ∅ !! "1"
                 = Some (shard_dir (drop 2 records)))
      by exact (layout_chunks (quotas 5 2) O records ∅ 1 _ eq_refl).
    destruct (lookup_file_in _ _ _ _ _ L0) as (_ & _ & I0).
    destruct (lookup_file_in _ _ _ _ _ L1) as (V1 & _ & I1).
    rewrite I0, I1, V1, !length_tobytes, H2, H3, H4.
    repeat split.
    subst records. cbn -[framed tobytes]. now rewrite app_nil_r.
Qed.

(** ** What every run keeps: the directory at the path, the pull count *)

Lemma keeps_dir_bind {A B} (m : M A) (k : A → M B) :
  keeps_dir m → (∀ a, keeps_dir (k a)) → keeps_dir (bind m k).
Proof.
  intros Hm Hk s E Hs. unfold bind. destruct (Hm s E Hs) as [E' HE'].
  destruct (m s) as [[a|e] s']; simpl in *; [now apply (Hk a s' E')|eauto].
Qed.

Lemma keeps_dir_same {A} (m : M A) :
  (∀ s, fs (m s).2 = fs s) → keeps_dir m.
Proof. intros H s E Hs. exists E. now rewrite H. Qed.

Lemma keeps_dir_for_ {A} (xs : list A) (body : A → M unit) :
  (∀ x, keeps_dir (body x)) → keeps_dir (for_ xs body).
Proof.
  intros H. induction xs as [|x xs IH]; cbn [for_].
  - now apply keeps_dir_same.
  - apply keeps_dir_bind; auto.
Qed.

Lemma keeps_dir_times (n : nat) (body : M unit) :
  keeps_dir body → keeps_dir (times n body).
Proof.
  intros H. induction n as [|n IH]; cbn [times].
  - now apply keeps_dir_same.
  - apply keeps_dir_bind; auto.
Qed.

Lemma store_file_dir E fp content :
  ∃ E', store_file (Some (Dir E)) fp content = Some (Dir E').
Proof.
  unfold store_file. destruct (E !! fp.1) as [[]|]; eauto.
Qed.

Lemma keeps_dir_fh_write fh data : keeps_dir (fh_write fh data).
Proof.
  intros s E Hs. unfold fh_write.
  destruct (lookup_file (fs s) fh); simpl; [|eauto].
  rewrite Hs. apply store_file_dir.
Qed.

Lemma keeps_dir_open_w fp : keeps_dir (open_w fp).
Proof.
  intros s E Hs. unfold open_w. rewrite Hs.
  destruct (E !! fp.1) as [[|files]|]; simpl; eauto.
  destruct (files !! fp.2) as [[]|]; simpl; eauto; apply store_file_dir.
Qed.

Lemma keeps_dir_os_makedirs name : keeps_dir (os_makedirs name).
Proof.
  intros s E Hs. unfold os_makedirs. rewrite Hs.
  destruct (E !! name); simpl; eauto.
Qed.

Lemma keeps_dir_next data : keeps_dir (next data).
Proof.
  intros s E Hs. unfold next. destruct (data (pulled s)); simpl; eauto.
Qed.

Lemma keeps_dir__write_shard_files data ids_fh metas_fh vectors_fh :
  keeps_dir (_write_shard_files data ids_fh metas_fh vectors_fh).
Proof.
  unfold _write_shard_files.
  apply keeps_dir_bind; [apply keeps_dir_next|]. intros [[id_ vec] meta].
  apply keeps_dir_bind; [now apply keeps_dir_same|]. intros size1.
  apply keeps_dir_bind; [apply keeps_dir_fh_write|]. intros _.
  apply keeps_dir_bind; [now apply keeps_dir_same|]. intros size2.
  apply keeps_dir_bind; [apply keeps_dir_fh_write|]. intros _.
  apply keeps_dir_fh_write.
Qed.

Lemma keeps_dir__write_shard_data data path shard_id quota :
  keeps_dir (_write_shard_data data path shard_id quota).
Proof.
  unfold _write_shard_data, _get_file_paths.
  apply keeps_dir_bind; [apply keeps_dir_os_makedirs|]. intros _.
  apply keeps_dir_bind; [apply keeps_dir_open_w|]. intros vectors_fh.
  apply keeps_dir_bind; [apply keeps_dir_open_w|]. intros metas_fh.
  apply keeps_dir_bind; [apply keeps_dir_open_w|]. intros ids_fh.
  apply keeps_dir_times, keeps_dir__write_shard_files.
Qed.

Lemma pulls_at_most_bind {A B} (a b : nat) (m : M A) (k : A → M B) :
  pulls_at_most a m → (∀ x, pulls_at_most b (k x)) →
  pulls_at_most (a + b) (bind m k).
Proof.
  intros Hm Hk s. unfold bind. specialize (Hm s).
  destruct (m s) as [[x|e] s']; simpl in *; [|lia].
  specialize (Hk x s'). lia.
Qed.

Lemma pulls_at_most_same {A} (m : M A) (n : nat) :
  (∀ s, pulled (m s).2 = pulled s) → pulls_at_most n m.
Proof. intros H s. rewrite H. lia. Qed.

Lemma pulls_at_most_weaken {A} (a b : nat) (m : M A) :
  (a ≤ b)%nat → pulls_at_most a m → pulls_at_most b m.
Proof. intros Hab Hm s. specialize (Hm s). lia. Qed.

Lemma pulls_at_most_for_ {A} (xs : list A) (body : A → M unit) (g : A → nat) :
  (∀ x, pulls_at_most (g x) (body x)) →
  pulls_at_most (foldr Nat.add O (map g xs)) (for_ xs body).
Proof.
  intros H. induction xs as [|x xs IH]; cbn [for_ map foldr].
  - now apply pulls_at_most_same.
  - apply pulls_at_most_bind; auto.
Qed.

Lemma pulls_at_most_times (n k : nat) (body : M unit) :
  pulls_at_most k body → pulls_at_most (n * k) (times n body).
Proof.
  intros H. induction n as [|n IH]; cbn [times].
  - now apply pulls_at_most_same.
  - cbn [Nat.mul]. apply pulls_at_most_bind; auto.
Qed.

Lemma pulls_fh_write fh data s : pulled (fh_write fh data s).2 = pulled s.
Proof. unfold fh_write. now destruct (lookup_file (fs s) fh). Qed.

Lemma pulls_open_w fp s : pulled (open_w fp s).2 = pulled s.
Proof.
  unfold open_w. destruct (fs s) as [[|E]|]; try reflexivity.
  destruct (E !! fp.1) as [[|files]|]; try reflexivity.
  destruct (files !! fp.2) as [[]|]; reflexivity.
Qed.

Lemma pulls_os_makedirs name s : pulled (os_makedirs name s).2 = pulled s.
Proof.
  unfold os_makedirs. destruct (fs s) as [[|E]|]; try reflexivity.
  destruct (E !! name); reflexivity.
Qed.

Lemma pulls_at_most_next data : pulls_at_most 1 (next data).
Proof. intros s. unfold next. destruct (data (pulled s)); simpl; lia. Qed.

Lemma pulls_at_most__write_shard_files data ids_fh metas_fh vectors_fh :
  pulls_at_most 1 (_write_shard_files data ids_fh metas_fh vectors_fh).
Proof.
  unfold _write_shard_files.
  apply (pulls_at_most_bind 1 0); [apply pulls_at_most_next|].
  intros [[id_ vec] meta].
  apply (pulls_at_most_bind 0 0); [now apply pulls_at_most_same|]. intros size1.
  apply (pulls_at_most_bind 0 0);
    [apply pulls_at_most_same, pulls_fh_write|]. intros _.
  apply (pulls_at_most_bind 0 0); [now apply pulls_at_most_same|]. intros size2.
  apply (pulls_at_most_bind 0 0);
    [apply pulls_at_most_same, pulls_fh_write|]. intros _.
  apply pulls_at_most_same, pulls_fh_write.
Qed.

Lemma pulls_at_most__write_shard_data data path shard_id quota :
  pulls_at_most (Z.to_nat quota) (_write_shard_data data path shard_id quota).
Proof.
  unfold _write_shard_data, _get_file_paths.
  apply (pulls_at_most_bind 0 (Z.to_nat quota));
    [apply pulls_at_most_same, pulls_os_makedirs|]. intros _.
  apply (pulls_at_most_bind 0 (Z.to_nat quota));
    [apply pulls_at_most_same, pulls_open_w|]. intros vectors_fh.
  apply (pulls_at_most_bind 0 (Z.to_nat quota));
    [apply pulls_at_most_same, pulls_open_w|]. intros metas_fh.
  apply (pulls_at_most_bind 0 (Z.to_nat quota));
    [apply pulls_at_most_same, pulls_open_w|]. intros ids_fh.
  apply (pulls_at_most_weaken (Z.to_nat quota * 1)); [lia|].
  apply pulls_at_most_times, pulls_at_most__write_shard_files.
Qed.

Lemma keeps_dir__handle_dump data path shards size :
  keeps_dir (_handle_dump data path shards size).
Proof.
  unfold _handle_dump.
  apply keeps_dir_bind; [now apply keeps_dir_same|]. intros present.
  apply keeps_dir_bind.
  { destruct present; simpl; [now apply keeps_dir_same|].
    intros s E Hs. unfold os_makedirs_path. rewrite Hs. simpl. eauto. }
  intros _. apply keeps_dir_bind.
  { apply keeps_dir_same. intros s. unfold os_listdir.
    destruct (fs s) as [[]|] eqn:Hs; simpl; exact Hs. }
  intros [|name listing]; [|now apply keeps_dir_same].
  apply keeps_dir_bind; [now apply keeps_dir_same|]. intros size_per_shard.
  apply keeps_dir_bind; [now apply keeps_dir_same|]. intros extra.
  apply keeps_dir_for_. intros shard_id. apply keeps_dir__write_shard_data.
Qed.

Lemma pulls_at_most_lift_bind {A B} (n : nat) (r : result A) (k : A → M B) :
  (∀ x, r = Ok x → pulls_at_most n (k x)) →
  pulls_at_most n (bind (lift r) k).
Proof.
  intros H s. unfold bind, lift. destruct r as [x|e]; simpl; [|lia].
  now apply H.
Qed.

Lemma pulls_at_most__handle_dump data path shards size :
  0 ≤ size →
  pulls_at_most (Z.to_nat size) (_handle_dump data path shards size).
Proof.
  intros Hsize. unfold _handle_dump.
  apply (pulls_at_most_bind 0 (Z.to_nat size));
    [now apply pulls_at_most_same|]. intros present.
  apply (pulls_at_most_bind 0 (Z.to_nat size)).
  { apply pulls_at_most_same. intros s. destruct present; simpl;
      [reflexivity|]. unfold os_makedirs_path. now destruct (fs s). }
  intros _. apply (pulls_at_most_bind 0 (Z.to_nat size)).
  { apply pulls_at_most_same. intros s. unfold os_listdir.
    now destruct (fs s) as [[]|]. }
  intros [|name listing]; [|now apply pulls_at_most_same].
  apply pulls_at_most_lift_bind. intros size_per_shard Hq.
  apply pulls_at_most_lift_bind. intros extra Hr.
  unfold floordiv, pymod in *.
  destruct (Z.eqb_spec shards 0) as [|Hne]; [discriminate|].
  injection Hq as <-. injection Hr as <-.
  eapply pulls_at_most_weaken;
    [|apply (pulls_at_most_for_ _ _ (fun shard_id => Z.to_nat
        (size_this_shard (size / shards) (size mod shards) (range shards)
           shard_id)));
      intros shard_id; apply pulls_at_most__write_shard_data].
  destruct (Z.le_gt_cases 1 shards).
  - rewrite <- (quotas_total size shards) by lia. unfold quotas.
    now rewrite !map_map.
  - rewrite range_nonpos by lia. simpl. lia.
Qed.

Lemma pull_list_exhausted data (k : nat) : ∀ (p n : nat),
  (k < n)%nat →
  (∀ i : nat, (i < k)%nat → ∃ r, data (p + i)%nat = Some r ∧ fits r) →
  data (p + k)%nat = None →
  length (pull_list data p n) = k ∧ Forall fits (pull_list data p n).
Proof.
  induction k as [|k IH]; intros p n Hn Hsome Hnone.
  - destruct n as [|n]; [lia|]. cbn [pull_list].
    rewrite Nat.add_0_r in Hnone. rewrite Hnone. now split.
  - destruct n as [|n]; [lia|]. cbn [pull_list].
    destruct (Hsome O ltac:(lia)) as (r & Hr & Hfit).
    rewrite Nat.add_0_r in Hr. rewrite Hr.
    destruct (IH (S p) n) as [Hlen Hfits]; [lia| | |].
    + intros i Hi. destruct (Hsome (S i) ltac:(lia)) as (r' & Hr' & Hfit').
      exists r'. split; [|exact Hfit']. rewrite <- Hr'. f_equal. lia.
    + rewrite <- Hnone. f_equal. lia.
    + cbn [length]. split; [now rewrite Hlen|now apply Forall_cons_2].
Qed.

(** ** The writer's preconditions and failures *)

(** C5 (non-empty target). When nothing is at the path, the dump creates a
    directory there (whatever happens afterwards); when a non-empty
    directory is there, the dump fails with the exception that says so and
    leaves the state as it was: no record pulled, nothing created or
    changed. *)
Theorem C5_non_empty_target_rejected (data : producer) (path : string)
    (shards size : Z) (s : state) :
  (fs s = None →
   ∃ E, fs (export_dump_streaming path shards size data s).2 = Some (Dir E)) ∧
  (∀ E, fs s = Some (Dir E) → E ≠ ∅ →
   export_dump_streaming path shards size data s
   = (Raise (Exception (not_empty_message path)), s)).
Proof.
  unfold export_dump_streaming. split.
  - intros Hs. destruct s as [root p]. simpl in Hs. subst root.
    rewrite _handle_dump_absent.
    now apply (keeps_dir__handle_dump data path shards size _ ∅).
  - intros E Hs Hne. destruct s as [root p]. simpl in Hs. subst root.
    unfold _handle_dump, bind, os_path_exists, os_listdir, ret.
    cbn [fs negb].
    destruct (map_to_list E) as [|[name nd] listing] eqn:Hlist.
    + apply map_to_list_empty_iff in Hlist. contradiction.
    + reflexivity.
Qed.

(** C6 (what is taken from the producer). With [size >= 0], a dump never
    pulls more than [size] records, whatever the target, the shard count and
    the producer are. If the producer runs dry after [k < size] records
    (that fit), a dump into a free target with [shards >= 1] fails with
    [StopIteration] at the pull that finds no record: exactly [k] records
    were pulled. *)
Theorem C6_producer_consumption (data : producer) (path : string)
    (shards size : Z) (s : state) :
  0 ≤ size →
  (pulled (export_dump_streaming path shards size data s).2
   ≤ pulled s + Z.to_nat size)%nat ∧
  (∀ k : nat,
     1 ≤ shards → fs s = None ∨ fs s = Some (Dir ∅) →
     (k < Z.to_nat size)%nat →
     (∀ i : nat, (i < k)%nat →
        ∃ r, data (pulled s + i)%nat = Some r ∧ fits r) →
     data (pulled s + k)%nat = None →
     (export_dump_streaming path shards size data s).1 = Raise StopIteration ∧
     pulled (export_dump_streaming path shards size data s).2
     = (pulled s + k)%nat).
Proof.
  intros Hsize. unfold export_dump_streaming. split.
  - apply (pulls_at_most__handle_dump data path shards size Hsize s).
  - intros k Hshards Hroot Hk Hsome Hnone. destruct s as [root p]. simpl in *.
    destruct (pull_list_exhausted data k p (Z.to_nat size) Hk Hsome Hnone)
      as [Hlen Hfits].
    destruct (dump_run data path shards size root p Hroot Hshards Hsize Hfits)
      as (E' & Hrun & _).
    rewrite Hrun, Hlen. rewrite decide_False by lia. split; reflexivity.
Qed.

(** C8 (shard count below one), as the code has it. Into a free target,
    [shards = 0] fails with [ZeroDivisionError] and a negative [shards]
    does not fail at all; either way the directory at the path is there and
    empty afterwards and no record was pulled. *)
Theorem C8_shard_count_below_one (data : producer) (path : string)
    (shards size : Z) (s : state) :
  fs s = None ∨ fs s = Some (Dir ∅) → shards < 1 →
  export_dump_streaming path shards size data s
  = (if shards =? 0 then Raise ZeroDivisionError else Ok tt,
     State (Some (Dir ∅)) (pulled s)).
Proof.
  intros Hroot Hshards. unfold export_dump_streaming.
  destruct s as [root p]. simpl in *.
  assert (Hrun : _handle_dump data path shards size (State root p)
    = _handle_dump data path shards size (State (Some (Dir ∅)) p))
    by (destruct Hroot as [-> | ->]; [apply _handle_dump_absent|reflexivity]).
  rewrite Hrun. unfold _handle_dump, bind, os_path_exists, os_listdir, ret,
    lift, floordiv, pymod. cbn [fs negb].
  rewrite map_to_list_empty. cbn [map].
  destruct (Z.eqb_spec shards 0); [reflexivity|].
  rewrite range_nonpos by lia. reflexivity.
Qed.

(** ** Reading a written shard back *)

Lemma metas_of_content (part : list (string * ndarray * list byte)) :
  Forall round_trips part →
  metas_of (metas_content (map present_record part))
  = (map (fun x => Some x.2) part, Finished).
Proof.
  intros Hpart.
  assert (Heq : metas_content (map present_record part)
                = flat_map framed (map (fun x => x.2) part) ++ []).
  { rewrite app_nil_r. unfold metas_content.
    induction part as [|x part IH]; [reflexivity|]. cbn [map flat_map].
    rewrite IH; [reflexivity|]. now apply Forall_cons in Hpart as [_ ?]. }
  rewrite Heq, metas_of_frames, metas_of_nil.
  - cbn [fst snd]. now rewrite app_nil_r, map_map.
  - apply Forall_fmap. eapply Forall_impl; [exact Hpart|].
    intros x (_ & _ & Hne & _ & Hfit). split; [exact Hne|exact Hfit].
Qed.

Lemma vecs_of_content (part : list (string * ndarray * list byte)) :
  Forall round_trips part →
  vecs_of (vectors_content (map present_record part))
  = (map (fun x => Some (as_float64 x.1.2)) part, Finished).
Proof.
  intros Hpart.
  assert (Heq : vectors_content (map present_record part)
    = flat_map (fun items => framed (tobytes items))
        (map (fun x => as_float64 x.1.2) part) ++ []).
  { rewrite app_nil_r. unfold vectors_content.
    induction part as [|x part IH]; [reflexivity|]. cbn [map flat_map].
    rewrite IH; [reflexivity|]. now apply Forall_cons in Hpart as [_ ?]. }
  rewrite Heq, vecs_of_frames, vecs_of_nil.
  - cbn [fst snd]. now rewrite app_nil_r, map_map.
  - apply Forall_fmap. eapply Forall_impl; [exact Hpart|].
    intros x (_ & Hne & _ & Hfit & _). split; [exact Hne|exact Hfit].
Qed.

Lemma ids_of_content (part : list (string * ndarray * list byte)) :
  Forall round_trips part →
  ids_of (ids_content (map present_record part))
  = (map (fun x => x.1.1) part, Finished).
Proof.
  intros Hpart. unfold ids_of. rewrite text_lines_ids.
  - now rewrite map_map.
  - apply Forall_fmap. eapply Forall_impl; [exact Hpart|].
    intros x (Hid & _). exact Hid.
Qed.

Lemma import_shard_dir E name (part : list (string * ndarray * list byte)) :
  E !! name = Some (shard_dir (map present_record part)) →
  Forall round_trips part →
  import_shard (Some (Dir E)) name
  = Ok ((map (fun x => x.1.1) part, Finished),
        (map (fun x => Some x.2) part, Finished),
        (map (fun x => Some (as_float64 x.1.2)) part, Finished)).
Proof.
  intros HE Hpart.
  destruct (lookup_file_in _ _ _ _ _ HE) as (HV & HM & HI).
  unfold import_shard, import_metas_and_vectors, _ids_gen, _metas_gen,
    _vecs_gen, with_open.
  rewrite HV, HM, HI, ids_of_content, metas_of_content, vecs_of_content
    by exact Hpart.
  reflexivity.
Qed.

(** C1 (round trip), as the code has it. Records with a clean id (no line
    break inside, no white space at either end), an array for a vector that
    is not empty, metadata that is there and not empty, and payloads shorter
    than 2^32 bytes: dumped into a free target with [shards >= 1] and read
    back shard by shard with [import_metas_and_vectors], the three sequences
    of the shards, concatenated in shard order, are the ids, the metadata
    and the vectors (as float64 arrays) of the records, in order; every
    generator ends normally. *)
Theorem C1_round_trip (data : producer) (path : string) (shards : Z)
    (s : state) (items : list (string * ndarray * list byte)) :
  fs s = None ∨ fs s = Some (Dir ∅) →
  1 ≤ shards →
  (∀ (i : nat) x, items !! i = Some x →
     data (pulled s + i)%nat = Some (present_record x)) →
  Forall round_trips items →
  ∃ (root : option node) (parts : list (list (string * ndarray * list byte))),
    export_dump_streaming path shards (Z.of_nat (length items)) data s
    = (Ok tt, State root (pulled s + length items)) ∧
    map (fun shard_id => import_shard root (str shard_id)) (range shards)
    = map (fun part =>
        Ok ((map (fun x => x.1.1) part, Finished),
            (map (fun x => Some x.2) part, Finished),
            (map (fun x => Some (as_float64 x.1.2)) part, Finished))) parts ∧
    concat parts = items.
Proof.
  intros Hroot Hshards Hdata Hitems.
  set (size := Z.of_nat (length items)).
  set (rs := map present_record items).
  exists (Some (Dir (layout O (quotas size shards) rs ∅))).
  exists (chunks (quotas size shards) items).
  split; [|split].
  - replace (length items) with (length rs) by apply length_map.
    apply dump_layout; try assumption.
    + subst size rs. now rewrite length_map.
    + intros i r Hi. subst rs.
      change (map present_record items) with (present_record <$> items) in Hi.
      apply list_lookup_fmap_Some in Hi as (x & -> & Hx). now apply Hdata.
    + subst rs. apply Forall_fmap. eapply Forall_impl; [exact Hitems|].
      intros x (_ & _ & _ & Hfit). exact Hfit.
  - apply list_eq. intros i.
    change (map ?f ?l !! i) with ((f <$> l) !! i).
    rewrite !list_lookup_fmap.
    destruct (decide (i < Z.to_nat shards)%nat) as [Hi|Hi].
    + rewrite range_lookup by exact Hi.
      destruct (lookup_lt_is_Some_2 (quotas size shards) i) as [q Hq];
        [now rewrite length_quotas|].
      rewrite (chunks_lookup _ items i q Hq). cbn [fmap option_fmap option_map].
      f_equal. change (Z.of_nat i) with (Z.of_nat (0 + i)).
      apply import_shard_dir.
      * apply layout_chunks. subst rs. rewrite chunks_map.
        change (map ?f ?l !! i) with ((f <$> l) !! i).
        rewrite list_lookup_fmap, (chunks_lookup _ items i q Hq). reflexivity.
      * now apply Forall_take, Forall_drop.
    + rewrite (lookup_ge_None_2 (range shards))
        by (rewrite length_range; lia).
      rewrite (lookup_ge_None_2 (chunks _ _))
        by (rewrite length_chunks, length_quotas; lia).
      reflexivity.
  - rewrite concat_chunks, quotas_total by (subst size; lia).
    apply take_ge. subst size. lia.
Qed.

(** ** The readers on damaged or unusual files *)

(** [np.frombuffer] succeeds exactly on buffers of a multiple of 8 bytes,
    and fails with [ValueError] on the others *)
Lemma frombuffer_cases (n : nat) : ∀ buf : list byte,
  (length buf ≤ n)%nat →
  if (length buf mod 8 =? 0)%nat
  then ∃ vec, frombuffer buf = Ok vec ∧ tobytes vec = buf
  else frombuffer buf = Raise ValueError.
Proof.
  induction n as [|n IH]; intros buf Hlen.
  - destruct buf; [|simpl in Hlen; lia]. simpl. now exists [].
  - destruct buf as [|b0 [|b1 [|b2 [|b3 [|b4 [|b5 [|b6 [|b7 rest]]]]]]]];
      try reflexivity; [now exists []|].
    cbn [length] in Hlen. specialize (IH rest ltac:(lia)).
    replace (length (b0 :: b1 :: b2 :: b3 :: b4 :: b5 :: b6 :: b7 :: rest))
      with (length rest + 1 * 8)%nat by (cbn [length]; lia).
    rewrite Nat.Div0.mod_add. cbn [frombuffer].
    destruct (length rest mod 8 =? 0)%nat.
    + destruct IH as (vec & -> & Hvec).
      exists (F64 b0 b1 b2 b3 b4 b5 b6 b7 :: vec). split; [reflexivity|].
      unfold tobytes in *. cbn [flat_map item_bytes app].
      cbn [f64_0 f64_1 f64_2 f64_3 f64_4 f64_5 f64_6 f64_7]. now rewrite Hvec.
    + now rewrite IH.
Qed.

Lemma vecs_of_unreadable (payload rest : list byte) (e : exn) :
  payload ≠ [] →
  Z.of_nat (length payload) < 256 ^ Z.of_nat BYTE_PADDING →
  frombuffer payload = Raise e →
  vecs_of (framed payload ++ rest) = ([], Raised e).
Proof.
  intros Hne Hlen Hbuf. unfold vecs_of, framed. rewrite <- app_assoc.
  cbn [vecs_loop].
  destruct (read_prefix (Z.of_nat (length payload)) (payload ++ rest))
    as [-> ->]; [lia|].
  destruct (Z.eqb_spec (Z.of_nat (length payload)) 0) as [H0|_].
  - destruct payload; [contradiction|discriminate].
  - rewrite fh_read_app, Hbuf. destruct payload; [contradiction|reflexivity].
Qed.

Lemma _metas_gen_open path root content :
  lookup_file root (path, "metas") = Ok content →
  _metas_gen path root = metas_of content.
Proof. intros H. unfold _metas_gen, with_open. now rewrite H. Qed.

Lemma _vecs_gen_open path root content :
  lookup_file root (path, "vectors") = Ok content →
  _vecs_gen path root = vecs_of content.
Proof. intros H. unfold _vecs_gen, with_open. now rewrite H. Qed.

Lemma _ids_gen_open path root content :
  lookup_file root (path, "ids") = Ok content →
  _ids_gen path root = ids_of content.
Proof. intros H. unfold _ids_gen, with_open. now rewrite H. Qed.

(** C2 (zero length and end of stream), what the code does. A length prefix
    of 0 ends both readers on the spot: nothing is yielded for that entry,
    and whatever follows it in the file is never decoded. *)
Theorem C2_zero_length_ends_the_stream (path : string) (root : option node)
    (rest : list byte) :
  (lookup_file root (path, "vectors")
     = Ok (digits BYTE_PADDING byteorder 0 ++ rest) →
   _vecs_gen path root = ([], Finished)) ∧
  (lookup_file root (path, "metas")
     = Ok (digits BYTE_PADDING byteorder 0 ++ rest) →
   _metas_gen path root = ([], Finished)).
Proof.
  split; intros H.
  - rewrite (_vecs_gen_open _ _ _ H). apply vecs_of_zero.
  - rewrite (_metas_gen_open _ _ _ H). apply metas_of_zero.
Qed.

(** C7 (truncation), as the code has it. A file that ends inside the payload
    of its last record (whole records before it, then a prefix [n] with
    fewer than [n] bytes behind it) is read without any check of the length:
    [_metas_gen] yields the bytes that are left as the last item ([None] if
    none are left) and ends normally; [_vecs_gen] does the same when the
    number of bytes left is a multiple of 8, and otherwise raises the
    [ValueError] of [np.frombuffer]. *)
Theorem C7_truncated_record_is_read_short (path : string)
    (root : option node) (n : Z) (rest : list byte) :
  0 < n < 256 ^ Z.of_nat BYTE_PADDING → Z.of_nat (length rest) < n →
  (∀ payloads : list (list byte),
     Forall (fun payload => payload ≠ [] ∧
        Z.of_nat (length payload) < 256 ^ Z.of_nat BYTE_PADDING) payloads →
     lookup_file root (path, "metas")
       = Ok (flat_map framed payloads
             ++ digits BYTE_PADDING byteorder n ++ rest) →
     _metas_gen path root
     = (map Some payloads ++ [match rest with [] => None | _ => Some rest end],
        Finished)) ∧
  (∀ vecs : list (list float64),
     Forall (fun items => items ≠ [] ∧
        Z.of_nat (length (tobytes items)) < 256 ^ Z.of_nat BYTE_PADDING) vecs →
     lookup_file root (path, "vectors")
       = Ok (flat_map (fun items => framed (tobytes items)) vecs
             ++ digits BYTE_PADDING byteorder n ++ rest) →
     (rest = [] → _vecs_gen path root = (map Some vecs ++ [None], Finished)) ∧
     (rest ≠ [] → (length rest mod 8 = 0)%nat →
        ∃ vec, tobytes vec = rest ∧
          _vecs_gen path root = (map Some vecs ++ [Some vec], Finished)) ∧
     ((length rest mod 8 ≠ 0)%nat →
        _vecs_gen path root = (map Some vecs ++ [], Raised ValueError))).
Proof.
  intros Hn Hrest. split.
  - intros payloads Hpayloads Hfile.
    rewrite (_metas_gen_open _ _ _ Hfile), metas_of_frames by assumption.
    now rewrite metas_of_truncated by assumption.
  - intros vecs Hvecs Hfile.
    rewrite (_vecs_gen_open _ _ _ Hfile), vecs_of_frames by assumption.
    rewrite vecs_of_truncated by assumption.
    pose proof (frombuffer_cases (length rest) rest (Nat.le_refl _)) as Hcases.
    split; [|split].
    + intros ->. reflexivity.
    + intros Hne Hmod. apply Nat.eqb_eq in Hmod. rewrite Hmod in Hcases.
      destruct Hcases as (vec & Hvec & Hbytes). exists vec.
      split; [exact Hbytes|]. destruct rest; [contradiction|].
      now rewrite Hvec.
    + intros Hmod. apply Nat.eqb_neq in Hmod. rewrite Hmod in Hcases.
      destruct rest; [simpl in Hmod; discriminate Hmod|]. now rewrite Hcases.
Qed.

(** C9 (missing shard or artifact), as the code has it. The three import
    functions never fail: they hand back generators that have not opened
    anything yet. A generator fails with [FileNotFoundError], yielding
    nothing, when the shard directory or its own file is missing; when its
    own file is there it reads it, whether or not the other files of the
    shard exist. *)
Theorem C9_missing_artifacts (pea_id : string) :
  import_vectors pea_id = Ok (_ids_gen pea_id, _vecs_gen pea_id) ∧
  import_metas pea_id = Ok (_ids_gen pea_id, _metas_gen pea_id) ∧
  import_metas_and_vectors pea_id
    = Ok (_ids_gen pea_id, _metas_gen pea_id, _vecs_gen pea_id) ∧
  (∀ root, root = None ∨ (∃ E, root = Some (Dir E) ∧ E !! pea_id = None) →
     _ids_gen pea_id root = ([], Raised FileNotFoundError) ∧
     _vecs_gen pea_id root = ([], Raised FileNotFoundError) ∧
     _metas_gen pea_id root = ([], Raised FileNotFoundError)) ∧
  (∀ E files, E !! pea_id = Some (Dir files) →
     (files !! "ids" = None →
        _ids_gen pea_id (Some (Dir E)) = ([], Raised FileNotFoundError)) ∧
     (files !! "vectors" = None →
        _vecs_gen pea_id (Some (Dir E)) = ([], Raised FileNotFoundError)) ∧
     (files !! "metas" = None →
        _metas_gen pea_id (Some (Dir E)) = ([], Raised FileNotFoundError)) ∧
     (∀ content, files !! "ids" = Some (File content) →
        _ids_gen pea_id (Some (Dir E)) = ids_of content) ∧
     (∀ content, files !! "vectors" = Some (File content) →
        _vecs_gen pea_id (Some (Dir E)) = vecs_of content) ∧
     (∀ content, files !! "metas" = Some (File content) →
        _metas_gen pea_id (Some (Dir E)) = metas_of content)).
Proof.
  repeat split; try reflexivity.
  - destruct H as [-> | (E & -> & HE)]; [reflexivity|].
    unfold _ids_gen, with_open, lookup_file. cbn [fst snd]. now rewrite HE.
  - destruct H as [-> | (E & -> & HE)]; [reflexivity|].
    unfold _vecs_gen, with_open, lookup_file. cbn [fst snd]. now rewrite HE.
  - destruct H as [-> | (E & -> & HE)]; [reflexivity|].
    unfold _metas_gen, with_open, lookup_file. cbn [fst snd]. now rewrite HE.
  - intros Hf. unfold _ids_gen, with_open, lookup_file. cbn [fst snd].
    now rewrite H, Hf.
  - intros Hf. unfold _vecs_gen, with_open, lookup_file. cbn [fst snd].
    now rewrite H, Hf.
  - intros Hf. unfold _metas_gen, with_open, lookup_file. cbn [fst snd].
    now rewrite H, Hf.
  - intros content Hf. apply _ids_gen_open. unfold lookup_file. cbn [fst snd].
    now rewrite H, Hf.
  - intros content Hf. apply _vecs_gen_open. unfold lookup_file. cbn [fst snd].
    now rewrite H, Hf.
  - intros content Hf. apply _metas_gen_open. unfold lookup_file. cbn [fst snd].
    now rewrite H, Hf.
Qed.

(** C10 (vectors handed over as bytes). A record whose vector field is a
    [bytes] object has these bytes written behind their length, as they
    are: no conversion takes part and the length need not be a multiple of
    8. Some such payloads cannot be read back: [_vecs_gen] raises the
    [ValueError] of [np.frombuffer] on a three-byte payload. *)
Theorem C10_bytes_vectors_written_verbatim :
  (∀ (data : producer) (sh : string) (V Mt I : list byte)
     (E : gmap string node) (p : nat) (id_ : string) (b : list byte)
     (meta : option (list byte)),
     data p = Some (id_, VecBytes b, meta) →
     Z.of_nat (length b) < 256 ^ Z.of_nat BYTE_PADDING →
     Z.of_nat (length (meta_bytes meta)) < 256 ^ Z.of_nat BYTE_PADDING →
     _write_shard_files data (sh, "ids") (sh, "metas") (sh, "vectors")
       (in_shard sh V Mt I E p)
     = (Ok tt,
        in_shard sh
          (V ++ digits BYTE_PADDING byteorder (Z.of_nat (length b)) ++ b)
          (Mt ++ framed (meta_bytes meta))
          (I ++ list_byte_of_string (id_ +:+ String "010" EmptyString))
          E (S p))) ∧
  (∃ b : list byte,
     (length b mod 8 ≠ 0)%nat ∧
     frombuffer b = Raise ValueError ∧
     ∀ path root, lookup_file root (path, "vectors") = Ok (framed b) →
       _vecs_gen path root = ([], Raised ValueError)).
Proof.
  split.
  - intros data sh V Mt I E p id_ b meta Hdata Hb Hmeta.
    apply (_write_shard_files_step data sh V Mt I E p (id_, VecBytes b, meta));
      [exact Hdata|]. split; assumption.
  - exists ["001"; "002"; "003"]%byte. split; [|split].
    + simpl. lia.
    + reflexivity.
    + intros path root Hfile. rewrite (_vecs_gen_open _ _ _ Hfile).
      rewrite <- (app_nil_r (framed _)).
      apply vecs_of_unreadable; [discriminate| |reflexivity].
      change (256 ^ Z.of_nat BYTE_PADDING) with 4294967296. simpl. lia.
Qed.

(** ** A target is used once *)

Lemma keeps_entry_bind {A B} name (m : M A) (k : A → M B) :
  keeps_entry name m → (∀ a, keeps_entry name (k a)) →
  keeps_entry name (bind m k).
Proof.
  intros Hm Hk s Hs. unfold bind. specialize (Hm s Hs).
  destruct (m s) as [[a|e] s']; simpl in *; [now apply (Hk a s')|exact Hm].
Qed.

Lemma keeps_entry_same {A} name (m : M A) :
  (∀ s, fs (m s).2 = fs s) → keeps_entry name m.
Proof.
  intros H s (E & HE & Hname). exists E. now rewrite H.
Qed.

Lemma keeps_entry_for_ {A} name (xs : list A) (body : A → M unit) :
  (∀ x, keeps_entry name (body x)) → keeps_entry name (for_ xs body).
Proof.
  intros H. induction xs as [|x xs IH]; cbn [for_].
  - now apply keeps_entry_same.
  - apply keeps_entry_bind; auto.
Qed.

Lemma keeps_entry_times name (n : nat) (body : M unit) :
  keeps_entry name body → keeps_entry name (times n body).
Proof.
  intros H. induction n as [|n IH]; cbn [times].
  - now apply keeps_entry_same.
  - apply keeps_entry_bind; auto.
Qed.

Lemma store_file_entry E fp content name :
  is_Some (E !! name) →
  ∃ E', store_file (Some (Dir E)) fp content = Some (Dir E') ∧
        is_Some (E' !! name).
Proof.
  intros Hname. unfold store_file.
  destruct (E !! fp.1) as [[|files]|] eqn:Hfp; eauto.
  eexists. split; [reflexivity|].
  destruct (decide (fp.1 = name)) as [<-|Hne].
  - rewrite lookup_insert_eq. eauto.
  - now rewrite lookup_insert_ne.
Qed.

Lemma keeps_entry_fh_write name fh data : keeps_entry name (fh_write fh data).
Proof.
  intros s (E & HE & Hname). unfold fh_write.
  destruct (lookup_file (fs s) fh); simpl; [|now exists E].
  rewrite HE. now apply store_file_entry.
Qed.

Lemma keeps_entry_open_w name fp : keeps_entry name (open_w fp).
Proof.
  intros s (E & HE & Hname). unfold open_w. rewrite HE.
  destruct (E !! fp.1) as [[|files]|]; simpl; try (exists E; now split).
  destruct (files !! fp.2) as [[]|]; simpl; try (exists E; now split);
    now apply store_file_entry.
Qed.

Lemma keeps_entry_os_makedirs name dir : keeps_entry name (os_makedirs dir).
Proof.
  intros s (E & HE & Hname). unfold os_makedirs. rewrite HE.
  destruct (E !! dir) eqn:Hdir; simpl; [exists E; now split|].
  eexists. split; [reflexivity|].
  destruct (decide (dir = name)) as [->|Hne].
  - rewrite Hdir in Hname. now destruct Hname.
  - now rewrite lookup_insert_ne.
Qed.

Lemma keeps_entry_next name data : keeps_entry name (next data).
Proof.
  intros s Hs. unfold next. destruct (data (pulled s)); simpl; exact Hs.
Qed.

Lemma keeps_entry__write_shard_files name data ids_fh metas_fh vectors_fh :
  keeps_entry name (_write_shard_files data ids_fh metas_fh vectors_fh).
Proof.
  unfold _write_shard_files.
  apply keeps_entry_bind; [apply keeps_entry_next|]. intros [[id_ vec] meta].
  apply keeps_entry_bind; [now apply keeps_entry_same|]. intros size1.
  apply keeps_entry_bind; [apply keeps_entry_fh_write|]. intros _.
  apply keeps_entry_bind; [now apply keeps_entry_same|]. intros size2.
  apply keeps_entry_bind; [apply keeps_entry_fh_write|]. intros _.
  apply keeps_entry_fh_write.
Qed.

(** what follows [os.makedirs(shard_path)] in [_write_shard_data] *)
Lemma keeps_entry_shard_body name data (shard_path : string) (quota : Z) :
  keeps_entry name
    (let '(vectors_fp, metas_fp, ids_fp) := _get_file_paths shard_path in
     do vectors_fh <- open_w vectors_fp;
     do metas_fh <- open_w metas_fp;
     do ids_fh <- open_w ids_fp;
     times (Z.to_nat quota)
           (_write_shard_files data ids_fh metas_fh vectors_fh)).
Proof.
  unfold _get_file_paths.
  apply keeps_entry_bind; [apply keeps_entry_open_w|]. intros vectors_fh.
  apply keeps_entry_bind; [apply keeps_entry_open_w|]. intros metas_fh.
  apply keeps_entry_bind; [apply keeps_entry_open_w|]. intros ids_fh.
  apply keeps_entry_times, keeps_entry__write_shard_files.
Qed.

Lemma keeps_entry__write_shard_data name data path shard_id quota :
  keeps_entry name (_write_shard_data data path shard_id quota).
Proof.
  unfold _write_shard_data.
  apply keeps_entry_bind; [apply keeps_entry_os_makedirs|]. intros _.
  apply keeps_entry_shard_body.
Qed.

Lemma first_shard_made (data : producer) (path : string) (quota : Z)
    (p : nat) :
  has_entry "0"
    (_write_shard_data data path 0 quota (State (Some (Dir ∅)) p)).2.
Proof.
  unfold _write_shard_data. unfold bind at 1.
  rewrite os_makedirs_fresh by apply lookup_empty.
  apply keeps_entry_shard_body. eexists. split; [reflexivity|].
  change (str 0) with "0". rewrite lookup_insert_eq. eauto.
Qed.

(** The first shard directory is made before anything can fail, and stays. *)
Lemma first_shard_is_left (data : producer) (path : string)
    (shards size : Z) (s : state) :
  free_target s → 1 ≤ shards →
  has_entry "0" (_handle_dump data path shards size s).2.
Proof.
  intros Hfree Hshards. destruct s as [root p]. unfold free_target in Hfree.
  simpl in Hfree.
  assert (Hrun : _handle_dump data path shards size (State root p)
    = _handle_dump data path shards size (State (Some (Dir ∅)) p))
    by (destruct Hfree as [-> | ->]; [apply _handle_dump_absent|reflexivity]).
  rewrite Hrun, _handle_dump_quotas by (simpl; auto; lia).
  assert (Hrange : range shards
                   = 0 :: map Z.of_nat (seq 1 (Z.to_nat shards - 1))).
  { unfold range.
    replace (Z.to_nat shards) with (S (Z.to_nat shards - 1)) at 1 by lia.
    reflexivity. }
  rewrite Hrange at 1. cbn [for_]. unfold bind at 1.
  pose proof (first_shard_made data path
    (size_this_shard (size / shards) (size mod shards) (range shards) 0) p)
    as Hfirst.
  destruct (_write_shard_data data path 0 _ _) as [[[]|e] s1];
    cbn [snd] in Hfirst; [|exact Hfirst].
  apply keeps_entry_for_; [|exact Hfirst].
  intros shard_id. apply keeps_entry__write_shard_data.
Qed.

Lemma _handle_dump_occupied (data : producer) (path : string)
    (shards size : Z) (s : state) (name : string) :
  has_entry name s →
  _handle_dump data path shards size s
  = (Raise (Exception (not_empty_message path)), s).
Proof.
  intros (E & HE & Hname). destruct s as [root p]. simpl in HE. subst root.
  unfold _handle_dump, bind, os_path_exists, os_listdir, ret. cbn [fs negb].
  destruct (map_to_list E) as [|[name' nd] listing] eqn:Hlist; [|reflexivity].
  apply map_to_list_empty_iff in Hlist. subst E.
  rewrite lookup_empty in Hname. now destruct Hname.
Qed.

(** X1 (a target is used once). Whatever a dump with [shards >= 1] into a
    free target does, succeed or fail with any exception, it leaves the
    directory of shard 0 behind: every later dump into the same path is
    refused with the exception for a target that contains data, and changes
    nothing. *)
Theorem X1_target_is_used_once (data data' : producer) (path : string)
    (shards size shards' size' : Z) (s : state) :
  free_target s → 1 ≤ shards →
  has_entry "0" (export_dump_streaming path shards size data s).2 ∧
  export_dump_streaming path shards' size' data'
    (export_dump_streaming path shards size data s).2
  = (Raise (Exception (not_empty_message path)),
     (export_dump_streaming path shards size data s).2).
Proof.
  intros Hfree Hshards. unfold export_dump_streaming.
  pose proof (first_shard_is_left data path shards size s Hfree Hshards)
    as Hleft.
  split; [exact Hleft|]. now apply (_handle_dump_occupied _ _ _ _ _ "0").
Qed.

(** ** Dumping and reading back, in general *)

(** A dump of [items] (as the records [to_record] makes of them) into a free
    target, read back shard by shard with [read]: when [read] gives
    [expected part] on the directory of a shard that was handed [part], the
    shards give [expected] of consecutive pieces of [items]. *)
Lemma dump_then_read {X B} (to_record : X → record) (P : X → Prop)
    (read : option node → string → B) (expected : list X → B)
    (data : producer) (path : string) (shards : Z) (s : state)
    (items : list X) :
  (∀ E name part, E !! name = Some (shard_dir (map to_record part)) →
     Forall P part → read (Some (Dir E)) name = expected part) →
  (∀ x, P x → fits (to_record x)) →
  free_target s → 1 ≤ shards →
  (∀ (i : nat) x, items !! i = Some x →
     data (pulled s + i)%nat = Some (to_record x)) →
  Forall P items →
  ∃ (root : option node) (parts : list (list X)),
    export_dump_streaming path shards (Z.of_nat (length items)) data s
    = (Ok tt, State root (pulled s + length items)) ∧
    map (fun shard_id => read root (str shard_id)) (range shards)
    = map expected parts ∧
    concat parts = items.
Proof.
  intros Hread Hfits Hroot Hshards Hdata Hitems.
  set (size := Z.of_nat (length items)).
  set (rs := map to_record items).
  exists (Some (Dir (layout O (quotas size shards) rs ∅))).
  exists (chunks (quotas size shards) items).
  split; [|split].
  - replace (length items) with (length rs) by apply length_map.
    apply dump_layout; try assumption.
    + subst size rs. now rewrite length_map.
    + intros i r Hi. subst rs.
      change (map to_record items) with (to_record <$> items) in Hi.
      apply list_lookup_fmap_Some in Hi as (x & -> & Hx). now apply Hdata.
    + subst rs. apply Forall_fmap. eapply Forall_impl; [exact Hitems|].
      exact Hfits.
  - apply list_eq. intros i.
    change (map ?f ?l !! i) with ((f <$> l) !! i).
    rewrite !list_lookup_fmap.
    destruct (decide (i < Z.to_nat shards)%nat) as [Hi|Hi].
    + rewrite range_lookup by exact Hi.
      destruct (lookup_lt_is_Some_2 (quotas size shards) i) as [q Hq];
        [now rewrite length_quotas|].
      rewrite (chunks_lookup _ items i q Hq). cbn [fmap option_fmap option_map].
      f_equal. change (Z.of_nat i) with (Z.of_nat (0 + i)).
      apply Hread.
      * apply layout_chunks. subst rs. rewrite chunks_map.
        change (map ?f ?l !! i) with ((f <$> l) !! i).
        rewrite list_lookup_fmap, (chunks_lookup _ items i q Hq). reflexivity.
      * now apply Forall_take, Forall_drop.
    + rewrite (lookup_ge_None_2 (range shards))
        by (rewrite length_range; lia).
      rewrite (lookup_ge_None_2 (chunks _ _))
        by (rewrite length_chunks, length_quotas; lia).
      reflexivity.
  - rewrite concat_chunks, quotas_total by (subst size; lia).
    apply take_ge. subst size. lia.
Qed.

Lemma vecs_of_with_vector (part : list (string * ndarray * option (list byte))) :
  Forall (fun x => as_float64 x.1.2 ≠ [] ∧ fits (with_vector x)) part →
  vecs_of (vectors_content (map with_vector part))
  = (map (fun x => Some (as_float64 x.1.2)) part, Finished).
Proof.
  intros Hpart.
  assert (Heq : vectors_content (map with_vector part)
    = flat_map (fun items => framed (tobytes items))
        (map (fun x => as_float64 x.1.2) part) ++ []).
  { rewrite app_nil_r. unfold vectors_content. clear Hpart.
    induction part as [|x part IH]; [reflexivity|]. cbn [map flat_map].
    now rewrite IH. }
  rewrite Heq, vecs_of_frames, vecs_of_nil.
  - cbn [fst snd]. now rewrite app_nil_r, map_map.
  - apply Forall_fmap. eapply Forall_impl; [exact Hpart|].
    intros x (Hne & Hfit & _). split; [exact Hne|exact Hfit].
Qed.

Lemma metas_of_with_meta (part : list (string * vec_field * list byte)) :
  Forall (fun x => x.2 ≠ [] ∧ fits (with_meta x)) part →
  metas_of (metas_content (map with_meta part))
  = (map (fun x => Some x.2) part, Finished).
Proof.
  intros Hpart.
  assert (Heq : metas_content (map with_meta part)
                = flat_map framed (map (fun x => x.2) part) ++ []).
  { rewrite app_nil_r. unfold metas_content. clear Hpart.
    induction part as [|x part IH]; [reflexivity|]. cbn [map flat_map].
    now rewrite IH. }
  rewrite Heq, metas_of_frames, metas_of_nil.
  - cbn [fst snd]. now rewrite app_nil_r, map_map.
  - apply Forall_fmap. eapply Forall_impl; [exact Hpart|].
    intros x (Hne & _ & Hfit). split; [exact Hne|exact Hfit].
Qed.

(** X3 (ids and vectors, whatever the metadata). Records with a clean id
    and a non-empty array for a vector, with any metadata or none (payloads
    below 2^32 bytes): dumped into a free target with [shards >= 1] and
    read back with [import_vectors], the ids and the vectors of the shards,
    concatenated in shard order, are those of the records. *)
Theorem X3_import_vectors_round_trip (data : producer) (path : string)
    (shards : Z) (s : state)
    (items : list (string * ndarray * option (list byte))) :
  free_target s → 1 ≤ shards →
  (∀ (i : nat) x, items !! i = Some x →
     data (pulled s + i)%nat = Some (with_vector x)) →
  Forall (fun x => clean_id x.1.1 ∧ as_float64 x.1.2 ≠ [] ∧
                   fits (with_vector x)) items →
  ∃ (root : option node)
    (parts : list (list (string * ndarray * option (list byte)))),
    export_dump_streaming path shards (Z.of_nat (length items)) data s
    = (Ok tt, State root (pulled s + length items)) ∧
    map (fun shard_id => import_vectors_shard root (str shard_id))
        (range shards)
    = map (fun part =>
        Ok ((map (fun x => x.1.1) part, Finished),
            (map (fun x => Some (as_float64 x.1.2)) part, Finished))) parts ∧
    concat parts = items.
Proof.
  intros Hfree Hshards Hdata Hitems.
  apply (dump_then_read with_vector
    (fun x => clean_id x.1.1 ∧ as_float64 x.1.2 ≠ [] ∧ fits (with_vector x)));
    try assumption.
  - intros E name part HE Hpart.
    destruct (lookup_file_in _ _ _ _ _ HE) as (HV & _ & HI).
    unfold import_vectors_shard, import_vectors, _ids_gen, _vecs_gen, with_open.
    rewrite HV, HI, vecs_of_with_vector.
    + unfold ids_of. rewrite text_lines_ids; [now rewrite map_map|].
      apply Forall_fmap. eapply Forall_impl; [exact Hpart|].
      now intros x (Hid & _).
    + eapply Forall_impl; [exact Hpart|]. now intros x (_ & Hne & Hfit).
  - now intros x (_ & _ & Hfit).
Qed.

(** X4 (ids and metadata, whatever the vector). Records with a clean id and
    non-empty metadata, with any vector field (none, an array, raw bytes;
    payloads below 2^32 bytes): dumped into a free target with
    [shards >= 1] and read back with [import_metas], the ids and the
    metadata of the shards, concatenated in shard order, are those of the
    records. *)
Theorem X4_import_metas_round_trip (data : producer) (path : string)
    (shards : Z) (s : state) (items : list (string * vec_field * list byte)) :
  free_target s → 1 ≤ shards →
  (∀ (i : nat) x, items !! i = Some x →
     data (pulled s + i)%nat = Some (with_meta x)) →
  Forall (fun x => clean_id x.1.1 ∧ x.2 ≠ [] ∧ fits (with_meta x)) items →
  ∃ (root : option node) (parts : list (list (string * vec_field * list byte))),
    export_dump_streaming path shards (Z.of_nat (length items)) data s
    = (Ok tt, State root (pulled s + length items)) ∧
    map (fun shard_id => import_metas_shard root (str shard_id)) (range shards)
    = map (fun part =>
        Ok ((map (fun x => x.1.1) part, Finished),
            (map (fun x => Some x.2) part, Finished))) parts ∧
    concat parts = items.
Proof.
  intros Hfree Hshards Hdata Hitems.
  apply (dump_then_read with_meta
    (fun x => clean_id x.1.1 ∧ x.2 ≠ [] ∧ fits (with_meta x)));
    try assumption.
  - intros E name part HE Hpart.
    destruct (lookup_file_in _ _ _ _ _ HE) as (_ & HM & HI).
    unfold import_metas_shard, import_metas, _ids_gen, _metas_gen, with_open.
    rewrite HM, HI, metas_of_with_meta.
    + unfold ids_of. rewrite text_lines_ids; [now rewrite map_map|].
      apply Forall_fmap. eapply Forall_impl; [exact Hpart|].
      now intros x (Hid & _).
    + eapply Forall_impl; [exact Hpart|]. now intros x (_ & Hne & Hfit).
  - now intros x (_ & _ & Hfit).
Qed.

(** X2 (the empty dump). With [size = 0] and [shards >= 1] a dump into a
    free target succeeds without touching the producer; it makes exactly the
    directories [0 .. shards-1], each with three empty files, and every
    shard reads back as three empty sequences that end normally. *)
Theorem X2_empty_dump (data : producer) (path : string) (shards : Z)
    (s : state) :
  free_target s → 1 ≤ shards →
  ∃ E,
    export_dump_streaming path shards 0 data s
    = (Ok tt, State (Some (Dir E)) (pulled s)) ∧
    (∀ name, is_Some (E !! name) ↔
       ∃ i : nat, (i < Z.to_nat shards)%nat ∧ name = str (Z.of_nat i)) ∧
    (∀ i : nat, (i < Z.to_nat shards)%nat →
       E !! str (Z.of_nat i) = Some (shard_files [] [] []) ∧
       import_shard (Some (Dir E)) (str (Z.of_nat i))
       = Ok (([], Finished), ([], Finished), ([], Finished))).
Proof.
  intros Hfree Hshards.
  exists (layout O (quotas 0 shards) [] ∅).
  assert (Hshard : ∀ i : nat, (i < Z.to_nat shards)%nat →
    layout O (quotas 0 shards) [] ∅ !! str (Z.of_nat i)
    = Some (shard_files [] [] [])).
  { intros i Hi.
    destruct (lookup_lt_is_Some_2 (quotas 0 shards) i) as [q Hq];
      [now rewrite length_quotas|].
    change (Z.of_nat i) with (Z.of_nat (0 + i)).
    rewrite (layout_chunks _ _ _ _ _ []); [reflexivity|].
    rewrite (chunks_lookup _ _ i q Hq). now rewrite drop_nil, take_nil. }
  split; [|split].
  - pose proof (dump_layout data path shards 0 s [] Hfree Hshards eq_refl)
      as Hrun.
    cbn [length] in Hrun. rewrite Nat.add_0_r in Hrun.
    apply Hrun; [discriminate|constructor].
  - intros name. split.
    + intros Hname. apply layout_dom in Hname as [Hname|(k & Hk & ->)].
      * rewrite lookup_empty in Hname. now destruct Hname.
      * exists k. rewrite length_quotas in Hk. now split.
    + intros (i & Hi & ->). rewrite Hshard by exact Hi. eauto.
  - intros i Hi. split; [now apply Hshard|].
    destruct (lookup_file_in _ _ _ _ _ (Hshard i Hi)) as (HV & HM & HI).
    unfold import_shard, import_metas_and_vectors, _ids_gen, _metas_gen,
      _vecs_gen, with_open.
    rewrite HV, HM, HI, metas_of_nil, vecs_of_nil. reflexivity.
Qed.


(** ** The readers on any file *)

Lemma metas_loop_count (fuel : nat) : ∀ bs : list byte,
  (length (metas_loop fuel bs).1 ≤ length bs)%nat.
Proof.
  induction fuel as [|fuel IH]; intros bs; [simpl; lia|]. cbn [metas_loop].
  pose proof (read_prefix_shrinks bs) as Hshrink.
  destruct (fh_read bs (Z.of_nat BYTE_PADDING)) as [prefix left].
  cbn [fst snd] in Hshrink.
  destruct (Z.eqb_spec (int_from_bytes prefix byteorder) 0) as [|Hne];
    [simpl; lia|].
  specialize (Hshrink Hne).
  pose proof (fh_read_length left (int_from_bytes prefix byteorder)) as Hlen.
  destruct (fh_read left (int_from_bytes prefix byteorder)) as [meta left'].
  cbn [fst snd] in Hlen. specialize (IH left').
  destruct meta; unfold yield; cbn [fst length] in *; lia.
Qed.

Lemma vecs_loop_count (fuel : nat) : ∀ bs : list byte,
  (length (vecs_loop fuel bs).1 ≤ length bs)%nat.
Proof.
  induction fuel as [|fuel IH]; intros bs; [simpl; lia|]. cbn [vecs_loop].
  pose proof (read_prefix_shrinks bs) as Hshrink.
  destruct (fh_read bs (Z.of_nat BYTE_PADDING)) as [prefix left].
  cbn [fst snd] in Hshrink.
  destruct (Z.eqb_spec (int_from_bytes prefix byteorder) 0) as [|Hne];
    [simpl; lia|].
  specialize (Hshrink Hne).
  pose proof (fh_read_length left (int_from_bytes prefix byteorder)) as Hlen.
  destruct (fh_read left (int_from_bytes prefix byteorder)) as [vec left'].
  cbn [fst snd] in Hlen. specialize (IH left').
  destruct vec; [unfold yield; cbn [fst length] in *; lia|].
  destruct (frombuffer _); unfold yield; cbn [fst length] in *; lia.
Qed.

(** X6 (the readers come to an end). On any file system and for any shard
    name, the loops of [_vecs_gen] and [_metas_gen] stop: the iteration
    budget of the model is never used up, and a generator yields at most as
    many items as its file has bytes. *)
Theorem X6_readers_terminate (path : string) (root : option node) :
  (_vecs_gen path root).2 ≠ OutOfFuel ∧
  (_metas_gen path root).2 ≠ OutOfFuel ∧
  (∀ content, lookup_file root (path, "vectors") = Ok content →
     (length (_vecs_gen path root).1 ≤ length content)%nat) ∧
  (∀ content, lookup_file root (path, "metas") = Ok content →
     (length (_metas_gen path root).1 ≤ length content)%nat).
Proof.
  unfold _vecs_gen, _metas_gen, with_open. repeat split.
  - destruct (lookup_file root (path, "vectors"));
      [apply vecs_of_terminates|discriminate].
  - destruct (lookup_file root (path, "metas"));
      [apply metas_of_terminates|discriminate].
  - intros content ->. apply vecs_loop_count.
  - intros content ->. apply metas_loop_count.
Qed.

Lemma metas_loop_items (fuel : nat) : ∀ bs : list byte,
  Forall (fun item => item ≠ Some []) (metas_loop fuel bs).1.
Proof.
  induction fuel as [|fuel IH]; intros bs; [constructor|]. cbn [metas_loop].
  destruct (fh_read bs (Z.of_nat BYTE_PADDING)) as [prefix left].
  destruct (int_from_bytes prefix byteorder =? 0); [constructor|].
  destruct (fh_read left (int_from_bytes prefix byteorder)) as [meta left'].
  destruct meta; unfold yield; cbn [fst];
    (apply Forall_cons_2; [discriminate|apply IH]).
Qed.

Lemma frombuffer_not_empty (b : byte) (buf : list byte) (vec : list float64) :
  frombuffer (b :: buf) = Ok vec → vec ≠ [].
Proof.
  destruct buf as [|b1 [|b2 [|b3 [|b4 [|b5 [|b6 [|b7 rest]]]]]]];
    try discriminate.
  cbn [frombuffer]. destruct (frombuffer rest); [|discriminate].
  intros [= <-]. discriminate.
Qed.

Lemma vecs_loop_items (fuel : nat) : ∀ bs : list byte,
  Forall (fun item => item ≠ Some []) (vecs_loop fuel bs).1.
Proof.
  induction fuel as [|fuel IH]; intros bs; [constructor|]. cbn [vecs_loop].
  destruct (fh_read bs (Z.of_nat BYTE_PADDING)) as [prefix left].
  destruct (int_from_bytes prefix byteorder =? 0); [constructor|].
  destruct (fh_read left (int_from_bytes prefix byteorder)) as [vec left'].
  destruct vec as [|b vec].
  - unfold yield; cbn [fst]. apply Forall_cons_2; [discriminate|apply IH].
  - destruct (frombuffer (b :: vec)) as [items|e] eqn:Hbuf; [|constructor].
    unfold yield; cbn [fst]. apply Forall_cons_2; [|apply IH].
    intros [= ->]. now apply frombuffer_not_empty in Hbuf.
Qed.

(** X7 (nothing empty is ever yielded). Whatever the files hold, no item
    that [_vecs_gen] or [_metas_gen] yields is an empty array or an empty
    byte string: an item is [None] or has at least one element. *)
Theorem X7_no_empty_item (path : string) (root : option node) :
  Forall (fun item => item ≠ Some []) (_vecs_gen path root).1 ∧
  Forall (fun item => item ≠ Some []) (_metas_gen path root).1.
Proof.
  unfold _vecs_gen, _metas_gen, with_open. split.
  - destruct (lookup_file root (path, "vectors"));
      [apply vecs_loop_items|constructor].
  - destruct (lookup_file root (path, "metas"));
      [apply metas_loop_items|constructor].
Qed.

Lemma metas_of_stray (stray : list byte) :
  (0 < length stray < BYTE_PADDING)%nat →
  metas_of stray
  = (if int_from_bytes stray byteorder =? 0 then [] else [None], Finished).
Proof.
  intros Hlen. unfold metas_of. cbn [metas_loop].
  rewrite fh_read_short by (unfold BYTE_PADDING in *; lia).
  destruct (int_from_bytes stray byteorder =? 0); [reflexivity|].
  cbn [fh_read]. destruct stray as [|b stray]; [simpl in Hlen; lia|].
  cbn [length]. now rewrite metas_loop_eof.
Qed.

Lemma vecs_of_stray (stray : list byte) :
  (0 < length stray < BYTE_PADDING)%nat →
  vecs_of stray
  = (if int_from_bytes stray byteorder =? 0 then [] else [None], Finished).
Proof.
  intros Hlen. unfold vecs_of. cbn [vecs_loop].
  rewrite fh_read_short by (unfold BYTE_PADDING in *; lia).
  destruct (int_from_bytes stray byteorder =? 0); [reflexivity|].
  cbn [fh_read]. destruct stray as [|b stray]; [simpl in Hlen; lia|].
  cbn [length]. now rewrite vecs_loop_eof.
Qed.

(** X8 (a file that ends inside a length prefix). When whole records are
    followed by one to three stray bytes, no error is raised: the bytes are
    taken for a length; if it is not zero the generator yields one more
    item, [None], and ends normally, and if it is zero it just ends. *)
Theorem X8_stray_prefix_bytes (path : string) (root : option node)
    (stray : list byte) :
  (0 < length stray < BYTE_PADDING)%nat →
  (∀ payloads : list (list byte),
     Forall (fun payload => payload ≠ [] ∧
        Z.of_nat (length payload) < 256 ^ Z.of_nat BYTE_PADDING) payloads →
     lookup_file root (path, "metas")
       = Ok (flat_map framed payloads ++ stray) →
     _metas_gen path root
     = (map Some payloads
        ++ (if int_from_bytes stray byteorder =? 0 then [] else [None]),
        Finished)) ∧
  (∀ vecs : list (list float64),
     Forall (fun items => items ≠ [] ∧
        Z.of_nat (length (tobytes items)) < 256 ^ Z.of_nat BYTE_PADDING) vecs →
     lookup_file root (path, "vectors")
       = Ok (flat_map (fun items => framed (tobytes items)) vecs ++ stray) →
     _vecs_gen path root
     = (map Some vecs
        ++ (if int_from_bytes stray byteorder =? 0 then [] else [None]),
        Finished)).
Proof.
  intros Hstray. split.
  - intros payloads Hpayloads Hfile.
    rewrite (_metas_gen_open _ _ _ Hfile), metas_of_frames by assumption.
    now rewrite metas_of_stray.
  - intros vecs Hvecs Hfile.
    rewrite (_vecs_gen_open _ _ _ Hfile), vecs_of_frames by assumption.
    now rewrite vecs_of_stray.
Qed.

(** ** What [_ids_gen] yields *)
















Lemma list_byte_of_string_app (s t : string) :
  list_byte_of_string (s +:+ t)
  = list_byte_of_string s ++ list_byte_of_string t.
Proof.
  unfold list_byte_of_string.
  induction s as [|c s IH]; [reflexivity|].
  rewrite append_cons. cbn [list_ascii_of_string map app]. now rewrite IH.
Qed.

(** an id of several lines takes as much room in the ids file as so many
    ids *)
Lemma ids_content_lines (first : string) (more : list string)
    (vec : vec_field) (meta : option (list byte)) (rest : list record) :
  ids_content ((join_lines first more, vec, meta) :: rest)
  = ids_content (map (fun l => (l, VecNone, None)) (first :: more) ++ rest).
Proof.
  revert first. induction more as [|l more IH]; intros first.
  - reflexivity.
  - specialize (IH l). unfold ids_content in *.
    cbn [join_lines map flat_map app fst snd] in *.
    rewrite <- IH. rewrite append_assoc, append_cons.
    rewrite (list_byte_of_string_app first), <- app_assoc.
    rewrite (list_byte_of_string_app first). rewrite <- app_assoc.
    reflexivity.
Qed.

Lemma ids_content_app (rs1 rs2 : list record) :
  ids_content (rs1 ++ rs2) = ids_content rs1 ++ ids_content rs2.
Proof. apply flat_map_app. Qed.

Lemma text_lines_with_lines
    (part : list (string * list string * vec_field * option (list byte))) :
  Forall (fun x => Forall clean_id (x.1.1.1 :: x.1.1.2)) part →
  map strip (text_lines (ids_content (map with_lines part)))
  = flat_map (fun x => x.1.1.1 :: x.1.1.2) part.
Proof.
  intros Hpart.
  assert (Heq : ids_content (map with_lines part)
    = ids_content (map (fun l => (l, VecNone, None))
        (flat_map (fun x => x.1.1.1 :: x.1.1.2) part))).
  { clear Hpart. induction part as [|[[[first more] vec] meta] part IH];
      [reflexivity|].
    change (map with_lines ((first, more, vec, meta) :: part))
      with ((join_lines first more, vec, meta) :: map with_lines part).
    cbn [flat_map fst snd].
    rewrite ids_content_lines, map_app, !ids_content_app, IH.
    reflexivity. }
  rewrite Heq, text_lines_ids.
  - rewrite map_map. cbn [fst]. apply map_id.
  - apply Forall_fmap. apply Forall_flat_map.
    eapply Forall_impl; [exact Hpart|]. intros x Hx. exact Hx.
Qed.

(** X10 (ids are not escaped). An id that consists of several clean lines
    is written as it is, and read back as so many ids: after a dump into a
    free target with [shards >= 1], the ids generator of a shard yields,
    for each of its records in order, every line of the id as an id of its
    own (one id per record only when no id has a line feed). *)
Theorem X10_id_lines_become_ids (data : producer) (path : string)
    (shards : Z) (s : state)
    (items : list (string * list string * vec_field * option (list byte))) :
  free_target s → 1 ≤ shards →
  (∀ (i : nat) x, items !! i = Some x →
     data (pulled s + i)%nat = Some (with_lines x)) →
  Forall (fun x => Forall clean_id (x.1.1.1 :: x.1.1.2) ∧
                   fits (with_lines x)) items →
  ∃ (root : option node)
    (parts : list (list (string * list string * vec_field
                         * option (list byte)))),
    export_dump_streaming path shards (Z.of_nat (length items)) data s
    = (Ok tt, State root (pulled s + length items)) ∧
    map (fun shard_id => _ids_gen (str shard_id) root) (range shards)
    = map (fun part =>
        (flat_map (fun x => x.1.1.1 :: x.1.1.2) part, Finished)) parts ∧
    concat parts = items.
Proof.
  intros Hfree Hshards Hdata Hitems.
  apply (dump_then_read with_lines
    (fun x => Forall clean_id (x.1.1.1 :: x.1.1.2) ∧ fits (with_lines x))
    (fun root name => _ids_gen name root)); try assumption.
  - intros E name part HE Hpart.
    destruct (lookup_file_in _ _ _ _ _ HE) as (_ & _ & HI).
    unfold _ids_gen, with_open. rewrite HI. unfold ids_of.
    rewrite text_lines_with_lines; [reflexivity|].
    eapply Forall_impl; [exact Hpart|]. now intros x (Hx & _).
  - now intros x (_ & Hfit).
Qed.

(** ** The quotas, once more *)

Lemma sum_to_nat_replicate (k : nat) (c : Z) :
  foldr Nat.add O (map Z.to_nat (replicate k c)) = (k * Z.to_nat c)%nat.
Proof. induction k as [|k IH]; simpl; [reflexivity|]. rewrite IH. lia. Qed.

(** X11 (how uneven the shards are). For [size >= 0] and [shards >= 1] the
    last shard gets [size % shards] records more than each of the others,
    which is less than [shards]; with fewer records than shards every shard
    but the last stays empty and the last gets them all; and when [shards]
    divides [size] all shards get the same. *)
Theorem X11_quotas_balance (size shards : Z) :
  0 ≤ size → 1 ≤ shards →
  (∀ (i : nat) (q last : Z), (i < Z.to_nat shards - 1)%nat →
     quotas size shards !! i = Some q →
     quotas size shards !! (Z.to_nat shards - 1)%nat = Some last →
     last - q = size mod shards ∧ 0 ≤ last - q < shards) ∧
  (size < shards →
     quotas size shards = replicate (Z.to_nat shards - 1) 0 ++ [size]) ∧
  (size mod shards = 0 →
     quotas size shards = replicate (Z.to_nat shards) (size / shards)).
Proof.
  intros Hsize Hshards.
  pose proof (Z.mod_pos_bound size shards ltac:(lia)) as Hr.
  rewrite quotas_eq by lia.
  replace (Z.to_nat (shards - 1)) with (Z.to_nat shards - 1)%nat by lia.
  split; [|split].
  - intros i q last Hi Hq Hlast.
    rewrite lookup_app_l in Hq by (rewrite length_replicate; lia).
    apply lookup_replicate in Hq as [-> _].
    rewrite lookup_app_r in Hlast by (rewrite length_replicate; lia).
    rewrite length_replicate, Nat.sub_diag in Hlast.
    injection Hlast as <-. lia.
  - intros Hsmall. rewrite Z.div_small, Z.mod_small by lia. reflexivity.
  - intros Hmod. rewrite Hmod, Z.add_0_r.
    replace (Z.to_nat shards) with (Z.to_nat shards - 1 + 1)%nat at 2 by lia.
    now rewrite replicate_add.
Qed.

(** a dump into a free target of as many records as the quotas ask for *)
Lemma dump_layout_total (data : producer) (path : string) (shards size : Z)
    (s : state) (rs : list record) :
  free_target s → 1 ≤ shards →
  length rs = foldr Nat.add O (map Z.to_nat (quotas size shards)) →
  (∀ (i : nat) r, rs !! i = Some r → data (pulled s + i)%nat = Some r) →
  Forall fits rs →
  export_dump_streaming path shards size data s
  = (Ok tt, State (Some (Dir (layout O (quotas size shards) rs ∅)))
              (pulled s + length rs)).
Proof.
  intros Hfree Hshards Hlen Hdata Hfits. destruct s as [root p].
  unfold free_target in Hfree. simpl in *. unfold export_dump_streaming.
  assert (Hrun : _handle_dump data path shards size (State root p)
    = _handle_dump data path shards size (State (Some (Dir ∅)) p))
    by (destruct Hfree as [-> | ->]; [apply _handle_dump_absent|reflexivity]).
  rewrite Hrun, _handle_dump_quotas by (simpl; auto; lia).
  unfold quotas, range in *.
  destruct (for_shards data path
    (size_this_shard (size / shards) (size mod shards)
       (map Z.of_nat (seq 0 (Z.to_nat shards))))
    (Z.to_nat shards) O ∅ p (fun i _ => lookup_empty _))
    as (E' & Hloop & HE').
  - rewrite <- Hlen, pull_list_yields by assumption. exact Hfits.
  - rewrite <- Hlen, pull_list_yields in Hloop, HE' by assumption.
    rewrite decide_True in Hloop by reflexivity.
    rewrite Hloop, HE' by reflexivity. reflexivity.
Qed.

(** X12 (a negative size is not refused). For [size < 0] and
    [shards >= 1] the quota of every shard but the last is negative, which
    writes nothing, and that of the last is
    [size // shards + size % shards], which can be positive: a dump into a
    free target then pulls that many records and writes them all into the
    last shard; the other shards get three empty files. (With [size = -1]
    and three shards, one record is written.) *)
Theorem X12_negative_size (data : producer) (path : string)
    (shards size : Z) (s : state) (rs : list record) :
  size < 0 → 1 ≤ shards → free_target s →
  length rs = Z.to_nat (size / shards + size mod shards) →
  (∀ (i : nat) r, rs !! i = Some r → data (pulled s + i)%nat = Some r) →
  Forall fits rs →
  ∃ E,
    export_dump_streaming path shards size data s
    = (Ok tt, State (Some (Dir E)) (pulled s + length rs)) ∧
    (∀ i : nat, (i < Z.to_nat shards - 1)%nat →
       E !! str (Z.of_nat i) = Some (shard_files [] [] [])) ∧
    E !! str (shards - 1) = Some (shard_dir rs).
Proof.
  intros Hsize Hshards Hfree Hlen Hdata Hfits.
  assert (Hq : size / shards < 0)
    by (apply Z.div_lt_upper_bound; lia).
  assert (Htotal : foldr Nat.add O (map Z.to_nat (quotas size shards))
                   = length rs).
  { rewrite quotas_eq, map_app, foldr_app by lia. cbn [map foldr].
    assert (Hgen : ∀ (k a : nat) (c : Z), c < 0 →
      foldr Nat.add a (map Z.to_nat (replicate k c)) = a)
      by (induction k; intros; simpl; [reflexivity|rewrite IHk; lia]).
    rewrite Hgen by exact Hq. lia. }
  exists (layout O (quotas size shards) rs ∅). split; [|split].
  - now apply dump_layout_total.
  - intros i Hi. change (Z.of_nat i) with (Z.of_nat (0 + i)).
    rewrite (layout_chunks _ _ _ _ _ []); [reflexivity|].
    rewrite (chunks_lookup _ _ i (size / shards)).
    + replace (Z.to_nat (size / shards)) with O by lia. now rewrite take_0.
    + rewrite quotas_eq by lia.
      rewrite lookup_app_l by (rewrite length_replicate; lia).
      apply lookup_replicate_2. lia.
  - replace (shards - 1) with (Z.of_nat (0 + (Z.to_nat shards - 1))) by lia.
    apply layout_chunks.
    rewrite (chunks_lookup _ _ _ (size / shards + size mod shards)).
    + rewrite quotas_eq by lia.
      rewrite take_app_le by (rewrite length_replicate; lia).
      rewrite take_replicate, sum_to_nat_replicate.
      replace (Z.to_nat (size / shards)) with O by lia.
      rewrite Nat.mul_0_r, drop_0. f_equal. apply take_ge. lia.
    + rewrite quotas_eq by lia.
      rewrite lookup_app_r by (rewrite length_replicate; lia).
      rewrite length_replicate.
      now replace (Z.to_nat shards - 1 - Z.to_nat (shards - 1))%nat with O
        by lia.
Qed.

(** ** Dumping documents *)

(** X13 (dump_docs never runs dry). [dump_docs] declares as many entries as
    it has documents: into a free target with [shards >= 1], and with
    payloads below 2^32 bytes, it succeeds, and the directory of shard [i]
    holds the triples of the documents from position [i * (n // shards)] on,
    as many as its quota, in their order; the metadata of every record is
    there (the serialised document), the vector is absent exactly when the
    embedding is. *)
Theorem X13_dump_docs (docs : list document) (path : string) (shards : Z)
    (root : option node) :
  root = None ∨ root = Some (Dir ∅) → 1 ≤ shards →
  Forall (fun doc => fits (doc_triple doc)) docs →
  ∃ E,
    dump_docs docs path shards root = (Ok tt, Some (Dir E)) ∧
    (∀ (i : nat) (q : Z),
       quotas (Z.of_nat (length docs)) shards !! i = Some q →
       E !! str (Z.of_nat i) =
       Some (shard_dir (map doc_triple (take (Z.to_nat q)
               (drop (i * Z.to_nat (Z.of_nat (length docs) / shards)) docs))))) ∧
    (∀ name, is_Some (E !! name) →
       ∃ i : nat, (i < Z.to_nat shards)%nat ∧ name = str (Z.of_nat i)).
Proof.
  intros Hroot Hshards Hfits. set (size := Z.of_nat (length docs)).
  exists (layout O (quotas size shards) (map doc_triple docs) ∅).
  split; [|split].
  - unfold dump_docs. fold size.
    rewrite (dump_layout (_generator_from_docs docs) path shards size
               (State root 0) (map doc_triple docs)); try assumption.
    + reflexivity.
    + subst size. now rewrite length_map.
    + intros i r Hi. unfold _generator_from_docs. cbn [pulled Nat.add].
      change (map doc_triple docs) with (doc_triple <$> docs) in Hi.
      apply list_lookup_fmap_Some in Hi as (doc & -> & ->). reflexivity.
    + now apply Forall_fmap.
  - intros i q Hq.
    assert (Hi : (i < Z.to_nat shards)%nat)
      by (rewrite <- (length_quotas size); eapply lookup_lt_Some, Hq).
    rewrite <- (quotas_offset size shards i) by (subst size; lia).
    change (Z.of_nat i) with (Z.of_nat (0 + i)).
    apply layout_chunks. rewrite chunks_map.
    change (map ?f ?l !! i) with ((f <$> l) !! i).
    rewrite list_lookup_fmap, (chunks_lookup _ docs i q Hq). reflexivity.
  - intros name Hname. apply layout_dom in Hname as [Hname|(k & Hk & ->)].
    + rewrite lookup_empty in Hname. now destruct Hname.
    + exists k. rewrite length_quotas in Hk. split; [exact Hk|reflexivity].
Qed.

End Dump.

(** * Across byte orders *)

Lemma digits_other_order (bo : endianness) (n : Z) :
  0 ≤ n < 256 →
  int_from_bytes (digits BYTE_PADDING bo n) (other_order bo) = n * 2 ^ 24.
Proof.
  intros Hn.
  assert (Hd : le_digits 4 n
    = [byte_of_Z n; byte_of_Z 0; byte_of_Z 0; byte_of_Z 0]).
  { cbn [le_digits]. rewrite (Z.div_small n 256) by lia.
    now rewrite !Z.div_0_l by lia. }
  unfold digits, int_from_bytes, BYTE_PADDING.
  destruct bo; cbn [other_order]; rewrite ?rev_involutive, Hd;
    cbn [rev app le_value]; rewrite !byte_to_Z_of_Z;
    rewrite (Z.mod_small n 256) by lia; rewrite Zmod_0_l; lia.
Qed.

(** X14 (a dump does not travel). Length prefixes are written in the byte
    order of the writing machine and read in that of the reading machine.
    When the two differ, a first payload of fewer than 256 bytes has its
    length [n] read as [n * 2^24]: in a file shorter than that, everything
    behind the first prefix, later prefixes and payloads included, comes
    out of [_metas_gen] as one single item, and [_vecs_gen] hands the same
    bytes to [np.frombuffer]. *)
Theorem X14_other_byte_order (bo : endianness) (path : string)
    (root : option node) (payload rest : list byte) :
  payload ≠ [] →
  Z.of_nat (length payload) < 256 →
  Z.of_nat (length (payload ++ rest)) ≤ Z.of_nat (length payload) * 2 ^ 24 →
  (lookup_file root (path, "metas") = Ok (framed bo payload ++ rest) →
   _metas_gen (other_order bo) path root
   = ([Some (payload ++ rest)], Finished)) ∧
  (lookup_file root (path, "vectors") = Ok (framed bo payload ++ rest) →
   _vecs_gen (other_order bo) path root
   = match frombuffer (payload ++ rest) with
     | Ok vec => ([Some vec], Finished)
     | Raise e => ([], Raised e)
     end).
Proof.
  intros Hne Hsmall Hshort.
  assert (Hn : 0 ≤ Z.of_nat (length payload) < 256 ^ Z.of_nat BYTE_PADDING)
    by (change (256 ^ Z.of_nat BYTE_PADDING) with 4294967296; lia).
  assert (Hpos : 0 < Z.of_nat (length payload))
    by (destruct payload; [contradiction|simpl; lia]).
  assert (Hread : fh_read (framed bo payload ++ rest) (Z.of_nat BYTE_PADDING)
    = (digits BYTE_PADDING bo (Z.of_nat (length payload)), payload ++ rest)).
  { unfold framed. rewrite <- app_assoc.
    rewrite <- (length_digits BYTE_PADDING bo (Z.of_nat (length payload)))
      at 2.
    apply fh_read_app. }
  assert (Hfuel : ∃ fuel, length (framed bo payload ++ rest) = S fuel).
  { unfold framed. rewrite !length_app, length_digits. simpl. eauto. }
  destruct Hfuel as [fuel Hfuel].
  split; intros Hfile.
  - rewrite (_metas_gen_open _ _ _ _ Hfile). unfold metas_of.
    cbn [metas_loop]. rewrite Hread, digits_other_order by lia.
    destruct (Z.eqb_spec (Z.of_nat (length payload) * 2 ^ 24) 0); [lia|].
    rewrite fh_read_short by exact Hshort.
    rewrite Hfuel, metas_loop_eof.
    destruct (payload ++ rest) eqn:Happ; [|reflexivity].
    apply app_eq_nil in Happ as [-> _]. contradiction.
  - rewrite (_vecs_gen_open _ _ _ _ Hfile). unfold vecs_of.
    cbn [vecs_loop]. rewrite Hread, digits_other_order by lia.
    destruct (Z.eqb_spec (Z.of_nat (length payload) * 2 ^ 24) 0); [lia|].
    rewrite fh_read_short by exact Hshort.
    rewrite Hfuel, vecs_loop_eof.
    destruct (payload ++ rest) eqn:Happ.
    + apply app_eq_nil in Happ as [-> _]. contradiction.
    + now destruct (frombuffer _).
Qed.

(** * The properties on examples *)

Lemma C1_round_trip_witness :
  (fs (State None 0) = None ∨ fs (State None 0) = Some (Dir ∅)) ∧
  1 ≤ 2 ∧
  (∀ (i : nat) x, present_items !! i = Some x →
     producer_of (map present_record present_items)
       (pulled (State None 0) + i)%nat = Some (present_record x)) ∧
  Forall (round_trips no_astype) present_items ∧
  ∃ (root : option node) (parts : list (list (string * ndarray * list byte))),
    export_dump_streaming little no_astype "dump" 2
      (Z.of_nat (length present_items))
      (producer_of (map present_record present_items)) (State None 0)
    = (Ok tt, State root (pulled (State None 0) + length present_items)) ∧
    map (fun shard_id => import_shard little root (str shard_id)) (range 2)
    = map (fun part =>
        Ok ((map (fun x => x.1.1) part, Finished),
            (map (fun x => Some x.2) part, Finished),
            (map (fun x => Some (as_float64 no_astype x.1.2)) part, Finished)))
        parts ∧
    concat parts = present_items.
Proof.
  assert (H1 : fs (State None 0) = None ∨ fs (State None 0) = Some (Dir ∅))
    by (left; reflexivity).
  assert (H2 : 1 ≤ 2) by lia.
  assert (H3 : ∀ (i : nat) x, present_items !! i = Some x →
     producer_of (map present_record present_items)
       (pulled (State None 0) + i)%nat = Some (present_record x)).
  { intros i x Hx. unfold producer_of. cbn [pulled Nat.add].
    change (map present_record present_items)
      with (present_record <$> present_items).
    now rewrite list_lookup_fmap, Hx. }
  assert (H4 : Forall (round_trips no_astype) present_items).
  { repeat first [apply Forall_nil_2 | apply Forall_cons_2];
      (split; [split; reflexivity|]); (split; [discriminate|]);
      (split; [discriminate|]); split; vm_compute; reflexivity. }
  repeat split; try assumption.
  exact (C1_round_trip little no_astype
           (producer_of (map present_record present_items)) "dump" 2
           (State None 0) present_items H1 H2 H3 H4).
Defined.

(** With a blank in front of an id the round trip fails: the id comes back
    without it. *)
Lemma C1_counterexample :
  (export_dump_streaming little no_astype "dump" 1 1
     (producer_of blank_id_records) (State None 0)).1 = Ok tt ∧
  import_shard little
    (fs (export_dump_streaming little no_astype "dump" 1 1
           (producer_of blank_id_records) (State None 0)).2) "0"
  = Ok ((["a"], Finished),
        ([Some ["001"%byte]], Finished),
        ([Some [one]], Finished)) ∧
  ["a"] ≠ map (fun r : record => r.1.1) blank_id_records.
Proof.
  split; [|split].
  - vm_compute. reflexivity.
  - vm_compute. reflexivity.
  - discriminate.
Qed.

Lemma C2_zero_length_ends_the_stream_witness :
  lookup_file zero_first_root ("0", "vectors")
    = Ok (digits BYTE_PADDING little 0
          ++ ["008"; "000"; "000"; "000"; "000"; "000"; "000"; "000";
              "000"; "000"; "240"; "063"]%byte) ∧
  lookup_file zero_first_root ("0", "metas")
    = Ok (digits BYTE_PADDING little 0
          ++ ["008"; "000"; "000"; "000"; "000"; "000"; "000"; "000";
              "000"; "000"; "240"; "063"]%byte) ∧
  _vecs_gen little "0" zero_first_root = ([], Finished) ∧
  _metas_gen little "0" zero_first_root = ([], Finished).
Proof.
  assert (Hv : lookup_file zero_first_root ("0", "vectors")
    = Ok (digits BYTE_PADDING little 0
          ++ ["008"; "000"; "000"; "000"; "000"; "000"; "000"; "000";
              "000"; "000"; "240"; "063"]%byte)) by reflexivity.
  assert (Hm : lookup_file zero_first_root ("0", "metas")
    = Ok (digits BYTE_PADDING little 0
          ++ ["008"; "000"; "000"; "000"; "000"; "000"; "000"; "000";
              "000"; "000"; "240"; "063"]%byte)) by reflexivity.
  split; [exact Hv|]. split; [exact Hm|]. split.
  - exact (proj1 (C2_zero_length_ends_the_stream little "0" zero_first_root
                    _) Hv).
  - exact (proj2 (C2_zero_length_ends_the_stream little "0" zero_first_root
                    _) Hm).
Defined.

(** Dumping a record without vector and metadata in front of a complete one
    and reading the shard back: both the vectors and the metadata generator
    end at once, having yielded nothing, although two records were
    written. *)
Lemma C2_dump_then_read :
  (export_dump_streaming little no_astype "dump" 1 2
     (producer_of absent_then_present) (State None 0)).1 = Ok tt ∧
  import_shard little
    (fs (export_dump_streaming little no_astype "dump" 1 2
           (producer_of absent_then_present) (State None 0)).2) "0"
  = Ok ((["a"; "b"], Finished), ([], Finished), ([], Finished)).
Proof. split; vm_compute; reflexivity. Qed.

Lemma C3_quota_conservation_witness :
  0 ≤ 5 ∧ 1 ≤ 2 ∧
  length (quotas 5 2) = Z.to_nat 2 ∧
  (∀ i : nat, (i < Z.to_nat 2 - 1)%nat → quotas 5 2 !! i = Some (5 / 2)) ∧
  quotas 5 2 !! (Z.to_nat 2 - 1)%nat = Some (5 / 2 + 5 mod 2) ∧
  Forall (fun q => 0 ≤ q) (quotas 5 2) ∧
  foldr Z.add 0 (quotas 5 2) = 5 ∧
  (∀ (i : nat) (q : Z), quotas 5 2 !! i = Some q →
     5 / 2 < q → i = (Z.to_nat 2 - 1)%nat) ∧
  (∀ data path s, fs s = Some (Dir ∅) →
     _handle_dump little no_astype data path 2 5 s =
     for_ (zip (range 2) (quotas 5 2)) (fun '(shard_id, quota) =>
       _write_shard_data little no_astype data path shard_id quota) s).
Proof.
  assert (H1 : 0 ≤ 5) by lia. assert (H2 : 1 ≤ 2) by lia.
  split; [exact H1|]. split; [exact H2|].
  exact (C3_quota_conservation little no_astype 5 2 H1 H2).
Defined.

Lemma C4_sequential_partition_witness :
  (fs (State None 0) = None ∨ fs (State None 0) = Some (Dir ∅)) ∧
  1 ≤ 2 ∧ 5 = Z.of_nat (length scenario_records) ∧
  (∀ (i : nat) r, scenario_records !! i = Some r →
     producer_of scenario_records (pulled (State None 0) + i)%nat = Some r) ∧
  Forall (fits no_astype) scenario_records ∧
  (∃ E,
     export_dump_streaming little no_astype "dump" 2 5
       (producer_of scenario_records) (State None 0)
     = (Ok tt, State (Some (Dir E))
                (pulled (State None 0) + length scenario_records)) ∧
     (∀ (i : nat) (q : Z), quotas 5 2 !! i = Some q →
        E !! str (Z.of_nat i) =
        Some (shard_dir little no_astype (take (Z.to_nat q)
                (drop (i * Z.to_nat (5 / 2)) scenario_records)))) ∧
     (∀ name, is_Some (E !! name) →
        ∃ i : nat, (i < Z.to_nat 2)%nat ∧ name = str (Z.of_nat i))) ∧
  length [one; one; one] = 3%nat ∧
  (quotas 5 2 = [2; 3] ∧
   (export_dump_streaming little no_astype "dump" 2 5
      (producer_of scenario_records) (State None 0)).1 = Ok tt ∧
   lookup_file
     (fs (export_dump_streaming little no_astype "dump" 2 5
            (producer_of scenario_records) (State None 0)).2) ("0", "ids")
     = Ok (list_byte_of_string "a
b
") ∧
   lookup_file
     (fs (export_dump_streaming little no_astype "dump" 2 5
            (producer_of scenario_records) (State None 0)).2) ("1", "ids")
     = Ok (list_byte_of_string "c
d
e
") ∧
   lookup_file
     (fs (export_dump_streaming little no_astype "dump" 2 5
            (producer_of scenario_records) (State None 0)).2) ("1", "vectors")
     = Ok (framed little (tobytes [one; one; one])
           ++ framed little (tobytes [one; one; one])
           ++ framed little (tobytes [one; one; one])) ∧
   length (tobytes [one; one; one]) = 24%nat ∧
   length (tobytes [one; one; one]) = 24%nat ∧
   length (tobytes [one; one; one]) = 24%nat).
Proof.
  assert (H1 : fs (State None 0) = None ∨ fs (State None 0) = Some (Dir ∅))
    by (left; reflexivity).
  assert (H2 : 1 ≤ 2) by lia.
  assert (H3 : 5 = Z.of_nat (length scenario_records)) by reflexivity.
  assert (H4 : ∀ (i : nat) r, scenario_records !! i = Some r →
     producer_of scenario_records (pulled (State None 0) + i)%nat = Some r)
    by (intros i r Hi; exact Hi).
  assert (H5 : Forall (fits no_astype) scenario_records)
    by (repeat first [apply Forall_nil_2 | apply Forall_cons_2];
        split; vm_compute; reflexivity).
  assert (H6 : length [one; one; one] = 3%nat) by reflexivity.
  destruct (C4_sequential_partition little no_astype) as [Hgeneral Hscenario].
  split; [exact H1|]. split; [exact H2|]. split; [exact H3|].
  split; [exact H4|]. split; [exact H5|]. split; [|split; [exact H6|]].
  - exact (Hgeneral (producer_of scenario_records) "dump" 2 5 (State None 0)
             scenario_records H1 H2 H3 H4 H5).
  - exact (Hscenario "dump" [one; one; one] [one; one; one] [one; one; one]
             [one; one; one] [one; one; one] H6 H6 H6 H6 H6).
Defined.

Lemma C5_non_empty_target_rejected_witness :
  (fs (State None 0) = None →
   ∃ E, fs (export_dump_streaming little no_astype "dump" 2 5
              (producer_of scenario_records) (State None 0)).2
        = Some (Dir E)) ∧
  fs (State (Some (Dir occupied_root)) 0) = Some (Dir occupied_root) ∧
  occupied_root ≠ ∅ ∧
  export_dump_streaming little no_astype "dump" 2 5
    (producer_of scenario_records) (State (Some (Dir occupied_root)) 0)
  = (Raise (Exception (not_empty_message "dump")),
     State (Some (Dir occupied_root)) 0).
Proof.
  assert (H1 : fs (State (Some (Dir occupied_root)) 0)
               = Some (Dir occupied_root)) by reflexivity.
  assert (H2 : occupied_root ≠ ∅).
  { intros H. apply (f_equal (fun m : gmap string node => m !! "old")) in H.
    discriminate H. }
  split; [|split; [exact H1|split; [exact H2|]]].
  - exact (proj1 (C5_non_empty_target_rejected little no_astype
             (producer_of scenario_records) "dump" 2 5 (State None 0))).
  - exact (proj2 (C5_non_empty_target_rejected little no_astype
             (producer_of scenario_records) "dump" 2 5
             (State (Some (Dir occupied_root)) 0)) occupied_root H1 H2).
Defined.

Lemma C6_producer_consumption_witness :
  0 ≤ 5 ∧ 1 ≤ 2 ∧
  (fs (State None 0) = None ∨ fs (State None 0) = Some (Dir ∅)) ∧
  (3 < Z.to_nat 5)%nat ∧
  (∀ i : nat, (i < 3)%nat →
     ∃ r, producer_of three_records (pulled (State None 0) + i)%nat = Some r ∧
          fits no_astype r) ∧
  producer_of three_records (pulled (State None 0) + 3)%nat = None ∧
  (pulled (export_dump_streaming little no_astype "dump" 2 5
             (producer_of three_records) (State None 0)).2
   ≤ pulled (State None 0) + Z.to_nat 5)%nat ∧
  (export_dump_streaming little no_astype "dump" 2 5
     (producer_of three_records) (State None 0)).1 = Raise StopIteration ∧
  pulled (export_dump_streaming little no_astype "dump" 2 5
            (producer_of three_records) (State None 0)).2
  = (pulled (State None 0) + 3)%nat.
Proof.
  assert (H1 : 0 ≤ 5) by lia. assert (H2 : 1 ≤ 2) by lia.
  assert (H3 : fs (State None 0) = None ∨ fs (State None 0) = Some (Dir ∅))
    by (left; reflexivity).
  assert (H4 : (3 < Z.to_nat 5)%nat) by (vm_compute; lia).
  assert (H5 : ∀ i : nat, (i < 3)%nat →
     ∃ r, producer_of three_records (pulled (State None 0) + i)%nat = Some r ∧
          fits no_astype r).
  { intros [|[|[|i]]] Hi; [| | |lia];
      (eexists; split; [reflexivity|split; vm_compute; reflexivity]). }
  assert (H6 : producer_of three_records (pulled (State None 0) + 3)%nat = None)
    by reflexivity.
  destruct (C6_producer_consumption little no_astype
              (producer_of three_records) "dump" 2 5 (State None 0) H1)
    as [Hbound Hdry].
  repeat (split; [assumption|]).
  exact (Hdry 3%nat H2 H3 H4 H5 H6).
Defined.

Lemma C7_truncated_record_is_read_short_witness :
  0 < 16 < 256 ^ Z.of_nat BYTE_PADDING ∧
  Z.of_nat (length (drop 4 truncated_content)) < 16 ∧
  lookup_file truncated_root ("0", "metas")
    = Ok (flat_map (framed little) []
          ++ digits BYTE_PADDING little 16 ++ drop 4 truncated_content) ∧
  lookup_file truncated_root ("0", "vectors")
    = Ok (flat_map (fun items => framed little (tobytes items)) []
          ++ digits BYTE_PADDING little 16 ++ drop 4 truncated_content) ∧
  drop 4 truncated_content ≠ [] ∧
  (length (drop 4 truncated_content) mod 8 = 0)%nat ∧
  _metas_gen little "0" truncated_root
    = (map Some [] ++ [Some (drop 4 truncated_content)], Finished) ∧
  ∃ vec, tobytes vec = drop 4 truncated_content ∧
    _vecs_gen little "0" truncated_root = (map Some [] ++ [Some vec], Finished).
Proof.
  assert (H1 : 0 < 16 < 256 ^ Z.of_nat BYTE_PADDING) by (vm_compute; split; reflexivity).
  assert (H2 : Z.of_nat (length (drop 4 truncated_content)) < 16)
    by (vm_compute; reflexivity).
  assert (H3 : lookup_file truncated_root ("0", "metas")
    = Ok (flat_map (framed little) []
          ++ digits BYTE_PADDING little 16 ++ drop 4 truncated_content))
    by reflexivity.
  assert (H4 : lookup_file truncated_root ("0", "vectors")
    = Ok (flat_map (fun items => framed little (tobytes items)) []
          ++ digits BYTE_PADDING little 16 ++ drop 4 truncated_content))
    by reflexivity.
  assert (H5 : drop 4 truncated_content ≠ []) by discriminate.
  assert (H6 : (length (drop 4 truncated_content) mod 8 = 0)%nat)
    by reflexivity.
  destruct (C7_truncated_record_is_read_short little "0" truncated_root 16
              (drop 4 truncated_content) H1 H2) as [Hmetas Hvecs].
  repeat (split; [assumption|]). split.
  - exact (Hmetas [] (Forall_nil_2 _) H3).
  - exact (proj1 (proj2 (Hvecs [] (Forall_nil_2 _) H4)) H5 H6).
Defined.

(** The length prefix announces 16 bytes, 8 are there: both readers yield
    the 8 bytes as if they were the record and end normally. *)
Lemma C7_counterexample :
  lookup_file truncated_root ("0", "metas")
    = Ok (digits BYTE_PADDING little 16 ++ item_bytes one) ∧
  lookup_file truncated_root ("0", "vectors")
    = Ok (digits BYTE_PADDING little 16 ++ item_bytes one) ∧
  _metas_gen little "0" truncated_root = ([Some (item_bytes one)], Finished) ∧
  _vecs_gen little "0" truncated_root = ([Some [one]], Finished).
Proof. repeat split; vm_compute; reflexivity. Qed.

Lemma C8_shard_count_below_one_witness :
  (fs (State None 0) = None ∨ fs (State None 0) = Some (Dir ∅)) ∧
  0 < 1 ∧
  export_dump_streaming little no_astype "dump" 0 5
    (producer_of scenario_records) (State None 0)
  = (if 0 =? 0 then Raise ZeroDivisionError else Ok tt,
     State (Some (Dir ∅)) (pulled (State None 0))).
Proof.
  assert (H1 : fs (State None 0) = None ∨ fs (State None 0) = Some (Dir ∅))
    by (left; reflexivity).
  assert (H2 : 0 < 1) by lia.
  split; [exact H1|]. split; [exact H2|].
  exact (C8_shard_count_below_one little no_astype
           (producer_of scenario_records) "dump" 0 5 (State None 0) H1 H2).
Defined.

(** A negative shard count is no error: the dump returns normally, with an
    empty directory and no record pulled. *)
Lemma C8_counterexample :
  export_dump_streaming little no_astype "dump" (-1) 5
    (producer_of scenario_records) (State None 0)
  = (Ok tt, State (Some (Dir ∅)) 0).
Proof. vm_compute. reflexivity. Qed.

Lemma C9_missing_artifacts_witness :
  ({[ "0" := Dir no_metas_files ]} : gmap string node) !! "0"
    = Some (Dir no_metas_files) ∧
  no_metas_files !! "metas" = None ∧
  no_metas_files !! "vectors"
    = Some (File (["008"; "000"; "000"; "000"; "000"; "000"; "000"; "000";
                   "000"; "000"; "240"; "063"]%byte)) ∧
  import_vectors little "0" = Ok (_ids_gen "0", _vecs_gen little "0") ∧
  _ids_gen "0" None = ([], Raised FileNotFoundError) ∧
  _metas_gen little "0" no_metas_root = ([], Raised FileNotFoundError) ∧
  _vecs_gen little "0" no_metas_root
    = vecs_of little (["008"; "000"; "000"; "000"; "000"; "000"; "000"; "000";
                       "000"; "000"; "240"; "063"]%byte).
Proof.
  assert (H1 : ({[ "0" := Dir no_metas_files ]} : gmap string node) !! "0"
               = Some (Dir no_metas_files)) by reflexivity.
  assert (H2 : no_metas_files !! "metas" = None) by reflexivity.
  assert (H3 : no_metas_files !! "vectors"
    = Some (File (["008"; "000"; "000"; "000"; "000"; "000"; "000"; "000";
                   "000"; "000"; "240"; "063"]%byte))) by reflexivity.
  destruct (C9_missing_artifacts little "0")
    as (Hcall & _ & _ & Hdir & Hfiles).
  destruct (Hfiles _ _ H1) as (_ & _ & Hmetas & _ & Hvecs & _).
  repeat (split; [assumption|]). split; [|split].
  - exact (proj1 (Hdir None (or_introl eq_refl))).
  - exact (Hmetas H2).
  - exact (Hvecs _ H3).
Defined.

(** A shard without a metas file: [import_vectors] and both of its
    generators work as if nothing were missing. *)
Lemma C9_counterexample :
  lookup_file no_metas_root ("0", "metas") = Raise FileNotFoundError ∧
  import_vectors little "0" = Ok (_ids_gen "0", _vecs_gen little "0") ∧
  _ids_gen "0" no_metas_root = (["a"], Finished) ∧
  _vecs_gen little "0" no_metas_root = ([Some [one]], Finished).
Proof. repeat split; vm_compute; reflexivity. Qed.

Lemma C10_bytes_vectors_written_verbatim_witness :
  producer_of [raw_bytes_record] 0%nat
    = Some ("a", VecBytes ["001"; "002"; "003"]%byte, None) ∧
  Z.of_nat (length ["001"; "002"; "003"]%byte) < 256 ^ Z.of_nat BYTE_PADDING ∧
  Z.of_nat (length (meta_bytes None)) < 256 ^ Z.of_nat BYTE_PADDING ∧
  _write_shard_files little no_astype (producer_of [raw_bytes_record])
    ("0", "ids") ("0", "metas") ("0", "vectors") (in_shard "0" [] [] [] ∅ 0)
  = (Ok tt,
     in_shard "0"
       ([] ++ digits BYTE_PADDING little
                (Z.of_nat (length ["001"; "002"; "003"]%byte))
           ++ ["001"; "002"; "003"]%byte)
       ([] ++ framed little (meta_bytes None))
       ([] ++ list_byte_of_string ("a" +:+ String "010" EmptyString))
       ∅ 1).
Proof.
  assert (H1 : producer_of [raw_bytes_record] 0%nat
    = Some ("a", VecBytes ["001"; "002"; "003"]%byte, None)) by reflexivity.
  assert (H2 : Z.of_nat (length ["001"; "002"; "003"]%byte)
               < 256 ^ Z.of_nat BYTE_PADDING) by (vm_compute; reflexivity).
  assert (H3 : Z.of_nat (length (meta_bytes None))
               < 256 ^ Z.of_nat BYTE_PADDING) by (vm_compute; reflexivity).
  repeat (split; [assumption|]).
  exact (proj1 (C10_bytes_vectors_written_verbatim little no_astype)
           (producer_of [raw_bytes_record]) "0" [] [] [] ∅ 0%nat "a"
           ["001"; "002"; "003"]%byte None H1 H2 H3).
Defined.

Lemma X1_target_is_used_once_witness :
  free_target (State None 0) ∧ 1 ≤ 2 ∧
  has_entry "0"
    (export_dump_streaming little no_astype "dump" 2 5
       (producer_of three_records) (State None 0)).2 ∧
  export_dump_streaming little no_astype "dump" 1 0 (producer_of [])
    (export_dump_streaming little no_astype "dump" 2 5
       (producer_of three_records) (State None 0)).2
  = (Raise (Exception (not_empty_message "dump")),
     (export_dump_streaming little no_astype "dump" 2 5
        (producer_of three_records) (State None 0)).2).
Proof.
  assert (H1 : free_target (State None 0)) by (left; reflexivity).
  assert (H2 : 1 ≤ 2) by lia.
  split; [exact H1|]. split; [exact H2|].
  exact (X1_target_is_used_once little no_astype (producer_of three_records)
           (producer_of []) "dump" 2 5 1 0 (State None 0) H1 H2).
Defined.

Lemma X2_empty_dump_witness :
  free_target (State None 0) ∧ 1 ≤ 3 ∧
  ∃ E,
    export_dump_streaming little no_astype "dump" 3 0
      (producer_of scenario_records) (State None 0)
    = (Ok tt, State (Some (Dir E)) (pulled (State None 0))) ∧
    (∀ name, is_Some (E !! name) ↔
       ∃ i : nat, (i < Z.to_nat 3)%nat ∧ name = str (Z.of_nat i)) ∧
    (∀ i : nat, (i < Z.to_nat 3)%nat →
       E !! str (Z.of_nat i) = Some (shard_files [] [] []) ∧
       import_shard little (Some (Dir E)) (str (Z.of_nat i))
       = Ok (([], Finished), ([], Finished), ([], Finished))).
Proof.
  assert (H1 : free_target (State None 0)) by (left; reflexivity).
  assert (H2 : 1 ≤ 3) by lia.
  split; [exact H1|]. split; [exact H2|].
  exact (X2_empty_dump little no_astype (producer_of scenario_records)
           "dump" 3 (State None 0) H1 H2).
Defined.

Lemma X3_import_vectors_round_trip_witness :
  free_target (State None 0) ∧ 1 ≤ 2 ∧
  (∀ (i : nat) x, vector_items !! i = Some x →
     producer_of (map with_vector vector_items)
       (pulled (State None 0) + i)%nat = Some (with_vector x)) ∧
  Forall (fun x => clean_id x.1.1 ∧ as_float64 no_astype x.1.2 ≠ [] ∧
                   fits no_astype (with_vector x)) vector_items ∧
  ∃ (root : option node)
    (parts : list (list (string * ndarray * option (list byte)))),
    export_dump_streaming little no_astype "dump" 2
      (Z.of_nat (length vector_items))
      (producer_of (map with_vector vector_items)) (State None 0)
    = (Ok tt, State root (pulled (State None 0) + length vector_items)) ∧
    map (fun shard_id => import_vectors_shard little root (str shard_id))
        (range 2)
    = map (fun part =>
        Ok ((map (fun x => x.1.1) part, Finished),
            (map (fun x => Some (as_float64 no_astype x.1.2)) part, Finished)))
        parts ∧
    concat parts = vector_items.
Proof.
  assert (H1 : free_target (State None 0)) by (left; reflexivity).
  assert (H2 : 1 ≤ 2) by lia.
  assert (H3 : ∀ (i : nat) x, vector_items !! i = Some x →
     producer_of (map with_vector vector_items)
       (pulled (State None 0) + i)%nat = Some (with_vector x)).
  { intros i x Hx. unfold producer_of. cbn [pulled Nat.add].
    change (map with_vector vector_items) with (with_vector <$> vector_items).
    now rewrite list_lookup_fmap, Hx. }
  assert (H4 : Forall (fun x => clean_id x.1.1 ∧
      as_float64 no_astype x.1.2 ≠ [] ∧ fits no_astype (with_vector x))
      vector_items).
  { repeat first [apply Forall_nil_2 | apply Forall_cons_2];
      (split; [split; reflexivity|]); (split; [discriminate|]);
      split; vm_compute; reflexivity. }
  split; [exact H1|]. split; [exact H2|]. split; [exact H3|].
  split; [exact H4|].
  exact (X3_import_vectors_round_trip little no_astype
           (producer_of (map with_vector vector_items)) "dump" 2
           (State None 0) vector_items H1 H2 H3 H4).
Defined.

Lemma X4_import_metas_round_trip_witness :
  free_target (State None 0) ∧ 1 ≤ 2 ∧
  (∀ (i : nat) x, meta_items !! i = Some x →
     producer_of (map with_meta meta_items)
       (pulled (State None 0) + i)%nat = Some (with_meta x)) ∧
  Forall (fun x => clean_id x.1.1 ∧ x.2 ≠ [] ∧
                   fits no_astype (with_meta x)) meta_items ∧
  ∃ (root : option node)
    (parts : list (list (string * vec_field * list byte))),
    export_dump_streaming little no_astype "dump" 2
      (Z.of_nat (length meta_items))
      (producer_of (map with_meta meta_items)) (State None 0)
    = (Ok tt, State root (pulled (State None 0) + length meta_items)) ∧
    map (fun shard_id => import_metas_shard little root (str shard_id))
        (range 2)
    = map (fun part =>
        Ok ((map (fun x => x.1.1) part, Finished),
            (map (fun x => Some x.2) part, Finished))) parts ∧
    concat parts = meta_items.
Proof.
  assert (H1 : free_target (State None 0)) by (left; reflexivity).
  assert (H2 : 1 ≤ 2) by lia.
  assert (H3 : ∀ (i : nat) x, meta_items !! i = Some x →
     producer_of (map with_meta meta_items)
       (pulled (State None 0) + i)%nat = Some (with_meta x)).
  { intros i x Hx. unfold producer_of. cbn [pulled Nat.add].
    change (map with_meta meta_items) with (with_meta <$> meta_items).
    now rewrite list_lookup_fmap, Hx. }
  assert (H4 : Forall (fun x => clean_id x.1.1 ∧ x.2 ≠ [] ∧
                   fits no_astype (with_meta x)) meta_items).
  { repeat first [apply Forall_nil_2 | apply Forall_cons_2];
      (split; [split; reflexivity|]); (split; [discriminate|]);
      split; vm_compute; reflexivity. }
  split; [exact H1|]. split; [exact H2|]. split; [exact H3|].
  split; [exact H4|].
  exact (X4_import_metas_round_trip little no_astype
           (producer_of (map with_meta meta_items)) "dump" 2
           (State None 0) meta_items H1 H2 H3 H4).
Defined.


Lemma X6_readers_terminate_witness :
  lookup_file two_frames_root ("0", "vectors")
  = Ok ["001"; "000"; "000"; "000"; "007";
        "001"; "000"; "000"; "000"; "008"]%byte ∧
  lookup_file two_frames_root ("0", "metas")
  = Ok ["001"; "000"; "000"; "000"; "007";
        "001"; "000"; "000"; "000"; "008"]%byte ∧
  (_vecs_gen little "0" two_frames_root).2 ≠ OutOfFuel ∧
  (_metas_gen little "0" two_frames_root).2 ≠ OutOfFuel ∧
  (length (_vecs_gen little "0" two_frames_root).1 ≤ 10)%nat ∧
  (length (_metas_gen little "0" two_frames_root).1 ≤ 10)%nat.
Proof.
  assert (H1 : lookup_file two_frames_root ("0", "vectors")
    = Ok ["001"; "000"; "000"; "000"; "007";
          "001"; "000"; "000"; "000"; "008"]%byte) by reflexivity.
  assert (H2 : lookup_file two_frames_root ("0", "metas")
    = Ok ["001"; "000"; "000"; "000"; "007";
          "001"; "000"; "000"; "000"; "008"]%byte) by reflexivity.
  split; [exact H1|]. split; [exact H2|].
  destruct (X6_readers_terminate little "0" two_frames_root)
    as (Hv & Hm & Hvn & Hmn).
  split; [exact Hv|]. split; [exact Hm|].
  split; [exact (Hvn _ H1) | exact (Hmn _ H2)].
Defined.

Lemma X8_stray_prefix_bytes_witness :
  (0 < length ["001"; "002"]%byte < BYTE_PADDING)%nat ∧
  _metas_gen little "0" stray_root
  = ([Some ["007"%byte]; None], Finished) ∧
  _vecs_gen little "0" stray_root = ([None], Finished).
Proof.
  assert (H1 : (0 < length ["001"; "002"]%byte < BYTE_PADDING)%nat)
    by (vm_compute; lia).
  split; [exact H1|].
  destruct (X8_stray_prefix_bytes little "0" stray_root
              ["001"; "002"]%byte H1) as [Hm Hv].
  split.
  - apply (Hm [["007"%byte]]); [|reflexivity].
    apply Forall_cons_2; [|apply Forall_nil_2].
    split; [discriminate | vm_compute; reflexivity].
  - apply (Hv []); [apply Forall_nil_2 | reflexivity].
Defined.


Lemma X10_id_lines_become_ids_witness :
  free_target (State None 0) ∧ 1 ≤ 2 ∧
  (∀ (i : nat) x, line_items !! i = Some x →
     producer_of (map with_lines line_items)
       (pulled (State None 0) + i)%nat = Some (with_lines x)) ∧
  Forall (fun x => Forall clean_id (x.1.1.1 :: x.1.1.2) ∧
                   fits no_astype (with_lines x)) line_items ∧
  ∃ (root : option node)
    (parts : list (list (string * list string * vec_field
                         * option (list byte)))),
    export_dump_streaming little no_astype "dump" 2
      (Z.of_nat (length line_items))
      (producer_of (map with_lines line_items)) (State None 0)
    = (Ok tt, State root (pulled (State None 0) + length line_items)) ∧
    map (fun shard_id => _ids_gen (str shard_id) root) (range 2)
    = map (fun part =>
        (flat_map (fun x => x.1.1.1 :: x.1.1.2) part, Finished)) parts ∧
    concat parts = line_items.
Proof.
  assert (H1 : free_target (State None 0)) by (left; reflexivity).
  assert (H2 : 1 ≤ 2) by lia.
  assert (H3 : ∀ (i : nat) x, line_items !! i = Some x →
     producer_of (map with_lines line_items)
       (pulled (State None 0) + i)%nat = Some (with_lines x)).
  { intros i x Hx. unfold producer_of. cbn [pulled Nat.add].
    change (map with_lines line_items) with (with_lines <$> line_items).
    now rewrite list_lookup_fmap, Hx. }
  assert (H4 : Forall (fun x => Forall clean_id (x.1.1.1 :: x.1.1.2) ∧
                   fits no_astype (with_lines x)) line_items).
  { repeat first [apply Forall_nil_2 | apply Forall_cons_2]; split;
      try (repeat first [apply Forall_nil_2 | apply Forall_cons_2];
           split; reflexivity);
      split; vm_compute; reflexivity. }
  split; [exact H1|]. split; [exact H2|]. split; [exact H3|].
  split; [exact H4|].
  exact (X10_id_lines_become_ids little no_astype
           (producer_of (map with_lines line_items)) "dump" 2
           (State None 0) line_items H1 H2 H3 H4).
Defined.

Lemma X11_quotas_balance_witness :
  0 ≤ 6 ∧ 1 ≤ 3 ∧ 6 mod 3 = 0 ∧
  (∀ (i : nat) (q last : Z), (i < Z.to_nat 3 - 1)%nat →
     quotas 6 3 !! i = Some q →
     quotas 6 3 !! (Z.to_nat 3 - 1)%nat = Some last →
     last - q = 6 mod 3 ∧ 0 ≤ last - q < 3) ∧
  quotas 6 3 = replicate (Z.to_nat 3) (6 / 3).
Proof.
  assert (H1 : 0 ≤ 6) by lia.
  assert (H2 : 1 ≤ 3) by lia.
  assert (H3 : 6 mod 3 = 0) by reflexivity.
  split; [exact H1|]. split; [exact H2|]. split; [exact H3|].
  destruct (X11_quotas_balance 6 3 H1 H2) as (Hd & _ & He).
  split; [exact Hd | exact (He H3)].
Defined.

Lemma X12_negative_size_witness :
  -1 < 0 ∧ 1 ≤ 3 ∧ free_target (State None 0) ∧
  length (take 1 scenario_records) = Z.to_nat (-1 / 3 + -1 mod 3) ∧
  (∀ (i : nat) r, take 1 scenario_records !! i = Some r →
     producer_of (take 1 scenario_records)
       (pulled (State None 0) + i)%nat = Some r) ∧
  Forall (fits no_astype) (take 1 scenario_records) ∧
  ∃ E,
    export_dump_streaming little no_astype "dump" 3 (-1)
      (producer_of (take 1 scenario_records)) (State None 0)
    = (Ok tt, State (Some (Dir E))
                (pulled (State None 0) + length (take 1 scenario_records))) ∧
    (∀ i : nat, (i < Z.to_nat 3 - 1)%nat →
       E !! str (Z.of_nat i) = Some (shard_files [] [] [])) ∧
    E !! str (3 - 1)
    = Some (shard_dir little no_astype (take 1 scenario_records)).
Proof.
  assert (H1 : -1 < 0) by lia.
  assert (H2 : 1 ≤ 3) by lia.
  assert (H3 : free_target (State None 0)) by (left; reflexivity).
  assert (H4 : length (take 1 scenario_records)
               = Z.to_nat (-1 / 3 + -1 mod 3)) by reflexivity.
  assert (H5 : ∀ (i : nat) r, take 1 scenario_records !! i = Some r →
     producer_of (take 1 scenario_records)
       (pulled (State None 0) + i)%nat = Some r)
    by (intros i r Hi; exact Hi).
  assert (H6 : Forall (fits no_astype) (take 1 scenario_records))
    by (repeat first [apply Forall_nil_2 | apply Forall_cons_2];
        split; vm_compute; reflexivity).
  split; [exact H1|]. split; [exact H2|]. split; [exact H3|].
  split; [exact H4|]. split; [exact H5|]. split; [exact H6|].
  exact (X12_negative_size little no_astype
           (producer_of (take 1 scenario_records)) "dump" 3 (-1)
           (State None 0) (take 1 scenario_records) H1 H2 H3 H4 H5 H6).
Defined.

Lemma X13_dump_docs_witness :
  (@None node = None ∨ @None node = Some (Dir ∅)) ∧ 1 ≤ 2 ∧
  Forall (fun doc =>
            fits no_astype
              (doc_triple example_document example_id example_embedding
                 example_without_embedding doc))
         example_docs ∧
  ∃ E,
    dump_docs little no_astype example_document example_id
      example_embedding example_without_embedding example_docs "dump" 2 None
    = (Ok tt, Some (Dir E)) ∧
    (∀ (i : nat) (q : Z),
       quotas (Z.of_nat (length example_docs)) 2 !! i = Some q →
       E !! str (Z.of_nat i) =
       Some (shard_dir little no_astype
               (map (doc_triple example_document example_id
                       example_embedding example_without_embedding)
                  (take (Z.to_nat q)
                     (drop (i * Z.to_nat (Z.of_nat (length example_docs) / 2))
                        example_docs))))) ∧
    (∀ name, is_Some (E !! name) →
       ∃ i : nat, (i < Z.to_nat 2)%nat ∧ name = str (Z.of_nat i)).
Proof.
  assert (H1 : @None node = None ∨ @None node = Some (Dir ∅))
    by (left; reflexivity).
  assert (H2 : 1 ≤ 2) by lia.
  assert (H3 : Forall (fun doc =>
            fits no_astype
              (doc_triple example_document example_id example_embedding
                 example_without_embedding doc))
         example_docs)
    by (repeat first [apply Forall_nil_2 | apply Forall_cons_2];
        split; vm_compute; reflexivity).
  split; [exact H1|]. split; [exact H2|]. split; [exact H3|].
  exact (X13_dump_docs little no_astype example_document example_id
           example_embedding example_without_embedding example_docs "dump" 2 None H1 H2 H3).
Defined.

Lemma X14_other_byte_order_witness :
  ["007"%byte] ≠ [] ∧
  Z.of_nat (length ["007"%byte]) < 256 ∧
  Z.of_nat (length (["007"%byte]
                    ++ ["001"; "000"; "000"; "000"; "008"]%byte))
  ≤ Z.of_nat (length ["007"%byte]) * 2 ^ 24 ∧
  lookup_file two_frames_root ("0", "metas")
  = Ok (framed little ["007"%byte]
        ++ ["001"; "000"; "000"; "000"; "008"]%byte) ∧
  _metas_gen big "0" two_frames_root
  = ([Some ["007"; "001"; "000"; "000"; "000"; "008"]%byte], Finished) ∧
  _vecs_gen big "0" two_frames_root = ([], Raised ValueError).
Proof.
  assert (H1 : ["007"%byte] ≠ []) by discriminate.
  assert (H2 : Z.of_nat (length ["007"%byte]) < 256) by (vm_compute; reflexivity).
  assert (H3 : Z.of_nat (length (["007"%byte]
                    ++ ["001"; "000"; "000"; "000"; "008"]%byte))
               ≤ Z.of_nat (length ["007"%byte]) * 2 ^ 24)
    by (vm_compute; discriminate).
  assert (H4 : lookup_file two_frames_root ("0", "metas")
    = Ok (framed little ["007"%byte]
          ++ ["001"; "000"; "000"; "000"; "008"]%byte)) by reflexivity.
  assert (H5 : lookup_file two_frames_root ("0", "vectors")
    = Ok (framed little ["007"%byte]
          ++ ["001"; "000"; "000"; "000"; "008"]%byte)) by reflexivity.
  split; [exact H1|]. split; [exact H2|]. split; [exact H3|].
  split; [exact H4|].
  destruct (X14_other_byte_order little "0" two_frames_root ["007"%byte]
              ["001"; "000"; "000"; "000"; "008"]%byte H1 H2 H3) as [Hm Hv].
  split; [exact (Hm H4) | exact (Hv H5)].
Defined.
